(** * Skill-exchange application

    A shallow embedding of the schema, row-level policies, storage policies
    and sign-up trigger of the migration script, of the backend calls the
    pages issue, and of the page handlers of [SwapRequestsPage],
    [SearchPage], [FeedbackPage], [SkillsPage] and [ProfilePage], followed
    by the properties proved about them.

    Conventions.
    - Identifiers (UUID columns) and text are [string]s; timestamps are
      natural numbers.  The value drawn by [gen_random_uuid()] and the value
      of [now()] are inputs of the call that needs them.
    - A nullable column is an [option].
    - Every backend call takes the outcome of the transport first: [Some m]
      when the request never reaches the backend (the client then reports an
      error with message [m]), [None] when it does.
    - Only authenticated sessions are modelled: [uid] is the value of
      [auth.uid()], which is [user.id] in the pages.
    - Letter case and white space are those of ASCII. *)

From Stdlib Require Import List String Ascii ZArith Bool Arith Lia Permutation.
From Stdlib Require Import Sorted.
Import ListNotations.
Local Open Scope string_scope.
Local Open Scope nat_scope.
Local Open Scope list_scope.

Notation "a +++ b" := (String.append a b) (at level 60, right associativity).

Definition uuid := string.
Definition timestamp := nat.

(** ** Text primitives of JavaScript and SQL *)

Module Text.

(** A [string] is a sequence of bytes, the UTF-8 encoding of the text.  The
    primitives below treat each byte as a character and know the letters
    and the white space of ASCII only: they are the primitives of
    JavaScript and SQL on the strings that are [is_ascii], and say nothing
    reliable on others (JavaScript and PostgreSQL fold the case of letters
    beyond ASCII, strip white space such as U+00A0, and count characters,
    not bytes).  The statements that depend on how text is folded, trimmed
    or matched carry [is_ascii] as a hypothesis. *)
Fixpoint is_ascii (s : string) : bool :=
  match s with
  | EmptyString => true
  | String c s' => (nat_of_ascii c <? 128) && is_ascii s'
  end.

Definition is_upper (c : ascii) : bool :=
  let n := nat_of_ascii c in (65 <=? n) && (n <=? 90).

Definition lower_char (c : ascii) : ascii :=
  if is_upper c then ascii_of_nat (nat_of_ascii c + 32) else c.

(** [String.prototype.toLowerCase] / SQL [lower], on ASCII strings. *)
Fixpoint toLowerCase (s : string) : string :=
  match s with
  | EmptyString => EmptyString
  | String c s' => String (lower_char c) (toLowerCase s')
  end.

(** Tab, line feed, vertical tab, form feed, carriage return, space: the
    white space of ASCII. *)
Definition is_space (c : ascii) : bool :=
  let n := nat_of_ascii c in ((9 <=? n) && (n <=? 13)) || (n =? 32).

Fixpoint trimStart (s : string) : string :=
  match s with
  | EmptyString => EmptyString
  | String c s' => if is_space c then trimStart s' else s
  end.

Fixpoint rev_onto (s acc : string) : string :=
  match s with
  | EmptyString => acc
  | String c s' => rev_onto s' (String c acc)
  end.

Definition reverse (s : string) : string := rev_onto s EmptyString.

(** [String.prototype.trim], on ASCII strings. *)
Definition trim (s : string) : string :=
  reverse (trimStart (reverse (trimStart s))).

(** Truthiness of a JavaScript string: every string but the empty one. *)
Definition truthy (s : string) : bool :=
  match s with EmptyString => false | String _ _ => true end.

Definition char_eq (ci : bool) (a b : ascii) : bool :=
  if ci then Ascii.eqb (lower_char a) (lower_char b) else Ascii.eqb a b.

(** SQL [LIKE] ([ci = false]) and [ILIKE] ([ci = true]) with the default
    escape character: [%] matches any run of characters, [_] any single
    character, a backslash takes the next pattern character literally.
    A pattern that ends in a lone backslash matches nothing here (the
    database raises an error there; the patterns built by the pages end in
    [%]).  Exact on ASCII patterns and strings, where a character is a
    byte and the letters are those of ASCII. *)
Fixpoint like (ci : bool) (pattern s : string) {struct pattern} : bool :=
  match pattern with
  | EmptyString =>
      match s with EmptyString => true | String _ _ => false end
  | String c p' =>
      if Ascii.eqb c "%" then
        (fix any (t : string) : bool :=
           like ci p' t
           || match t with
              | EmptyString => false
              | String _ t' => any t'
              end) s
      else if Ascii.eqb c "_" then
        match s with
        | EmptyString => false
        | String _ s' => like ci p' s'
        end
      else if Ascii.eqb c "\" then
        match p' with
        | EmptyString => false
        | String e p'' =>
            match s with
            | EmptyString => false
            | String d s' => char_eq ci e d && like ci p'' s'
            end
        end
      else
        match s with
        | EmptyString => false
        | String d s' => char_eq ci c d && like ci p' s'
        end
  end.

Definition ilike : string -> string -> bool := like true.

(** [s] starts with [t], letter case ignored. *)
Fixpoint ci_prefix (t s : string) : bool :=
  match t with
  | EmptyString => true
  | String c t' =>
      match s with
      | EmptyString => false
      | String d s' => char_eq true c d && ci_prefix t' s'
      end
  end.

(** [t] occurs in [s] as a substring, letter case ignored. *)
Fixpoint ci_substring (t s : string) : bool :=
  ci_prefix t s
  || match s with
     | EmptyString => false
     | String _ s' => ci_substring t s'
     end.

(** No character of [t] is special in a [LIKE] pattern sent through
    PostgREST: none is [%], [_], a backslash, or the [*] that PostgREST
    reads as [%]. *)
Fixpoint wildcard_free (t : string) : bool :=
  match t with
  | EmptyString => true
  | String c t' =>
      negb (Ascii.eqb c "%") && negb (Ascii.eqb c "_")
      && negb (Ascii.eqb c "\") && negb (Ascii.eqb c "*")
      && wildcard_free t'
  end.

Definition digit_val (c : ascii) : option Z :=
  let n := nat_of_ascii c in
  if (48 <=? n) && (n <=? 57) then Some (Z.of_nat (n - 48))
  else if (97 <=? n) && (n <=? 102) then Some (Z.of_nat (n - 87))
  else if (65 <=? n) && (n <=? 70) then Some (Z.of_nat (n - 55))
  else None.

(** The longest prefix of digits of [s] in base [radix], read as a number;
    [acc] is the value read so far, [None] when no digit was read. *)
Fixpoint digits (radix : Z) (s : string) (acc : option Z) : option Z :=
  match s with
  | EmptyString => acc
  | String c s' =>
      match digit_val c with
      | Some d =>
          if (d <? radix)%Z then
            digits radix s'
              (Some (match acc with
                     | Some a => a * radix + d
                     | None => d
                     end)%Z)
          else acc
      | None => acc
      end
  end.

Definition unsigned (s : string) : option Z :=
  match s with
  | String "0" (String x s') =>
      if Ascii.eqb x "x" || Ascii.eqb x "X" then digits 16 s' None
      else digits 10 s None
  | _ => digits 10 s None
  end.

(** [parseInt(s)] without a radix argument; [None] is [NaN].  The result
    is the exact integer: it is the number JavaScript returns for numerals
    below 2^53. *)
Definition parseInt (s : string) : option Z :=
  match trimStart s with
  | String "-" s' => option_map Z.opp (unsigned s')
  | String "+" s' => unsigned s'
  | s' => unsigned s'
  end.

Definition is_lower (c : ascii) : bool :=
  let n := nat_of_ascii c in (97 <=? n) && (n <=? 122).

Definition upper_char (c : ascii) : ascii :=
  if is_lower c then ascii_of_nat (nat_of_ascii c - 32) else c.

(** [String.prototype.toUpperCase], on ASCII strings. *)
Fixpoint toUpperCase (s : string) : string :=
  match s with
  | EmptyString => EmptyString
  | String c s' => String (upper_char c) (toUpperCase s')
  end.

(** [s.charAt(0)] and [s.slice(1)], on strings that start with an ASCII
    character. *)
Definition charAt0 (s : string) : string :=
  match s with EmptyString => EmptyString | String c _ => String c "" end.

Definition slice1 (s : string) : string :=
  match s with EmptyString => EmptyString | String _ s' => s' end.

(** [s.split(sep)] for a separator of one character: the pieces of [s]
    between the separators, at least one piece. *)
Fixpoint split (sep : ascii) (s : string) : list string :=
  match s with
  | EmptyString => [EmptyString]
  | String c s' =>
      if Ascii.eqb c sep then EmptyString :: split sep s'
      else
        match split sep s' with
        | [] => [String c EmptyString]
        | piece :: pieces => String c piece :: pieces
        end
  end.

(** [string_to_array(s, sep)] of SQL: as [split], but the empty string
    gives the empty array. *)
Definition string_to_array (s : string) (sep : ascii) : list string :=
  match s with EmptyString => [] | _ => split sep s end.

End Text.

(** ** [Map] and [Set] of JavaScript: insertion-ordered, keyed by strings *)

Module JsMap.

Definition t (V : Type) := list (string * V).

Fixpoint get {V} (k : string) (m : t V) : option V :=
  match m with
  | [] => None
  | (k', v) :: m' => if String.eqb k' k then Some v else get k m'
  end.

Definition has {V} (k : string) (m : t V) : bool :=
  match get k m with Some _ => true | None => false end.

(** [m.set(k, v)]: an existing key keeps its place, a new one goes last. *)
Fixpoint set {V} (k : string) (v : V) (m : t V) : t V :=
  match m with
  | [] => [(k, v)]
  | (k', v') :: m' =>
      if String.eqb k' k then (k, v) :: m' else (k', v') :: set k v m'
  end.

(** [new Map(entries)]. *)
Definition of_entries {V} (entries : list (string * V)) : t V :=
  fold_left (fun m kv => set (fst kv) (snd kv) m) entries [].

(** [Array.from(m.values())]. *)
Definition values {V} (m : t V) : list V := map snd m.

Definition keys {V} (m : t V) : list string := map fst m.

End JsMap.

Module JsSet.

Definition t := list string.

Definition has (x : string) (s : t) : bool :=
  existsb (String.eqb x) s.

Definition add (x : string) (s : t) : t :=
  if has x s then s else s ++ [x].

(** [new Set(items)]; the list itself is [[...set]]. *)
Definition of_list (items : list string) : t :=
  fold_left (fun s x => add x s) items [].

End JsSet.

(** ** Schema: the tables of the migration script *)

Inductive Status := pending | accepted | rejected.
Inductive SkillType := offered | wanted.

Definition Status_eqb (a b : Status) : bool :=
  match a, b with
  | pending, pending | accepted, accepted | rejected, rejected => true
  | _, _ => false
  end.

Definition SkillType_eqb (a b : SkillType) : bool :=
  match a, b with
  | offered, offered | wanted, wanted => true
  | _, _ => false
  end.

Definition Status_text (s : Status) : string :=
  match s with
  | pending => "pending"
  | accepted => "accepted"
  | rejected => "rejected"
  end.

Definition SkillType_text (t : SkillType) : string :=
  match t with offered => "offered" | wanted => "wanted" end.

(** The [created_at]/[updated_at] columns are kept where a modelled query
    reads or a trigger writes them. *)

Module Profiles.
Record row := {
  id : uuid;
  user_id : uuid;
  display_name : option string;
  location : option string;
  avatar_url : option string;
  availability : option string;
  is_public : option bool
}.
End Profiles.

Module Skills.
Record row := {
  id : uuid;
  name : string;
  category : option string;
  is_approved : option bool
}.
End Skills.

Module UserSkills.
Record row := {
  id : uuid;
  user_id : uuid;
  skill_id : uuid;
  skill_type : SkillType
}.
End UserSkills.

Module SwapRequests.
Record row := {
  id : uuid;
  requester_id : uuid;
  recipient_id : uuid;
  offered_skill_id : uuid;
  wanted_skill_id : uuid;
  message : option string;
  status : Status;
  created_at : timestamp;
  updated_at : timestamp
}.

(** [UPDATE ... SET status = s], followed by the trigger
    [update_swap_requests_updated_at]. *)
Definition set_status (s : Status) (now : timestamp) (r : row) : row :=
  {| id := id r;
     requester_id := requester_id r;
     recipient_id := recipient_id r;
     offered_skill_id := offered_skill_id r;
     wanted_skill_id := wanted_skill_id r;
     message := message r;
     status := s;
     created_at := created_at r;
     updated_at := now |}.
End SwapRequests.

Module Feedback.
Record row := {
  id : uuid;
  swap_request_id : uuid;
  reviewer_id : uuid;
  reviewee_id : uuid;
  rating : Z;
  comment : option string;
  created_at : timestamp
}.
End Feedback.

Record Database := {
  auth_users : list uuid;
  profiles : list Profiles.row;
  skills : list Skills.row;
  user_skills : list UserSkills.row;
  swap_requests : list SwapRequests.row;
  feedback : list Feedback.row
}.

Definition with_skills (rows : list Skills.row) (db : Database) : Database :=
  {| auth_users := auth_users db; profiles := profiles db; skills := rows;
     user_skills := user_skills db; swap_requests := swap_requests db;
     feedback := feedback db |}.

Definition with_user_skills (rows : list UserSkills.row) (db : Database)
  : Database :=
  {| auth_users := auth_users db; profiles := profiles db;
     skills := skills db; user_skills := rows;
     swap_requests := swap_requests db; feedback := feedback db |}.

Definition with_swap_requests (rows : list SwapRequests.row) (db : Database)
  : Database :=
  {| auth_users := auth_users db; profiles := profiles db;
     skills := skills db; user_skills := user_skills db;
     swap_requests := rows; feedback := feedback db |}.

Definition with_feedback (rows : list Feedback.row) (db : Database)
  : Database :=
  {| auth_users := auth_users db; profiles := profiles db;
     skills := skills db; user_skills := user_skills db;
     swap_requests := swap_requests db; feedback := rows |}.

Definition with_profiles (rows : list Profiles.row) (db : Database)
  : Database :=
  {| auth_users := auth_users db; profiles := rows; skills := skills db;
     user_skills := user_skills db; swap_requests := swap_requests db;
     feedback := feedback db |}.

(** ** Row-level policies *)

Module Policy.

(** "Public profiles are viewable by everyone" *)
Definition profiles_select (uid : uuid) (p : Profiles.row) : bool :=
  match Profiles.is_public p with Some true => true | _ => false end
  || String.eqb uid (Profiles.user_id p).

(** "Skills are viewable by everyone" *)
Definition skills_select (uid : uuid) (s : Skills.row) : bool := true.

(** "Authenticated users can create skills" *)
Definition skills_insert (uid : uuid) (s : Skills.row) : bool := true.

(** "User skills are viewable by everyone" *)
Definition user_skills_select (uid : uuid) (r : UserSkills.row) : bool :=
  true.

(** "Users can manage their own skills" (FOR ALL) *)
Definition user_skills_all (uid : uuid) (r : UserSkills.row) : bool :=
  String.eqb uid (UserSkills.user_id r).

(** "Users can view their own swap requests" *)
Definition swap_requests_select (uid : uuid) (r : SwapRequests.row) : bool :=
  String.eqb uid (SwapRequests.requester_id r)
  || String.eqb uid (SwapRequests.recipient_id r).

(** "Users can create swap requests" *)
Definition swap_requests_insert (uid : uuid) (r : SwapRequests.row) : bool :=
  String.eqb uid (SwapRequests.requester_id r).

(** "Users can update swap requests they're involved in" *)
Definition swap_requests_update (uid : uuid) (r : SwapRequests.row) : bool :=
  String.eqb uid (SwapRequests.requester_id r)
  || String.eqb uid (SwapRequests.recipient_id r).

(** "Users can delete their own pending requests" *)
Definition swap_requests_delete (uid : uuid) (r : SwapRequests.row) : bool :=
  String.eqb uid (SwapRequests.requester_id r)
  && Status_eqb (SwapRequests.status r) pending.

(** "Feedback is viewable by involved users" *)
Definition feedback_select (uid : uuid) (f : Feedback.row) : bool :=
  String.eqb uid (Feedback.reviewer_id f)
  || String.eqb uid (Feedback.reviewee_id f).

(** "Users can create feedback" *)
Definition feedback_insert (uid : uuid) (f : Feedback.row) : bool :=
  String.eqb uid (Feedback.reviewer_id f).

(** "Users can update their own profile" *)
Definition profiles_update (uid : uuid) (p : Profiles.row) : bool :=
  String.eqb uid (Profiles.user_id p).

(** "Users can insert their own profile" *)
Definition profiles_insert (uid : uuid) (p : Profiles.row) : bool :=
  String.eqb uid (Profiles.user_id p).

End Policy.

(** ** Backend calls *)

Inductive ErrorCode :=
| fetch_failed            (* the request did not reach the backend *)
| insufficient_privilege  (* 42501: row-level security, WITH CHECK *)
| not_null_violation      (* 23502 *)
| foreign_key_violation   (* 23503 *)
| unique_violation        (* 23505 *)
| check_violation.        (* 23514 *)

Record PostgrestError := { code : ErrorCode; message : string }.

Definition Response (A : Type) : Type := (PostgrestError + A)%type.

Definition mem (x : string) (l : list string) : bool :=
  existsb (String.eqb x) l.

(** [ORDER BY created_at DESC]. *)
Fixpoint insert_desc {A} (key : A -> nat) (x : A) (l : list A) : list A :=
  match l with
  | [] => [x]
  | y :: l' => if key y <? key x then x :: l else y :: insert_desc key x l'
  end.

Definition order_desc {A} (key : A -> nat) (l : list A) : list A :=
  fold_right (insert_desc key) [] l.

Module Supabase.

(** The errors of the backend.  Their messages stand for those of
    PostgreSQL, whose exact wording (it puts the names in quotes and names
    the table) is not reproduced: the statements rest on the codes. *)
Definition fetch_error (m : string) : PostgrestError :=
  {| code := fetch_failed; message := m |}.

Definition rls_error (table : string) : PostgrestError :=
  {| code := insufficient_privilege;
     message := "new row violates row-level security policy for table "
                +++ table |}.

Definition unique_error (constraint : string) : PostgrestError :=
  {| code := unique_violation;
     message := "duplicate key value violates unique constraint "
                +++ constraint |}.

Definition check_error (constraint : string) : PostgrestError :=
  {| code := check_violation;
     message := "new row violates check constraint " +++ constraint |}.

Definition fkey_error (constraint : string) : PostgrestError :=
  {| code := foreign_key_violation;
     message := "insert or update violates foreign key constraint "
                +++ constraint |}.

Definition not_null_error (column : string) : PostgrestError :=
  {| code := not_null_violation;
     message := "null value violates not-null constraint in column "
                +++ column |}.

(** A [select] with filters: the rows that pass the table's SELECT policy
    and the filters of the query, in table order. *)
Definition select {R} (net : option string) (policy filters : R -> bool)
  (rows : list R) : Response (list R) :=
  match net with
  | Some m => inl (fetch_error m)
  | None => inr (filter (fun r => policy r && filters r) rows)
  end.

(** *** swap_requests *)

(** [from('swap_requests').update({ status }).eq('id', requestId)].
    The rows the statement can touch are those with the given id that pass
    the USING clause of the UPDATE policy (and the SELECT policy, since the
    statement reads [id]); the others are skipped without an error.  The
    new version of a touched row must pass the same clause again. *)
Definition update_target (uid requestId : uuid) (r : SwapRequests.row)
  : bool :=
  String.eqb (SwapRequests.id r) requestId
  && Policy.swap_requests_select uid r
  && Policy.swap_requests_update uid r.

Definition swap_requests_update_status (net : option string)
  (now : timestamp) (uid : uuid) (requestId : uuid) (s : Status)
  (db : Database) : option PostgrestError * Database :=
  match net with
  | Some m => (Some (fetch_error m), db)
  | None =>
      let hit := update_target uid requestId in
      if forallb
           (fun r =>
              negb (hit r)
              || Policy.swap_requests_update uid
                   (SwapRequests.set_status s now r))
           (swap_requests db)
      then
        (None,
         with_swap_requests
           (map (fun r => if hit r then SwapRequests.set_status s now r
                          else r)
              (swap_requests db))
           db)
      else (Some (rls_error "swap_requests"), db)
  end.

(** [from('swap_requests').delete().eq('id', requestId)]: removes the rows
    with the given id that pass the USING clause of the DELETE policy; the
    others are skipped without an error.  Rows of [feedback] that refer to
    a removed request go with it (ON DELETE CASCADE). *)
Definition delete_target (uid requestId : uuid) (r : SwapRequests.row)
  : bool :=
  String.eqb (SwapRequests.id r) requestId
  && Policy.swap_requests_select uid r
  && Policy.swap_requests_delete uid r.

Definition swap_requests_delete (net : option string) (uid : uuid)
  (requestId : uuid) (db : Database) : option PostgrestError * Database :=
  match net with
  | Some m => (Some (fetch_error m), db)
  | None =>
      let hit := delete_target uid requestId in
      let gone := map SwapRequests.id (filter hit (swap_requests db)) in
      (None,
       with_feedback
         (filter (fun f => negb (mem (Feedback.swap_request_id f) gone))
            (feedback db))
         (with_swap_requests
            (filter (fun r => negb (hit r)) (swap_requests db)) db))
  end.

(** [from('swap_requests').select(...)
      .or(`requester_id.eq.${uid},recipient_id.eq.${uid}`)
      .order('created_at', { ascending: false })],
    with [.eq('status', s)] in front when [only] is [Some s]. *)
Definition swap_requests_of (net : option string) (uid : uuid)
  (only : option Status) (db : Database)
  : Response (list SwapRequests.row) :=
  match
    select net (Policy.swap_requests_select uid)
      (fun r =>
         match only with
         | Some s => Status_eqb (SwapRequests.status r) s
         | None => true
         end
         && (String.eqb (SwapRequests.requester_id r) uid
             || String.eqb (SwapRequests.recipient_id r) uid))
      (swap_requests db)
  with
  | inl e => inl e
  | inr rows => inr (order_desc SwapRequests.created_at rows)
  end.

(** *** profiles and skills *)

(** [from('profiles').select('user_id, display_name, avatar_url')
      .in('user_id', userIds)] *)
Definition profiles_in (net : option string) (uid : uuid)
  (userIds : list uuid) (db : Database) : Response (list Profiles.row) :=
  select net (Policy.profiles_select uid)
    (fun p => mem (Profiles.user_id p) userIds) (profiles db).

(** [from('profiles').select(...).eq('is_public', true)
      .neq('user_id', uid).in('user_id', userIds)] *)
Definition profiles_public_others_in (net : option string) (uid : uuid)
  (userIds : list uuid) (db : Database) : Response (list Profiles.row) :=
  select net (Policy.profiles_select uid)
    (fun p =>
       match Profiles.is_public p with Some true => true | _ => false end
       && negb (String.eqb (Profiles.user_id p) uid)
       && mem (Profiles.user_id p) userIds)
    (profiles db).

(** [from('skills').select('id, name').in('id', skillIds)] *)
Definition skills_in (net : option string) (uid : uuid)
  (skillIds : list uuid) (db : Database) : Response (list Skills.row) :=
  select net (Policy.skills_select uid)
    (fun s => mem (Skills.id s) skillIds) (skills db).

(** The pattern PostgREST hands to [LIKE] and [ILIKE] for the value of a
    [like] or [ilike] filter: [*] stands for [%]. *)
Fixpoint like_pattern (value : string) : string :=
  match value with
  | EmptyString => EmptyString
  | String c value' =>
      String (if Ascii.eqb c "*" then "%"%char else c) (like_pattern value')
  end.

(** [from('skills').select('id').ilike('name', pattern)] *)
Definition skills_ilike (net : option string) (uid : uuid)
  (pattern : string) (db : Database) : Response (list Skills.row) :=
  select net (Policy.skills_select uid)
    (fun s => Text.ilike (like_pattern pattern) (Skills.name s)) (skills db).

(** [from('skills').insert({ name }).select().single()]: the new row gets
    the column defaults; [name] is UNIQUE. *)
Definition skills_insert (net : option string) (new_id : uuid) (uid : uuid)
  (name : string) (db : Database) : Response Skills.row * Database :=
  match net with
  | Some m => (inl (fetch_error m), db)
  | None =>
      let row := {| Skills.id := new_id; Skills.name := name;
                    Skills.category := None;
                    Skills.is_approved := Some true |} in
      if negb (Policy.skills_insert uid row) then
        (inl (rls_error "skills"), db)
      else if existsb (fun s => String.eqb (Skills.name s) name)
                (skills db) then
        (inl (unique_error "skills_name_key"), db)
      else (inr row, with_skills (skills db ++ [row]) db)
  end.

(** [ORDER BY name], names compared byte by byte. *)
Fixpoint insert_by_name (x : Skills.row) (l : list Skills.row)
  : list Skills.row :=
  match l with
  | [] => [x]
  | y :: l' =>
      if String.ltb (Skills.name x) (Skills.name y) then x :: l
      else y :: insert_by_name x l'
  end.

(** [from('skills').select('*').eq('is_approved', true).order('name')] *)
Definition skills_approved (net : option string) (uid : uuid)
  (db : Database) : Response (list Skills.row) :=
  match
    select net (Policy.skills_select uid)
      (fun s =>
         match Skills.is_approved s with Some true => true | _ => false end)
      (skills db)
  with
  | inl e => inl e
  | inr rows => inr (fold_right insert_by_name [] rows)
  end.

(** *** user_skills *)

(** [from('user_skills').select('user_id').eq('skill_type', 'offered')
      .in('skill_id', skillIds)] *)
Definition user_skills_offering (net : option string) (uid : uuid)
  (skillIds : list uuid) (db : Database)
  : Response (list UserSkills.row) :=
  select net (Policy.user_skills_select uid)
    (fun r =>
       SkillType_eqb (UserSkills.skill_type r) offered
       && mem (UserSkills.skill_id r) skillIds)
    (user_skills db).

(** The embedded resource [skills ( ... )] of a [user_skills] row: the
    skill its [skill_id] refers to, when the caller may read it. *)
Definition embed_skill (uid : uuid) (db : Database) (r : UserSkills.row)
  : option Skills.row :=
  find
    (fun s =>
       String.eqb (Skills.id s) (UserSkills.skill_id r)
       && Policy.skills_select uid s)
    (skills db).

(** [from('user_skills').select(`user_id, skills ( id, name )`)
      .eq('skill_type', 'offered').in('user_id', userIds)] *)
Definition user_skills_offered_by (net : option string) (uid : uuid)
  (userIds : list uuid) (db : Database)
  : Response (list (UserSkills.row * option Skills.row)) :=
  match
    select net (Policy.user_skills_select uid)
      (fun r =>
         SkillType_eqb (UserSkills.skill_type r) offered
         && mem (UserSkills.user_id r) userIds)
      (user_skills db)
  with
  | inl e => inl e
  | inr rows => inr (map (fun r => (r, embed_skill uid db r)) rows)
  end.

(** [from('user_skills').select(`id, skill_type, skills ( id, name,
      category )`).eq('user_id', uid)].  The query names no order: the
    rows come as the backend happens to [arrange] them. *)
Definition user_skills_of (net : option string)
  (arrange : list UserSkills.row -> list UserSkills.row) (uid : uuid)
  (db : Database) : Response (list (UserSkills.row * option Skills.row)) :=
  match
    select net (Policy.user_skills_select uid)
      (fun r => String.eqb (UserSkills.user_id r) uid) (user_skills db)
  with
  | inl e => inl e
  | inr rows => inr (map (fun r => (r, embed_skill uid db r)) (arrange rows))
  end.

(** [from('user_skills').insert({ user_id, skill_id, skill_type })
      .select(`id, skill_type, skills ( id, name, category )`).single()].
    The FOR ALL policy is the check of the new row; then the UNIQUE
    constraint, then the foreign keys. *)
Definition user_skills_insert (net : option string) (new_id : uuid)
  (uid : uuid) (user_id skill_id : uuid) (skill_type : SkillType)
  (db : Database)
  : Response (UserSkills.row * option Skills.row) * Database :=
  match net with
  | Some m => (inl (fetch_error m), db)
  | None =>
      let row := {| UserSkills.id := new_id;
                    UserSkills.user_id := user_id;
                    UserSkills.skill_id := skill_id;
                    UserSkills.skill_type := skill_type |} in
      if negb (Policy.user_skills_all uid row) then
        (inl (rls_error "user_skills"), db)
      else if existsb
                (fun r =>
                   String.eqb (UserSkills.user_id r) user_id
                   && String.eqb (UserSkills.skill_id r) skill_id
                   && SkillType_eqb (UserSkills.skill_type r) skill_type)
                (user_skills db) then
        (inl (unique_error "user_skills_user_id_skill_id_skill_type_key"),
         db)
      else if negb (mem user_id (auth_users db)) then
        (inl (fkey_error "user_skills_user_id_fkey"), db)
      else if negb (mem skill_id (map Skills.id (skills db))) then
        (inl (fkey_error "user_skills_skill_id_fkey"), db)
      else
        (inr (row, embed_skill uid db row),
         with_user_skills (user_skills db ++ [row]) db)
  end.

(** [from('user_skills').delete().eq('id', userSkillId)]: removes the rows
    with the given id that pass the FOR ALL policy; the others are skipped
    without an error. *)
Definition user_skills_delete (net : option string) (uid : uuid)
  (userSkillId : uuid) (db : Database) : option PostgrestError * Database :=
  match net with
  | Some m => (Some (fetch_error m), db)
  | None =>
      (None,
       with_user_skills
         (filter
            (fun r =>
               negb (String.eqb (UserSkills.id r) userSkillId
                     && Policy.user_skills_select uid r
                     && Policy.user_skills_all uid r))
            (user_skills db))
         db)
  end.

(** *** feedback *)

(** [from('feedback').select('swap_request_id')
      .in('swap_request_id', swapIds).eq('reviewer_id', uid)] *)
Definition feedback_by_reviewer_in (net : option string) (uid : uuid)
  (swapIds : list uuid) (db : Database) : Response (list Feedback.row) :=
  select net (Policy.feedback_select uid)
    (fun f =>
       mem (Feedback.swap_request_id f) swapIds
       && String.eqb (Feedback.reviewer_id f) uid)
    (feedback db).

(** [from('feedback').select(...).eq('reviewee_id', uid)
      .order('created_at', { ascending: false })] *)
Definition feedback_about (net : option string) (uid : uuid)
  (db : Database) : Response (list Feedback.row) :=
  match
    select net (Policy.feedback_select uid)
      (fun f => String.eqb (Feedback.reviewee_id f) uid) (feedback db)
  with
  | inl e => inl e
  | inr rows => inr (order_desc Feedback.created_at rows)
  end.

(** The object handed to [from('feedback').insert(...)]; a [rating] of
    [None] is the [NaN] that is sent as [null]. *)
Record NewFeedback := {
  swap_request_id : uuid;
  reviewer_id : uuid;
  reviewee_id : uuid;
  rating : option Z;
  comment : string
}.

(** The rows of [feedback] that the UNIQUE constraint on
    (swap_request_id, reviewer_id) compares with a new one. *)
Definition same_pair (swap reviewer : uuid) (f : Feedback.row) : bool :=
  String.eqb (Feedback.swap_request_id f) swap
  && String.eqb (Feedback.reviewer_id f) reviewer.

(** The row stored for [v] when its rating is [n]. *)
Definition stored (now : timestamp) (new_id : uuid) (v : NewFeedback) (n : Z)
  : Feedback.row :=
  {| Feedback.id := new_id;
     Feedback.swap_request_id := swap_request_id v;
     Feedback.reviewer_id := reviewer_id v;
     Feedback.reviewee_id := reviewee_id v;
     Feedback.rating := n;
     Feedback.comment := Some (comment v);
     Feedback.created_at := now |}.

(** [from('feedback').insert(...)]: the WITH CHECK clause of the INSERT
    policy, the NOT NULL and CHECK constraints of [rating], the UNIQUE
    constraint on (swap_request_id, reviewer_id), then the foreign keys. *)
Definition feedback_insert (net : option string) (now : timestamp)
  (new_id : uuid) (uid : uuid) (v : NewFeedback) (db : Database)
  : option PostgrestError * Database :=
  match net with
  | Some m => (Some (fetch_error m), db)
  | None =>
      match rating v with
      | None =>
          if negb (String.eqb uid (reviewer_id v)) then
            (Some (rls_error "feedback"), db)
          else (Some (not_null_error "rating"), db)
      | Some n =>
          let row := stored now new_id v n in
          if negb (Policy.feedback_insert uid row) then
            (Some (rls_error "feedback"), db)
          else if negb ((1 <=? n)%Z && (n <=? 5)%Z) then
            (Some (check_error "feedback_rating_check"), db)
          else if existsb (same_pair (swap_request_id v) (reviewer_id v))
                    (feedback db) then
            (Some (unique_error "feedback_swap_request_id_reviewer_id_key"),
             db)
          else if negb (mem (swap_request_id v)
                          (map SwapRequests.id (swap_requests db))) then
            (Some (fkey_error "feedback_swap_request_id_fkey"), db)
          else if negb (mem (reviewer_id v) (auth_users db)) then
            (Some (fkey_error "feedback_reviewer_id_fkey"), db)
          else if negb (mem (reviewee_id v) (auth_users db)) then
            (Some (fkey_error "feedback_reviewee_id_fkey"), db)
          else (None, with_feedback (feedback db ++ [row]) db)
      end
  end.

(** *** swap_requests: insert *)

(** The object handed to [from('swap_requests').insert(...)]; the recipient
    is absent when no user is selected. *)
Record NewSwapRequest := {
  requester_id : uuid;
  recipient_id : option uuid;
  offered_skill_id : uuid;
  wanted_skill_id : uuid;
  message : string
}.

(** The row stored for [v] sent to [recipient]: [status] takes its default,
    both time stamps are [now()]. *)
Definition requested (now : timestamp) (new_id : uuid) (v : NewSwapRequest)
  (recipient : uuid) : SwapRequests.row :=
  {| SwapRequests.id := new_id;
     SwapRequests.requester_id := requester_id v;
     SwapRequests.recipient_id := recipient;
     SwapRequests.offered_skill_id := offered_skill_id v;
     SwapRequests.wanted_skill_id := wanted_skill_id v;
     SwapRequests.message := Some (message v);
     SwapRequests.status := pending;
     SwapRequests.created_at := now;
     SwapRequests.updated_at := now |}.

(** [from('swap_requests').insert(...)]: the WITH CHECK clause of the INSERT
    policy, the NOT NULL constraint of [recipient_id], then the foreign
    keys. *)
Definition swap_requests_insert (net : option string) (now : timestamp)
  (new_id : uuid) (uid : uuid) (v : NewSwapRequest) (db : Database)
  : option PostgrestError * Database :=
  match net with
  | Some m => (Some (fetch_error m), db)
  | None =>
      if negb (String.eqb uid (requester_id v)) then
        (Some (rls_error "swap_requests"), db)
      else
        match recipient_id v with
        | None => (Some (not_null_error "recipient_id"), db)
        | Some recipient =>
            if negb (mem (requester_id v) (auth_users db)) then
              (Some (fkey_error "swap_requests_requester_id_fkey"), db)
            else if negb (mem recipient (auth_users db)) then
              (Some (fkey_error "swap_requests_recipient_id_fkey"), db)
            else if negb (mem (offered_skill_id v)
                            (map Skills.id (skills db))) then
              (Some (fkey_error "swap_requests_offered_skill_id_fkey"), db)
            else if negb (mem (wanted_skill_id v)
                            (map Skills.id (skills db))) then
              (Some (fkey_error "swap_requests_wanted_skill_id_fkey"), db)
            else
              (None,
               with_swap_requests
                 (swap_requests db ++ [requested now new_id v recipient]) db)
        end
  end.

(** *** profiles: the caller's own row *)

(** [from('profiles').select('*').eq('user_id', uid).maybeSingle()]: the
    row, or no data when there is none.  With several rows the client
    reports the error PGRST116, which the page treats as no data: it is
    [inr None] here too. *)
Definition profiles_maybe_single (net : option string) (uid : uuid)
  (db : Database) : Response (option Profiles.row) :=
  match
    select net (Policy.profiles_select uid)
      (fun p => String.eqb (Profiles.user_id p) uid) (profiles db)
  with
  | inl e => inl e
  | inr [row] => inr (Some row)
  | inr _ => inr None
  end.

(** The object handed to [from('profiles').upsert(...)]: no [id]. *)
Record ProfileData := {
  user_id : uuid;
  display_name : option string;
  location : option string;
  availability : option string;
  is_public : option bool;
  avatar_url : option string
}.

Definition upserted (id : uuid) (v : ProfileData) : Profiles.row :=
  {| Profiles.id := id;
     Profiles.user_id := user_id v;
     Profiles.display_name := display_name v;
     Profiles.location := location v;
     Profiles.avatar_url := avatar_url v;
     Profiles.availability := availability v;
     Profiles.is_public := is_public v |}.

(** [from('profiles').upsert(profileData)] without [onConflict]: an INSERT
    whose conflict target is the primary key [id].  The object carries no
    [id], so the new row gets the drawn one; only if a row with that very id
    exists is that row updated instead.  The UNIQUE constraint of [user_id]
    is not the conflict target: a second row for a user is refused. *)
Definition profiles_upsert (net : option string) (new_id : uuid) (uid : uuid)
  (v : ProfileData) (db : Database) : option PostgrestError * Database :=
  match net with
  | Some m => (Some (fetch_error m), db)
  | None =>
      let row := upserted new_id v in
      if negb (Policy.profiles_insert uid row) then
        (Some (rls_error "profiles"), db)
      else
        match
          find (fun p => String.eqb (Profiles.id p) new_id) (profiles db)
        with
        | Some old =>
            if negb (Policy.profiles_update uid old) then
              (Some (rls_error "profiles"), db)
            else if existsb
                      (fun p =>
                         negb (String.eqb (Profiles.id p) new_id)
                         && String.eqb (Profiles.user_id p) (user_id v))
                      (profiles db) then
              (Some (unique_error "profiles_user_id_key"), db)
            else if negb (mem (user_id v) (auth_users db)) then
              (Some (fkey_error "profiles_user_id_fkey"), db)
            else
              (None,
               with_profiles
                 (map (fun p => if String.eqb (Profiles.id p) new_id
                                then row else p)
                    (profiles db))
                 db)
        | None =>
            if existsb
                 (fun p => String.eqb (Profiles.user_id p) (user_id v))
                 (profiles db) then
              (Some (unique_error "profiles_user_id_key"), db)
            else if negb (mem (user_id v) (auth_users db)) then
              (Some (fkey_error "profiles_user_id_fkey"), db)
            else (None, with_profiles (profiles db ++ [row]) db)
        end
  end.

(** *** The trigger [on_auth_user_created]

    A row inserted into [auth.users] with id [user], together with the row
    [handle_new_user] inserts into [profiles] for it: the display name of
    the sign-up metadata, every other column at its default.  The function
    is SECURITY DEFINER: no policy applies.  The insert into [auth.users]
    fails as a whole when the user or a profile of the user exists. *)
Definition on_auth_user_created (profile_id : uuid) (user : uuid)
  (display_name : option string) (db : Database) : option Database :=
  if mem user (auth_users db)
     || mem profile_id (map Profiles.id (profiles db))
     || mem user (map Profiles.user_id (profiles db))
  then None
  else
    Some
      {| auth_users := auth_users db ++ [user];
         profiles :=
           profiles db
           ++ [{| Profiles.id := profile_id;
                  Profiles.user_id := user;
                  Profiles.display_name := display_name;
                  Profiles.location := None;
                  Profiles.avatar_url := None;
                  Profiles.availability := None;
                  Profiles.is_public := Some true |}];
         skills := skills db;
         user_skills := user_skills db;
         swap_requests := swap_requests db;
         feedback := feedback db |}.

End Supabase.

(** ** Object storage: the bucket of avatars *)

Module Storage.

Record object := {
  bucket_id : string;
  name : string;
  body : string
}.

(** [storage.foldername(name)]: the segments of the path but the last. *)
Definition foldername (name : string) : list string :=
  removelast (Text.string_to_array name "/").

(** "Avatar images are publicly accessible" *)
Definition select_policy (uid : uuid) (o : object) : bool :=
  String.eqb (bucket_id o) "avatars".

(** "Users can upload their own avatar", "Users can update their own
    avatar": [auth.uid()::text = (storage.foldername(name))[1]], which is
    not true when the array is empty. *)
Definition owner_policy (uid : uuid) (o : object) : bool :=
  String.eqb (bucket_id o) "avatars"
  && match foldername (name o) with
     | first :: _ => String.eqb uid first
     | [] => false
     end.

(** [storage.from(bucket).upload(path, file, { upsert: true })]: a new
    object is checked by the INSERT policy; an object already at the path is
    replaced, which the UPDATE policy must allow. *)
Definition upload (net : option string) (uid : uuid) (bucket path : string)
  (file : string) (objects : list object)
  : option PostgrestError * list object :=
  match net with
  | Some m => (Some (Supabase.fetch_error m), objects)
  | None =>
      let o := {| bucket_id := bucket; name := path; body := file |} in
      let there x :=
        String.eqb (bucket_id x) bucket && String.eqb (name x) path in
      if negb (owner_policy uid o) then
        (Some (Supabase.rls_error "objects"), objects)
      else if existsb there objects then
        (None, map (fun x => if there x then o else x) objects)
      else (None, objects ++ [o])
  end.

(** [storage.from(bucket).getPublicUrl(path).data.publicUrl], for a client
    created with the project URL [supabaseUrl]. *)
Definition getPublicUrl (supabaseUrl bucket path : string) : string :=
  supabaseUrl +++ "/storage/v1/object/public/" +++ bucket +++ "/" +++ path.

End Storage.

(** ** What the pages share *)

(** What the outside world decides while a handler runs: the transport
    outcome of each of its backend calls (numbered by call site, in program
    order), the clock, the identifiers drawn for inserted rows (numbered
    like the calls), and the order in which the backend returns the rows of
    the query for a user's skills, which names none: some rearrangement of
    the rows. *)
Record Env := {
  net : nat -> option string;
  now : timestamp;
  fresh : nat -> uuid;
  arrange : list UserSkills.row -> list UserSkills.row;
  arranged : forall rows, Permutation (arrange rows) rows
}.

Inductive Variant := default | destructive.

Record Toast := {
  title : string;
  description : string;
  variant : Variant
}.

Definition error_toast (title : string) (e : PostgrestError) : Toast :=
  {| title := title; description := message e; variant := destructive |}.

(** [{ id: row.user_id_column, ...profilesMap.get(...) }]: the profile
    columns are absent when no profile was returned for the user. *)
Module Party.
Record t := {
  id : uuid;
  display_name : option string;
  avatar_url : option string
}.

Definition make (user : uuid) (profile : option Profiles.row) : t :=
  {| id := user;
     display_name :=
       match profile with
       | Some p => Profiles.display_name p
       | None => None
       end;
     avatar_url :=
       match profile with
       | Some p => Profiles.avatar_url p
       | None => None
       end |}.
End Party.

Module SkillRef.
Record t := { id : uuid; name : string }.

Definition of_row (s : Skills.row) : t :=
  {| id := Skills.id s; name := Skills.name s |}.
End SkillRef.

(** [[...new Set([...xs, ...ys])]] *)
Definition distinct (xs : list string) : list string := JsSet.of_list xs.

Definition profilesMap (rows : list Profiles.row) : JsMap.t Profiles.row :=
  JsMap.of_entries (map (fun p => (Profiles.user_id p, p)) rows).

Definition skillsMap (rows : list Skills.row) : JsMap.t Skills.row :=
  JsMap.of_entries (map (fun s => (Skills.id s, s)) rows).

Definition shift (k : nat) (env : Env) : Env :=
  {| net := fun i => net env (k + i);
     now := now env;
     fresh := fun i => fresh env (k + i);
     arrange := arrange env;
     arranged := arranged env |}.

(** ** SwapRequestsPage *)

Module SwapRequestsPage.

Record SwapRequest := {
  id : uuid;
  message : option string;
  status : Status;
  created_at : timestamp;
  requester : Party.t;
  recipient : Party.t;
  offered_skill : option SkillRef.t;
  wanted_skill : option SkillRef.t
}.

Record State := {
  loading : bool;
  sentRequests : list SwapRequest;
  receivedRequests : list SwapRequest
}.

Definition initial : State :=
  {| loading := true; sentRequests := []; receivedRequests := [] |}.

Definition transform (pm : JsMap.t Profiles.row) (sm : JsMap.t Skills.row)
  (req : SwapRequests.row) : SwapRequest :=
  {| id := SwapRequests.id req;
     message := SwapRequests.message req;
     status := SwapRequests.status req;
     created_at := SwapRequests.created_at req;
     requester :=
       Party.make (SwapRequests.requester_id req)
         (JsMap.get (SwapRequests.requester_id req) pm);
     recipient :=
       Party.make (SwapRequests.recipient_id req)
         (JsMap.get (SwapRequests.recipient_id req) pm);
     offered_skill :=
       option_map SkillRef.of_row
         (JsMap.get (SwapRequests.offered_skill_id req) sm);
     wanted_skill :=
       option_map SkillRef.of_row
         (JsMap.get (SwapRequests.wanted_skill_id req) sm) |}.

Definition loaded (st : State) : State :=
  {| loading := false;
     sentRequests := sentRequests st;
     receivedRequests := receivedRequests st |}.

Definition fetchSwapRequests (env : Env) (uid : uuid) (db : Database)
  (st : State) : State * list Toast :=
  let failed e := (loaded st, [error_toast "Error loading swap requests" e]) in
  match Supabase.swap_requests_of (net env 0) uid None db with
  | inl e => failed e
  | inr data =>
      let userIds :=
        distinct (map SwapRequests.requester_id data
                  ++ map SwapRequests.recipient_id data) in
      let skillIds :=
        distinct (map SwapRequests.offered_skill_id data
                  ++ map SwapRequests.wanted_skill_id data) in
      match Supabase.profiles_in (net env 1) uid userIds db,
            Supabase.skills_in (net env 2) uid skillIds db with
      | inl e, _ => failed e
      | inr _, inl e => failed e
      | inr profiles, inr skills =>
          let transformedData :=
            map (transform (profilesMap profiles) (skillsMap skills)) data in
          ({| loading := false;
              sentRequests :=
                filter (fun req => String.eqb (Party.id (requester req)) uid)
                  transformedData;
              receivedRequests :=
                filter (fun req => String.eqb (Party.id (recipient req)) uid)
                  transformedData |},
           [])
      end
  end.

(** The type ['accepted' | 'rejected'] of the second argument of
    [updateRequestStatus]. *)
Inductive Decision := Accepted | Rejected.

Definition decided (d : Decision) : Status :=
  match d with Accepted => accepted | Rejected => rejected end.

(** [{ ...req, status }] *)
Definition with_status (s : Status) (req : SwapRequest) : SwapRequest :=
  {| id := id req;
     message := message req;
     status := s;
     created_at := created_at req;
     requester := requester req;
     recipient := recipient req;
     offered_skill := offered_skill req;
     wanted_skill := wanted_skill req |}.

Definition updateRequestStatus (env : Env) (uid : uuid) (requestId : uuid)
  (status : Decision) (db : Database) (st : State)
  : Database * State * list Toast :=
  match
    Supabase.swap_requests_update_status (net env 0) (now env) uid
      requestId (decided status) db
  with
  | (Some error, db') =>
      (db', st, [error_toast "Error updating request" error])
  | (None, db') =>
      (db',
       {| loading := loading st;
          sentRequests := sentRequests st;
          receivedRequests :=
            map
              (fun req =>
                 if String.eqb (id req) requestId
                 then with_status (decided status) req
                 else req)
              (receivedRequests st) |},
       [{| title := "Request " +++ Status_text (decided status);
           description :=
             "The swap request has been "
             +++ Status_text (decided status) +++ ".";
           variant := default |}])
  end.

Definition deleteRequest (env : Env) (uid : uuid) (requestId : uuid)
  (db : Database) (st : State) : Database * State * list Toast :=
  match Supabase.swap_requests_delete (net env 0) uid requestId db with
  | (Some error, db') =>
      (db', st, [error_toast "Error deleting request" error])
  | (None, db') =>
      (db',
       {| loading := loading st;
          sentRequests :=
            filter (fun req => negb (String.eqb (id req) requestId))
              (sentRequests st);
          receivedRequests := receivedRequests st |},
       [{| title := "Request deleted";
           description := "The swap request has been deleted.";
           variant := default |}])
  end.

(** [RequestCard]: which buttons a card shows. *)
Inductive CardType := sent | received.

Definition showsAcceptDecline (type : CardType) (request : SwapRequest)
  : bool :=
  match type with
  | received => Status_eqb (status request) pending
  | sent => false
  end.

Definition showsDelete (type : CardType) (request : SwapRequest) : bool :=
  match type with
  | sent => Status_eqb (status request) pending
  | received => false
  end.

Definition getStatusColor (status : string) : string :=
  if String.eqb status "pending" then "bg-yellow-100 text-yellow-800"
  else if String.eqb status "accepted" then "bg-green-100 text-green-800"
  else if String.eqb status "rejected" then "bg-red-100 text-red-800"
  else "bg-gray-100 text-gray-800".

(** What [RequestCard] puts on a card (the age of the request apart). *)
Module Card.
Record t := {
  avatar : option string;
  fallback : string;
  name : string;
  badge : string;
  badgeColor : string;
  offeredLabel : string;
  offered : string;
  wantedLabel : string;
  wanted : string;
  note : option string;
  acceptDecline : bool;
  delete : bool
}.
End Card.

(** [RequestCard({ request, type })].  [None] is the TypeError thrown when
    a property is read of a value that is not there: the display name of the
    other user, or one of the two skills. *)
Definition RequestCard (type : CardType) (request : SwapRequest)
  : option Card.t :=
  let otherUser :=
    match type with sent => recipient request | received => requester request
    end in
  let skillOffered :=
    match type with
    | sent => offered_skill request
    | received => wanted_skill request
    end in
  let skillWanted :=
    match type with
    | sent => wanted_skill request
    | received => offered_skill request
    end in
  match Party.display_name otherUser, skillOffered, skillWanted with
  | Some display_name, Some skillOffered, Some skillWanted =>
      Some
        {| Card.avatar := Party.avatar_url otherUser;
           Card.fallback := Text.toUpperCase (Text.charAt0 display_name);
           Card.name := display_name;
           Card.badge :=
             Text.toUpperCase (Text.charAt0 (Status_text (status request)))
             +++ Text.slice1 (Status_text (status request));
           Card.badgeColor := getStatusColor (Status_text (status request));
           Card.offeredLabel :=
             match type with sent => "You offer:" | received => "They offer:"
             end;
           Card.offered := SkillRef.name skillOffered;
           Card.wantedLabel :=
             match type with sent => "You want:" | received => "They want:"
             end;
           Card.wanted := SkillRef.name skillWanted;
           Card.note :=
             match message request with
             | Some m => if Text.truthy m then Some m else None
             | None => None
             end;
           Card.acceptDecline := showsAcceptDecline type request;
           Card.delete := showsDelete type request |}
  | _, _, _ => None
  end.

End SwapRequestsPage.

(** ** FeedbackPage *)

Module FeedbackPage.

Module AcceptedSwapRequest.
Record t := {
  id : uuid;
  requester : Party.t;
  recipient : Party.t;
  offered_skill : option SkillRef.t;
  wanted_skill : option SkillRef.t;
  created_at : timestamp;
  has_feedback : bool
}.
End AcceptedSwapRequest.

Module FeedbackView.
Record t := {
  id : uuid;
  rating : Z;
  comment : option string;
  created_at : timestamp;
  reviewer : Party.t;
  reviewee : Party.t
}.
End FeedbackView.

Module Form.
Record t := {
  swapRequestId : string;
  revieweeId : string;
  rating : string;
  comment : string
}.

Definition empty : t :=
  {| swapRequestId := ""; revieweeId := ""; rating := ""; comment := "" |}.
End Form.

Record State := {
  loading : bool;
  acceptedSwaps : list AcceptedSwapRequest.t;
  myFeedback : list FeedbackView.t;
  feedbackForm : Form.t;
  submitting : bool
}.

Definition initial : State :=
  {| loading := true; acceptedSwaps := []; myFeedback := [];
     feedbackForm := Form.empty; submitting := false |}.

Definition setLoading (b : bool) (st : State) : State :=
  {| loading := b; acceptedSwaps := acceptedSwaps st;
     myFeedback := myFeedback st; feedbackForm := feedbackForm st;
     submitting := submitting st |}.

Definition setAcceptedSwaps (l : list AcceptedSwapRequest.t) (st : State)
  : State :=
  {| loading := loading st; acceptedSwaps := l;
     myFeedback := myFeedback st; feedbackForm := feedbackForm st;
     submitting := submitting st |}.

Definition setMyFeedback (l : list FeedbackView.t) (st : State) : State :=
  {| loading := loading st; acceptedSwaps := acceptedSwaps st;
     myFeedback := l; feedbackForm := feedbackForm st;
     submitting := submitting st |}.

Definition setFeedbackForm (f : Form.t) (st : State) : State :=
  {| loading := loading st; acceptedSwaps := acceptedSwaps st;
     myFeedback := myFeedback st; feedbackForm := f;
     submitting := submitting st |}.

Definition setSubmitting (b : bool) (st : State) : State :=
  {| loading := loading st; acceptedSwaps := acceptedSwaps st;
     myFeedback := myFeedback st; feedbackForm := feedbackForm st;
     submitting := b |}.

Definition withFeedbackStatus (pm : JsMap.t Profiles.row)
  (sm : JsMap.t Skills.row) (feedbackSwapIds : JsSet.t)
  (swap : SwapRequests.row) : AcceptedSwapRequest.t :=
  {| AcceptedSwapRequest.id := SwapRequests.id swap;
     AcceptedSwapRequest.created_at := SwapRequests.created_at swap;
     AcceptedSwapRequest.requester :=
       Party.make (SwapRequests.requester_id swap)
         (JsMap.get (SwapRequests.requester_id swap) pm);
     AcceptedSwapRequest.recipient :=
       Party.make (SwapRequests.recipient_id swap)
         (JsMap.get (SwapRequests.recipient_id swap) pm);
     AcceptedSwapRequest.offered_skill :=
       option_map SkillRef.of_row
         (JsMap.get (SwapRequests.offered_skill_id swap) sm);
     AcceptedSwapRequest.wanted_skill :=
       option_map SkillRef.of_row
         (JsMap.get (SwapRequests.wanted_skill_id swap) sm);
     AcceptedSwapRequest.has_feedback :=
       JsSet.has (SwapRequests.id swap) feedbackSwapIds |}.

(** Call sites: 0 the accepted swaps, 1 the profiles, 2 the skills, 3 the
    feedback already given (whose error is not looked at). *)
Definition fetchAcceptedSwaps (env : Env) (uid : uuid) (db : Database)
  (st : State) : State * list Toast :=
  let failed e :=
    (setLoading false st, [error_toast "Error loading swaps" e]) in
  match Supabase.swap_requests_of (net env 0) uid (Some accepted) db with
  | inl e => failed e
  | inr data =>
      let userIds :=
        distinct (map SwapRequests.requester_id data
                  ++ map SwapRequests.recipient_id data) in
      let skillIds :=
        distinct (map SwapRequests.offered_skill_id data
                  ++ map SwapRequests.wanted_skill_id data) in
      match Supabase.profiles_in (net env 1) uid userIds db,
            Supabase.skills_in (net env 2) uid skillIds db with
      | inl e, _ => failed e
      | inr _, inl e => failed e
      | inr profiles, inr skills =>
          let swapIds := map SwapRequests.id data in
          let existingFeedback :=
            match
              Supabase.feedback_by_reviewer_in (net env 3) uid swapIds db
            with
            | inl _ => []
            | inr rows => rows
            end in
          let feedbackSwapIds :=
            JsSet.of_list (map Feedback.swap_request_id existingFeedback) in
          (setLoading false
             (setAcceptedSwaps
                (map
                   (withFeedbackStatus (profilesMap profiles)
                      (skillsMap skills) feedbackSwapIds)
                   data)
                st),
           [])
      end
  end.

Definition transformFeedback (pm : JsMap.t Profiles.row)
  (f : Feedback.row) : FeedbackView.t :=
  {| FeedbackView.id := Feedback.id f;
     FeedbackView.rating := Feedback.rating f;
     FeedbackView.comment := Feedback.comment f;
     FeedbackView.created_at := Feedback.created_at f;
     FeedbackView.reviewer :=
       Party.make (Feedback.reviewer_id f)
         (JsMap.get (Feedback.reviewer_id f) pm);
     FeedbackView.reviewee :=
       Party.make (Feedback.reviewee_id f)
         (JsMap.get (Feedback.reviewee_id f) pm) |}.

(** Errors are written to the console only. *)
Definition fetchMyFeedback (env : Env) (uid : uuid) (db : Database)
  (st : State) : State :=
  match Supabase.feedback_about (net env 0) uid db with
  | inl _ => st
  | inr data =>
      let userIds :=
        distinct (map Feedback.reviewer_id data
                  ++ map Feedback.reviewee_id data) in
      match Supabase.profiles_in (net env 1) uid userIds db with
      | inl _ => st
      | inr profiles =>
          setMyFeedback
            (map (transformFeedback (profilesMap profiles)) data) st
      end
  end.

Definition pendingFeedback (st : State) : list AcceptedSwapRequest.t :=
  filter (fun swap => negb (AcceptedSwapRequest.has_feedback swap))
    (acceptedSwaps st).

(** [onValueChange] of the swap selector. *)
Definition selectSwap (uid : uuid) (value : string) (st : State) : State :=
  match
    find (fun s => String.eqb (AcceptedSwapRequest.id s) value)
      (acceptedSwaps st)
  with
  | Some swap =>
      let otherUser :=
        if String.eqb (Party.id (AcceptedSwapRequest.requester swap)) uid
        then AcceptedSwapRequest.recipient swap
        else AcceptedSwapRequest.requester swap in
      setFeedbackForm
        {| Form.swapRequestId := value;
           Form.revieweeId := Party.id otherUser;
           Form.rating := Form.rating (feedbackForm st);
           Form.comment := Form.comment (feedbackForm st) |}
        st
  | None => st
  end.

(** [onValueChange] of the rating selector, whose items are the strings
    of [ratingItems]. *)
Definition ratingItems : list string := ["1"; "2"; "3"; "4"; "5"].

Definition selectRating (value : string) (st : State) : State :=
  setFeedbackForm
    {| Form.swapRequestId := Form.swapRequestId (feedbackForm st);
       Form.revieweeId := Form.revieweeId (feedbackForm st);
       Form.rating := value;
       Form.comment := Form.comment (feedbackForm st) |}
    st.

Definition editComment (value : string) (st : State) : State :=
  setFeedbackForm
    {| Form.swapRequestId := Form.swapRequestId (feedbackForm st);
       Form.revieweeId := Form.revieweeId (feedbackForm st);
       Form.rating := Form.rating (feedbackForm st);
       Form.comment := value |}
    st.

(** What [submitFeedback] hands to [insert]. *)
Definition submitted (uid : uuid) (form : Form.t) : Supabase.NewFeedback :=
  {| Supabase.swap_request_id := Form.swapRequestId form;
     Supabase.reviewer_id := uid;
     Supabase.reviewee_id := Form.revieweeId form;
     Supabase.rating := Text.parseInt (Form.rating form);
     Supabase.comment := Form.comment form |}.

(** Call sites: 0 the insert; on success 1 to 4 the calls of
    [fetchAcceptedSwaps], 5 and 6 those of [fetchMyFeedback]. *)
Definition submitFeedback (env : Env) (uid : uuid) (db : Database)
  (st : State) : Database * State * list Toast :=
  let form := feedbackForm st in
  if negb (Text.truthy (Form.rating form))
     || negb (Text.truthy (Form.revieweeId form)) then
    (db, st,
     [{| title := "Please complete the form";
         description := "Rating is required to submit feedback.";
         variant := destructive |}])
  else
    match
      Supabase.feedback_insert (net env 0) (now env) (fresh env 0) uid
        (submitted uid form) db
    with
    | (Some error, db') =>
        (db', setSubmitting false st,
         [error_toast "Error submitting feedback" error])
    | (None, db') =>
        let st1 := setFeedbackForm Form.empty (setSubmitting true st) in
        let '(st2, toasts) := fetchAcceptedSwaps (shift 1 env) uid db' st1 in
        let st3 := fetchMyFeedback (shift 5 env) uid db' st2 in
        (db', setSubmitting false st3,
         {| title := "Feedback submitted!";
            description := "Thank you for your feedback.";
            variant := default |} :: toasts)
    end.

(** [renderStars(rating)]: five stars, [true] for a filled one. *)
Definition renderStars (rating : Z) : list bool :=
  map (fun i => (Z.of_nat i <? rating)%Z) (seq 0 5).

End FeedbackPage.

(** ** SkillsPage *)

Module SkillsPage.

Module Skill.
Record t := { id : uuid; name : string; category : option string }.

Definition of_row (s : Skills.row) : t :=
  {| id := Skills.id s; name := Skills.name s;
     category := Skills.category s |}.
End Skill.

Module UserSkill.
Record t := {
  id : uuid;
  skill : option Skill.t;
  skill_type : SkillType
}.
End UserSkill.

(** [userSkills] and [allSkills] hold what [fetchUserSkills] and
    [fetchAllSkills] (the approved skills) returned when the page was
    loaded, and what the handlers below have added since. *)
Record State := {
  loading : bool;
  newSkillName : string;
  userSkills : list UserSkill.t;
  allSkills : list Skill.t;
  adding : bool
}.

Definition setNewSkillName (v : string) (st : State) : State :=
  {| loading := loading st; newSkillName := v;
     userSkills := userSkills st; allSkills := allSkills st;
     adding := adding st |}.

Definition setUserSkills (l : list UserSkill.t) (st : State) : State :=
  {| loading := loading st; newSkillName := newSkillName st;
     userSkills := l; allSkills := allSkills st; adding := adding st |}.

Definition setAllSkills (l : list Skill.t) (st : State) : State :=
  {| loading := loading st; newSkillName := newSkillName st;
     userSkills := userSkills st; allSkills := l; adding := adding st |}.

Definition setAdding (b : bool) (st : State) : State :=
  {| loading := loading st; newSkillName := newSkillName st;
     userSkills := userSkills st; allSkills := allSkills st;
     adding := b |}.

Definition initial : State :=
  {| loading := true; newSkillName := ""; userSkills := [];
     allSkills := []; adding := false |}.

Definition setLoading (b : bool) (st : State) : State :=
  {| loading := b; newSkillName := newSkillName st;
     userSkills := userSkills st; allSkills := allSkills st;
     adding := adding st |}.

Definition formatted (item : UserSkills.row * option Skills.row)
  : UserSkill.t :=
  {| UserSkill.id := UserSkills.id (fst item);
     UserSkill.skill := option_map Skill.of_row (snd item);
     UserSkill.skill_type := UserSkills.skill_type (fst item) |}.

Definition fetchUserSkills (env : Env) (uid : uuid) (db : Database)
  (st : State) : State * list Toast :=
  match Supabase.user_skills_of (net env 0) (arrange env) uid db with
  | inl error =>
      (setLoading false st, [error_toast "Error loading skills" error])
  | inr data => (setLoading false (setUserSkills (map formatted data) st), [])
  end.

(** Errors are written to the console only. *)
Definition fetchAllSkills (env : Env) (uid : uuid) (db : Database)
  (st : State) : State :=
  match Supabase.skills_approved (net env 0) uid db with
  | inl _ => st
  | inr data => setAllSkills (map Skill.of_row data) st
  end.

(** [allSkills.find(s => s.name.toLowerCase() ===
                         newSkillName.toLowerCase())], with the letter
    case of ASCII: the lookup of the page for names written in ASCII. *)
Definition findSkill (st : State) : option Skill.t :=
  find
    (fun s =>
       String.eqb (Text.toLowerCase (Skill.name s))
         (Text.toLowerCase (newSkillName st)))
    (allSkills st).

(** The first half of [addSkill]: the skill to link, taken from
    [allSkills] or created (call site 0). *)
Definition findOrCreateSkill (env : Env) (uid : uuid) (db : Database)
  (st : State) : Response Skill.t * Database * State :=
  match findSkill st with
  | Some skill => (inr skill, db, st)
  | None =>
      match
        Supabase.skills_insert (net env 0) (fresh env 0) uid
          (Text.trim (newSkillName st)) db
      with
      | (inl skillError, db') => (inl skillError, db', st)
      | (inr newSkill, db') =>
          (inr (Skill.of_row newSkill), db',
           setAllSkills (allSkills st ++ [Skill.of_row newSkill]) st)
      end
  end.

(** Call sites: 0 the insert into [skills], 1 the insert into
    [user_skills]. *)
Definition addSkill (env : Env) (uid : uuid) (skillType : SkillType)
  (db : Database) (st : State) : Database * State * list Toast :=
  if negb (Text.truthy (Text.trim (newSkillName st))) then (db, st, [])
  else
    match findOrCreateSkill env uid db (setAdding true st) with
    | (inl error, db1, st1) =>
        (db1, setAdding false st1, [error_toast "Error adding skill" error])
    | (inr skill, db1, st1) =>
        match
          Supabase.user_skills_insert (net env 1) (fresh env 1) uid
            uid (Skill.id skill) skillType db1
        with
        | (inl error, db2) =>
            (db2, setAdding false st1,
             [error_toast "Error adding skill" error])
        | (inr (data, embedded), db2) =>
            let formattedData := formatted (data, embedded) in
            (db2,
             setAdding false
               (setNewSkillName ""
                  (setUserSkills (userSkills st1 ++ [formattedData]) st1)),
             [{| title := "Skill added";
                 description :=
                   Skill.name skill +++ " has been added to your "
                   +++ SkillType_text skillType +++ " skills.";
                 variant := default |}])
        end
    end.

Definition removeSkill (env : Env) (uid : uuid) (userSkillId : uuid)
  (db : Database) (st : State) : Database * State * list Toast :=
  match Supabase.user_skills_delete (net env 0) uid userSkillId db with
  | (Some error, db') =>
      (db', st, [error_toast "Error removing skill" error])
  | (None, db') =>
      (db',
       setUserSkills
         (filter (fun skill => negb (String.eqb (UserSkill.id skill)
                                       userSkillId))
            (userSkills st))
         st,
       [{| title := "Skill removed";
           description := "The skill has been removed from your profile.";
           variant := default |}])
  end.

Definition offeredSkills (st : State) : list UserSkill.t :=
  filter (fun skill => SkillType_eqb (UserSkill.skill_type skill) offered)
    (userSkills st).

Definition wantedSkills (st : State) : list UserSkill.t :=
  filter (fun skill => SkillType_eqb (UserSkill.skill_type skill) wanted)
    (userSkills st).

End SkillsPage.

(** ** SearchPage *)

Module SearchPage.

Module UserProfile.
Record t := {
  id : uuid;
  user_id : uuid;
  display_name : option string;
  location : option string;
  avatar_url : option string;
  availability : option string;
  offeredSkills : list SkillRef.t
}.

Definition of_row (profile : Profiles.row) : t :=
  {| id := Profiles.id profile;
     user_id := Profiles.user_id profile;
     display_name := Profiles.display_name profile;
     location := Profiles.location profile;
     avatar_url := Profiles.avatar_url profile;
     availability := Profiles.availability profile;
     offeredSkills := [] |}.

(** [userProfile.offeredSkills.push(skill)] *)
Definition push (skill : SkillRef.t) (u : t) : t :=
  {| id := id u;
     user_id := user_id u;
     display_name := display_name u;
     location := location u;
     avatar_url := avatar_url u;
     availability := availability u;
     offeredSkills := offeredSkills u ++ [skill] |}.
End UserProfile.

(** The part of the page state [searchUsers] reads and writes. *)
Record State := {
  searchTerm : string;
  users : list UserProfile.t;
  loading : bool
}.

Definition initial : State :=
  {| searchTerm := ""; users := []; loading := false |}.

Definition setSearchTerm (v : string) (st : State) : State :=
  {| searchTerm := v; users := users st; loading := loading st |}.

Definition setUsers (l : list UserProfile.t) (st : State) : State :=
  {| searchTerm := searchTerm st; users := l; loading := loading st |}.

Definition setLoading (b : bool) (st : State) : State :=
  {| searchTerm := searchTerm st; users := users st; loading := b |}.

(** The body of [data?.forEach(profile => ...)]. *)
Definition addProfile (userMap : JsMap.t UserProfile.t)
  (profile : Profiles.row) : JsMap.t UserProfile.t :=
  if JsMap.has (Profiles.user_id profile) userMap then userMap
  else JsMap.set (Profiles.user_id profile) (UserProfile.of_row profile)
         userMap.

(** The body of [allUserSkills?.forEach(userSkill => ...)]; the profile
    object held by the map is updated in place. *)
Definition addOfferedSkill (userMap : JsMap.t UserProfile.t)
  (userSkill : UserSkills.row * option Skills.row)
  : JsMap.t UserProfile.t :=
  match JsMap.get (UserSkills.user_id (fst userSkill)) userMap,
        snd userSkill with
  | Some userProfile, Some skills =>
      match
        find (fun s => String.eqb (SkillRef.id s) (Skills.id skills))
          (UserProfile.offeredSkills userProfile)
      with
      | Some _ => userMap
      | None =>
          JsMap.set (UserSkills.user_id (fst userSkill))
            (UserProfile.push (SkillRef.of_row skills) userProfile)
            userMap
      end
  | _, _ => userMap
  end.

Definition assemble (data : list Profiles.row)
  (allUserSkills : list (UserSkills.row * option Skills.row))
  : list UserProfile.t :=
  JsMap.values
    (fold_left addOfferedSkill allUserSkills (fold_left addProfile data [])).

(** Call sites: 0 the matching skills, 1 the users offering them, 2 their
    profiles, 3 all the skills they offer. *)
Definition searchUsers (env : Env) (uid : uuid) (db : Database)
  (st : State) : State * list Toast :=
  if negb (Text.truthy (Text.trim (searchTerm st))) then (st, [])
  else
    let failed e :=
      (setLoading false st, [error_toast "Error searching users" e]) in
    match
      Supabase.skills_ilike (net env 0) uid ("%" +++ searchTerm st +++ "%")
        db
    with
    | inl skillsError => failed skillsError
    | inr [] => (setLoading false (setUsers [] st), [])
    | inr matchingSkills =>
        let skillIds := map Skills.id matchingSkills in
        match Supabase.user_skills_offering (net env 1) uid skillIds db with
        | inl userSkillsError => failed userSkillsError
        | inr userSkills =>
            let userIds := distinct (map UserSkills.user_id userSkills) in
            match userIds with
            | [] => (setLoading false (setUsers [] st), [])
            | _ =>
                match
                  Supabase.profiles_public_others_in (net env 2) uid
                    userIds db
                with
                | inl error => failed error
                | inr data =>
                    match
                      Supabase.user_skills_offered_by (net env 3) uid
                        userIds db
                    with
                    | inl allSkillsError => failed allSkillsError
                    | inr allUserSkills =>
                        (setLoading false
                           (setUsers (assemble data allUserSkills) st),
                         [])
                    end
                end
            end
        end
    end.

(** *** The dialog: the part of the page state [sendSwapRequest] and
    [fetchMySkills] read and write *)

Module MySkill.
Record t := { id : uuid; name : string; skill_type : SkillType }.
End MySkill.

Module SwapRequest.
Record t := {
  offeredSkillId : string;
  wantedSkillId : string;
  message : string
}.

Definition empty : t :=
  {| offeredSkillId := ""; wantedSkillId := ""; message := "" |}.
End SwapRequest.

Record Dialog := {
  mySkills : list MySkill.t;
  selectedUser : option UserProfile.t;
  swapRequest : SwapRequest.t;
  sending : bool
}.

Definition closed : Dialog :=
  {| mySkills := []; selectedUser := None; swapRequest := SwapRequest.empty;
     sending := false |}.

Definition setMySkills (l : list MySkill.t) (d : Dialog) : Dialog :=
  {| mySkills := l; selectedUser := selectedUser d;
     swapRequest := swapRequest d; sending := sending d |}.

Definition setSelectedUser (u : option UserProfile.t) (d : Dialog) : Dialog :=
  {| mySkills := mySkills d; selectedUser := u;
     swapRequest := swapRequest d; sending := sending d |}.

Definition setSwapRequest (r : SwapRequest.t) (d : Dialog) : Dialog :=
  {| mySkills := mySkills d; selectedUser := selectedUser d;
     swapRequest := r; sending := sending d |}.

Definition setSending (b : bool) (d : Dialog) : Dialog :=
  {| mySkills := mySkills d; selectedUser := selectedUser d;
     swapRequest := swapRequest d; sending := b |}.

(** [data?.map(item => ({ id: item.skills.id, ... }))]: reading [id] of an
    embedded skill that is not there throws ([None]). *)
Fixpoint formattedSkills (data : list (UserSkills.row * option Skills.row))
  : option (list MySkill.t) :=
  match data with
  | [] => Some []
  | (item, Some skills) :: rest =>
      match formattedSkills rest with
      | Some l =>
          Some ({| MySkill.id := Skills.id skills;
                   MySkill.name := Skills.name skills;
                   MySkill.skill_type := UserSkills.skill_type item |} :: l)
      | None => None
      end
  | (_, None) :: _ => None
  end.

(** Errors are written to the console only. *)
Definition fetchMySkills (env : Env) (uid : uuid) (db : Database)
  (d : Dialog) : Dialog :=
  match Supabase.user_skills_of (net env 0) (arrange env) uid db with
  | inl _ => d
  | inr data =>
      match formattedSkills data with
      | Some l => setMySkills l d
      | None => d
      end
  end.

Definition myOfferedSkills (d : Dialog) : list MySkill.t :=
  filter (fun s => SkillType_eqb (MySkill.skill_type s) offered) (mySkills d).

(** What [sendSwapRequest] hands to [insert]. *)
Definition proposed (uid : uuid) (d : Dialog) : Supabase.NewSwapRequest :=
  {| Supabase.requester_id := uid;
     Supabase.recipient_id := option_map UserProfile.user_id (selectedUser d);
     Supabase.offered_skill_id := SwapRequest.offeredSkillId (swapRequest d);
     Supabase.wanted_skill_id := SwapRequest.wantedSkillId (swapRequest d);
     Supabase.message := SwapRequest.message (swapRequest d) |}.

Definition sendSwapRequest (env : Env) (uid : uuid) (db : Database)
  (d : Dialog) : Database * Dialog * list Toast :=
  if negb (Text.truthy (SwapRequest.offeredSkillId (swapRequest d)))
     || negb (Text.truthy (SwapRequest.wantedSkillId (swapRequest d))) then
    (db, d,
     [{| title := "Please select skills";
         description := "You must select both skills for the swap.";
         variant := destructive |}])
  else
    match
      Supabase.swap_requests_insert (net env 0) (now env) (fresh env 0) uid
        (proposed uid d) db
    with
    | (Some error, db') =>
        (db', setSending false d, [error_toast "Error sending request" error])
    | (None, db') =>
        (db',
         setSending false
           (setSwapRequest SwapRequest.empty (setSelectedUser None d)),
         [{| title := "Swap request sent!";
             description := "Your request has been sent successfully.";
             variant := default |}])
    end.

End SearchPage.

(** ** ProfilePage *)

Module ProfilePage.

(** The fields are those of a row of [profiles] once [fetchProfile] has
    stored one: a column that is null is [None]. *)
Module Profile.
Record t := {
  id : string;
  display_name : option string;
  location : option string;
  availability : option string;
  is_public : option bool;
  avatar_url : option string
}.

Definition empty : t :=
  {| id := ""; display_name := Some ""; location := Some "";
     availability := Some ""; is_public := Some true;
     avatar_url := Some "" |}.

Definition of_row (row : Profiles.row) : t :=
  {| id := Profiles.id row;
     display_name := Profiles.display_name row;
     location := Profiles.location row;
     availability := Profiles.availability row;
     is_public := Profiles.is_public row;
     avatar_url := Profiles.avatar_url row |}.

(** [{ ...prev, avatar_url }] *)
Definition with_avatar_url (url : string) (p : t) : t :=
  {| id := id p; display_name := display_name p; location := location p;
     availability := availability p; is_public := is_public p;
     avatar_url := Some url |}.
End Profile.

Record State := {
  loading : bool;
  saving : bool;
  uploading : bool;
  profile : Profile.t
}.

Definition initial : State :=
  {| loading := true; saving := false; uploading := false;
     profile := Profile.empty |}.

Definition setLoading (b : bool) (st : State) : State :=
  {| loading := b; saving := saving st; uploading := uploading st;
     profile := profile st |}.

Definition setSaving (b : bool) (st : State) : State :=
  {| loading := loading st; saving := b; uploading := uploading st;
     profile := profile st |}.

Definition setUploading (b : bool) (st : State) : State :=
  {| loading := loading st; saving := saving st; uploading := b;
     profile := profile st |}.

Definition setProfile (p : Profile.t) (st : State) : State :=
  {| loading := loading st; saving := saving st; uploading := uploading st;
     profile := p |}.

Definition fetchProfile (env : Env) (uid : uuid) (db : Database) (st : State)
  : State * list Toast :=
  match Supabase.profiles_maybe_single (net env 0) uid db with
  | inl error =>
      (setLoading false st, [error_toast "Error loading profile" error])
  | inr (Some data) =>
      (setLoading false (setProfile (Profile.of_row data) st), [])
  | inr None => (setLoading false st, [])
  end.

(** [profileData] of [handleSubmit]. *)
Definition profileData (uid : uuid) (p : Profile.t) : Supabase.ProfileData :=
  {| Supabase.user_id := uid;
     Supabase.display_name := Profile.display_name p;
     Supabase.location := Profile.location p;
     Supabase.availability := Profile.availability p;
     Supabase.is_public := Profile.is_public p;
     Supabase.avatar_url := Profile.avatar_url p |}.

Definition handleSubmit (env : Env) (uid : uuid) (db : Database) (st : State)
  : Database * State * list Toast :=
  match
    Supabase.profiles_upsert (net env 0) (fresh env 0) uid
      (profileData uid (profile st)) db
  with
  | (Some error, db') =>
      (db', setSaving false st, [error_toast "Error updating profile" error])
  | (None, db') =>
      (db', setSaving false st,
       [{| title := "Profile updated";
           description := "Your profile has been saved successfully.";
           variant := default |}])
  end.

(** The file picked in the input: its name and its content. *)
Record File := { name : string; content : string }.

(** [file.name.split('.').pop()] *)
Definition fileExt (file : File) : string :=
  last (Text.split "." (name file)) "".

(** [`${user?.id}/avatar.${fileExt}`] *)
Definition fileName (uid : uuid) (file : File) : string :=
  uid +++ "/avatar." +++ fileExt file.

(** [handleFileUpload], for the file of the change event ([None]: no file
    was picked) and the project URL of the client. *)
Definition handleFileUpload (env : Env) (supabaseUrl : string) (uid : uuid)
  (picked : option File) (objects : list Storage.object) (st : State)
  : list Storage.object * State * list Toast :=
  match picked with
  | None => (objects, st, [])
  | Some file =>
      match
        Storage.upload (net env 0) uid "avatars" (fileName uid file)
          (content file) objects
      with
      | (Some uploadError, objects') =>
          (objects', setUploading false st,
           [error_toast "Error uploading avatar" uploadError])
      | (None, objects') =>
          (objects',
           setUploading false
             (setProfile
                (Profile.with_avatar_url
                   (Storage.getPublicUrl supabaseUrl "avatars"
                      (fileName uid file))
                   (profile st))
                st),
           [{| title := "Avatar uploaded";
               description := "Your profile picture has been updated.";
               variant := default |}])
      end
  end.

End ProfilePage.

(** ** Vocabulary of the statements *)

(** A search term that is empty or made of white space only. *)
Definition blank (term : string) : Prop := Text.trim term = "".

(** The swap request [r] awaits feedback from [U]: it is accepted, [U] is its
    requester or its recipient, and [feedback] holds no row by reviewer [U]
    for it. *)
Definition awaits_feedback (db : Database) (U : uuid) (r : SwapRequests.row)
  : bool :=
  Status_eqb (SwapRequests.status r) accepted
  && (String.eqb (SwapRequests.requester_id r) U
      || String.eqb (SwapRequests.recipient_id r) U)
  && negb (existsb (Supabase.same_pair (SwapRequests.id r) U) (feedback db)).

(** The other participant of [r], seen from [U]: the recipient if [U] is the
    requester, else the requester. *)
Definition other_participant (U : uuid) (r : SwapRequests.row) : uuid :=
  if String.eqb (SwapRequests.requester_id r) U
  then SwapRequests.recipient_id r
  else SwapRequests.requester_id r.

(** The entry [v] of the feedback page shows the stored request [r]. *)
Definition shows (v : FeedbackPage.AcceptedSwapRequest.t)
  (r : SwapRequests.row) : Prop :=
  FeedbackPage.AcceptedSwapRequest.id v = SwapRequests.id r
  /\ Party.id (FeedbackPage.AcceptedSwapRequest.requester v)
     = SwapRequests.requester_id r
  /\ Party.id (FeedbackPage.AcceptedSwapRequest.recipient v)
     = SwapRequests.recipient_id r.

(** The entry [v] of the swap-requests page shows the stored request [r]. *)
Definition lists (v : SwapRequestsPage.SwapRequest) (r : SwapRequests.row)
  : Prop :=
  SwapRequestsPage.id v = SwapRequests.id r
  /\ SwapRequestsPage.status v = SwapRequests.status r
  /\ SwapRequestsPage.message v = SwapRequests.message r
  /\ SwapRequestsPage.created_at v = SwapRequests.created_at r
  /\ Party.id (SwapRequestsPage.requester v) = SwapRequests.requester_id r
  /\ Party.id (SwapRequestsPage.recipient v) = SwapRequests.recipient_id r.

(** The entry [w] of the feedback page shows the stored feedback [f]. *)
Definition presents (w : FeedbackPage.FeedbackView.t) (f : Feedback.row)
  : Prop :=
  FeedbackPage.FeedbackView.id w = Feedback.id f
  /\ FeedbackPage.FeedbackView.rating w = Feedback.rating f
  /\ FeedbackPage.FeedbackView.comment w = Feedback.comment f
  /\ FeedbackPage.FeedbackView.created_at w = Feedback.created_at f
  /\ Party.id (FeedbackPage.FeedbackView.reviewer w) = Feedback.reviewer_id f
  /\ Party.id (FeedbackPage.FeedbackView.reviewee w)
     = Feedback.reviewee_id f.

(** The rows [addSkill] asks the backend to store: the skill created for
    the name entered, and the link of the user to a skill. *)
Definition new_skill (env : Env) (name : string) : Skills.row :=
  {| Skills.id := fresh env 0; Skills.name := Text.trim name;
     Skills.category := None; Skills.is_approved := Some true |}.

Definition new_link (env : Env) (uid skill : uuid) (type : SkillType)
  : UserSkills.row :=
  {| UserSkills.id := fresh env 1; UserSkills.user_id := uid;
     UserSkills.skill_id := skill; UserSkills.skill_type := type |}.

(** The string [s] has no character [sep]. *)
Fixpoint free_of (sep : ascii) (s : string) : bool :=
  match s with
  | EmptyString => true
  | String c s' => negb (Ascii.eqb c sep) && free_of sep s'
  end.

(** The constraints of the schema (primary keys apart, which depend on
    the identifiers the backend draws): the references of the foreign
    keys, the UNIQUE constraints, and the CHECK of the rating. *)
Definition references_hold (db : Database) : Prop :=
  (forall p, In p (profiles db) -> In (Profiles.user_id p) (auth_users db))
  /\ (forall r, In r (user_skills db) ->
        In (UserSkills.user_id r) (auth_users db)
        /\ In (UserSkills.skill_id r) (map Skills.id (skills db)))
  /\ (forall r, In r (swap_requests db) ->
        In (SwapRequests.requester_id r) (auth_users db)
        /\ In (SwapRequests.recipient_id r) (auth_users db)
        /\ In (SwapRequests.offered_skill_id r) (map Skills.id (skills db))
        /\ In (SwapRequests.wanted_skill_id r) (map Skills.id (skills db)))
  /\ (forall f, In f (feedback db) ->
        In (Feedback.swap_request_id f)
          (map SwapRequests.id (swap_requests db))
        /\ In (Feedback.reviewer_id f) (auth_users db)
        /\ In (Feedback.reviewee_id f) (auth_users db)).

Definition link_key (r : UserSkills.row) : uuid * uuid * SkillType :=
  (UserSkills.user_id r, UserSkills.skill_id r, UserSkills.skill_type r).

Definition feedback_key (f : Feedback.row) : uuid * uuid :=
  (Feedback.swap_request_id f, Feedback.reviewer_id f).

Definition no_duplicates (db : Database) : Prop :=
  NoDup (map Profiles.user_id (profiles db))
  /\ NoDup (map Skills.name (skills db))
  /\ NoDup (map link_key (user_skills db))
  /\ NoDup (map feedback_key (feedback db)).

Definition ratings_valid (db : Database) : Prop :=
  forall f, In f (feedback db) -> (1 <= Feedback.rating f <= 5)%Z.

Definition constraints_hold (db : Database) : Prop :=
  references_hold db /\ no_duplicates db /\ ratings_valid db.

(** Newest first. *)
Definition newest_first {A} (created_at : A -> timestamp) (l : list A)
  : Prop :=
  StronglySorted (fun a b => created_at b <= created_at a) l.

(** ** A small database: the example scenario of the specification

    Alice offers Guitar, Bob offers Spanish and wants Guitar, Carol (whose
    profile is private) offers Guitar too; Bob has sent Alice a swap
    request. *)

Module Scenario.

Definition alice : uuid := "alice".
Definition bob : uuid := "bob".
Definition carol : uuid := "carol".
Definition dave : uuid := "dave".

Definition profile (id user : uuid) (name : string) (public : bool)
  : Profiles.row :=
  {| Profiles.id := id; Profiles.user_id := user;
     Profiles.display_name := Some name; Profiles.location := None;
     Profiles.avatar_url := None; Profiles.availability := None;
     Profiles.is_public := Some public |}.

Definition guitar : Skills.row :=
  {| Skills.id := "s-guitar"; Skills.name := "Guitar";
     Skills.category := None; Skills.is_approved := Some true |}.

Definition spanish : Skills.row :=
  {| Skills.id := "s-spanish"; Skills.name := "Spanish";
     Skills.category := None; Skills.is_approved := Some true |}.

Definition user_skill (id user skill : uuid) (type : SkillType)
  : UserSkills.row :=
  {| UserSkills.id := id; UserSkills.user_id := user;
     UserSkills.skill_id := skill; UserSkills.skill_type := type |}.

Definition request (s : Status) : SwapRequests.row :=
  {| SwapRequests.id := "r1";
     SwapRequests.requester_id := bob;
     SwapRequests.recipient_id := alice;
     SwapRequests.offered_skill_id := "s-spanish";
     SwapRequests.wanted_skill_id := "s-guitar";
     SwapRequests.message := Some "Hola";
     SwapRequests.status := s;
     SwapRequests.created_at := 10;
     SwapRequests.updated_at := 10 |}.

(** The database with the request in status [s] and the given feedback. *)
Definition db (s : Status) (given : list Feedback.row) : Database :=
  {| auth_users := [alice; bob; carol; dave];
     profiles := [profile "p-alice" alice "Alice" true;
                  profile "p-bob" bob "Bob" true;
                  profile "p-carol" carol "Carol" false;
                  profile "p-dave" dave "Dave" true];
     skills := [guitar; spanish];
     user_skills := [user_skill "us1" alice "s-guitar" offered;
                     user_skill "us2" bob "s-spanish" offered;
                     user_skill "us3" bob "s-guitar" wanted;
                     user_skill "us4" carol "s-guitar" offered];
     swap_requests := [request s];
     feedback := given |}.

Definition env : Env :=
  {| net := fun _ => None; now := 20;
     fresh := fun i => "new-" +++ String (ascii_of_nat (48 + i)) "";
     arrange := fun rows => rows;
     arranged := fun rows => Permutation_refl rows |}.

(** The same world, with the transport failing at call site [k]. *)
Definition offline_at (k : nat) : Env :=
  {| net := fun i => if i =? k then Some "Failed to fetch" else None;
     now := 20;
     fresh := fresh env;
     arrange := arrange env;
     arranged := arranged env |}.

(** The same world, the backend returning a user's skills in the reverse
    of their order in the table. *)
Definition backwards : Env :=
  {| net := net env; now := now env; fresh := fresh env;
     arrange := @rev UserSkills.row;
     arranged := fun rows => Permutation_sym (Permutation_rev rows) |}.

(** A second request to Alice, from Carol, whose profile is private. *)
Definition request_from_carol : SwapRequests.row :=
  {| SwapRequests.id := "r2";
     SwapRequests.requester_id := carol;
     SwapRequests.recipient_id := alice;
     SwapRequests.offered_skill_id := "s-guitar";
     SwapRequests.wanted_skill_id := "s-guitar";
     SwapRequests.message := None;
     SwapRequests.status := pending;
     SwapRequests.created_at := 30;
     SwapRequests.updated_at := 30 |}.

(** The scenario database with both requests, Bob's being in status [s]. *)
Definition busy (s : Status) : Database :=
  with_swap_requests [request s; request_from_carol] (db s []).

(** The scenario database, Alice offering Spanish as well. *)
Definition versatile : Database :=
  with_user_skills
    (user_skills (db pending [])
     ++ [user_skill "us5" alice "s-spanish" offered])
    (db pending []).

(** Alice's swap-requests page, loaded while the request was pending. *)
Definition alice_requests : SwapRequestsPage.State :=
  fst (SwapRequestsPage.fetchSwapRequests env alice (db pending [])
         SwapRequestsPage.initial).

(** The skills page as loaded for [user], with [name] typed into the input
    box. *)
Definition entering (user : uuid) (name : string) : SkillsPage.State :=
  SkillsPage.setNewSkillName name
    (SkillsPage.fetchAllSkills env user (db pending [])
       (fst (SkillsPage.fetchUserSkills env user (db pending [])
               SkillsPage.initial))).

(** The search page as loaded, with [term] typed into the search box. *)
Definition searching (term : string) : SearchPage.State :=
  SearchPage.setSearchTerm term SearchPage.initial.

(** The request dialog as Bob fills it after searching for guitar: the
    first user found is selected, Spanish is offered for Guitar. *)
Definition proposing : SearchPage.Dialog :=
  SearchPage.setSwapRequest
    {| SearchPage.SwapRequest.offeredSkillId := "s-spanish";
       SearchPage.SwapRequest.wantedSkillId := "s-guitar";
       SearchPage.SwapRequest.message := "Hola Alice" |}
    (SearchPage.setSelectedUser
       (hd_error
          (SearchPage.users
             (fst (SearchPage.searchUsers env bob (db pending [])
                     (searching "guitar")))))
       (SearchPage.fetchMySkills env bob (db pending [])
          SearchPage.closed)).

(** Erin signs up. *)
Definition erin : uuid := "erin".

Definition with_erin : Database :=
  match
    Supabase.on_auth_user_created "p-erin" erin (Some "Erin") (db pending [])
  with
  | Some db' => db'
  | None => db pending []
  end.

(** Alice's feedback page once the request is accepted: she has selected
    the swap, five stars, and typed a comment. *)
Definition reviewing : FeedbackPage.State :=
  FeedbackPage.editComment "Great teacher"
    (FeedbackPage.selectRating "5"
       (FeedbackPage.selectSwap alice "r1"
          (fst (FeedbackPage.fetchAcceptedSwaps env alice (db accepted [])
                  FeedbackPage.initial)))).

End Scenario.

(** * Properties *)

(** ** Basic facts *)

Lemma Status_eqb_eq (a b : Status) : Status_eqb a b = true <-> a = b.
Proof. destruct a, b; simpl; split; congruence. Qed.

Lemma mem_In (x : string) (l : list string) : mem x l = true <-> In x l.
Proof.
  unfold mem. rewrite existsb_exists. split.
  - intros [y [Hy E]]. apply String.eqb_eq in E. now subst.
  - intros H. exists x. split; [assumption | apply String.eqb_refl].
Qed.

Lemma mem_nil_filter {A} (key : A -> string) (l : list A) :
  filter (fun a => negb (mem (key a) [])) l = l.
Proof. apply forallb_filter_id, forallb_forall. reflexivity. Qed.

Lemma filter_none {A} (f : A -> bool) (l : list A) :
  (forall a, In a l -> f a = false) -> filter f l = [].
Proof.
  induction l as [|a l IH]; simpl; intros H; [reflexivity|].
  rewrite (H a (or_introl eq_refl)). apply IH. intros b Hb. apply H. now right.
Qed.

Lemma filter_all {A} (f : A -> bool) (l : list A) :
  (forall a, In a l -> f a = true) -> filter f l = l.
Proof.
  intros H. apply forallb_filter_id. apply forallb_forall. exact H.
Qed.

(** A primary key: at most one row of [l] carries the key of [r]. *)
Lemma NoDup_key_unique {A} (key : A -> string) (l : list A) (r r' : A) :
  NoDup (map key l) -> In r l -> In r' l -> key r = key r' -> r = r'.
Proof.
  induction l as [|a l IH]; simpl; intros ND Hr Hr' E; [contradiction|].
  inversion ND as [|? ? Hnotin ND']; subst.
  destruct Hr as [-> | Hr], Hr' as [-> | Hr'].
  - reflexivity.
  - exfalso. apply Hnotin. rewrite E. now apply in_map.
  - exfalso. apply Hnotin. rewrite <- E. now apply in_map.
  - now apply IH.
Qed.

(** ** Swap requests: the UPDATE and DELETE policies *)

Section SwapRequestStatus.

Variables (now : timestamp) (uid requestId : uuid) (s : Status).

(** The new version of a row passes the UPDATE policy whenever the old one
    did: the statement writes [status] and [updated_at] only. *)
Lemma update_check_passes (rows : list SwapRequests.row) :
  forallb
    (fun r =>
       negb (Supabase.update_target uid requestId r)
       || Policy.swap_requests_update uid (SwapRequests.set_status s now r))
    rows = true.
Proof.
  apply forallb_forall. intros r _. unfold Supabase.update_target.
  unfold Policy.swap_requests_update at 2. simpl.
  fold (Policy.swap_requests_update uid r).
  destruct (Policy.swap_requests_update uid r);
    [apply orb_true_r | now rewrite andb_false_r].
Qed.

Lemma update_status_online (db : Database) :
  Supabase.swap_requests_update_status None now uid requestId s db
  = (None,
     with_swap_requests
       (map (fun r => if Supabase.update_target uid requestId r
                      then SwapRequests.set_status s now r else r)
          (swap_requests db))
       db).
Proof.
  unfold Supabase.swap_requests_update_status.
  now rewrite update_check_passes.
Qed.

Lemma update_target_iff (r : SwapRequests.row) :
  Supabase.update_target uid requestId r = true
  <-> SwapRequests.id r = requestId
      /\ (uid = SwapRequests.requester_id r
          \/ uid = SwapRequests.recipient_id r).
Proof.
  unfold Supabase.update_target, Policy.swap_requests_select,
    Policy.swap_requests_update.
  rewrite !andb_true_iff, !orb_true_iff, !String.eqb_eq. tauto.
Qed.

End SwapRequestStatus.

Section SwapRequestDelete.

Variables (uid requestId : uuid).

Lemma delete_target_iff (r : SwapRequests.row) :
  Supabase.delete_target uid requestId r = true
  <-> SwapRequests.id r = requestId
      /\ uid = SwapRequests.requester_id r
      /\ SwapRequests.status r = pending.
Proof.
  unfold Supabase.delete_target, Policy.swap_requests_select,
    Policy.swap_requests_delete.
  rewrite !andb_true_iff, !orb_true_iff, !String.eqb_eq, Status_eqb_eq.
  tauto.
Qed.

Lemma delete_rows (net : option string) (db : Database) :
  swap_requests (snd (Supabase.swap_requests_delete net uid requestId db))
  = match net with
    | Some _ => swap_requests db
    | None =>
        filter (fun r => negb (Supabase.delete_target uid requestId r))
          (swap_requests db)
    end.
Proof. destruct net; reflexivity. Qed.

End SwapRequestDelete.

Lemma deleteRequest_db (env : Env) (uid requestId : uuid) (db : Database)
  (st : SwapRequestsPage.State) :
  fst (fst (SwapRequestsPage.deleteRequest env uid requestId db st))
  = snd (Supabase.swap_requests_delete (net env 0) uid requestId db).
Proof.
  unfold SwapRequestsPage.deleteRequest.
  destruct (Supabase.swap_requests_delete (net env 0) uid requestId db)
    as [[e|] db']; reflexivity.
Qed.

(** C1, as stated, fails on the code.  Alice, the recipient, has loaded her
    page while the request was pending, so its card shows Accept and
    Decline; the request has been accepted since (in another session of
    hers, say).  She now presses Decline: the backend reports no error, the
    stored status goes from accepted to rejected, and the page shows its
    success notification.  And when Dave, who is neither requester nor
    recipient, sends an update for the pending request, nothing is stored
    but no error is reported either. *)
Lemma status_update_leaves_terminal_state :
  (Forall (fun req => SwapRequestsPage.showsAcceptDecline
                        SwapRequestsPage.received req = true)
     (SwapRequestsPage.receivedRequests Scenario.alice_requests)
   /\ map SwapRequests.status
        (swap_requests
           (fst (fst (SwapRequestsPage.updateRequestStatus Scenario.env
                        Scenario.alice "r1" SwapRequestsPage.Rejected
                        (Scenario.db accepted []) Scenario.alice_requests))))
      = [rejected]
   /\ map variant
        (snd (SwapRequestsPage.updateRequestStatus Scenario.env
                Scenario.alice "r1" SwapRequestsPage.Rejected
                (Scenario.db accepted []) Scenario.alice_requests))
      = [default])
  /\ Supabase.swap_requests_update_status None 20 Scenario.dave "r1" accepted
       (Scenario.db pending [])
     = (None, Scenario.db pending []).
Proof.
  split; [split; [|split]|]; try reflexivity.
  repeat constructor.
Qed.

(** C1, amended: a status update is decided by participation alone.  For
    the stored request [r] with the identifier of the update: when the acting
    user is neither requester nor recipient of [r], the row stays as it is
    and the backend, when reached, reports no error;
    when the acting user is the requester or the recipient and the request
    reaches the backend, the update succeeds whatever the current status of
    [r] is, and the row becomes [r] with the new status (and the update
    time).  The page offers Accept and Decline only on the card of a received
    request whose status it shows as pending. *)
Theorem status_update_by_participants
  (net : option string) (now : timestamp) (uid requestId : uuid) (s : Status)
  (db : Database) (i : nat) (r : SwapRequests.row) :
  nth_error (swap_requests db) i = Some r ->
  SwapRequests.id r = requestId ->
  let result :=
    Supabase.swap_requests_update_status net now uid requestId s db in
  (uid <> SwapRequests.requester_id r ->
   uid <> SwapRequests.recipient_id r ->
   nth_error (swap_requests (snd result)) i = Some r
   /\ (net = None -> fst result = None))
  /\ (net = None ->
      uid = SwapRequests.requester_id r \/ uid = SwapRequests.recipient_id r ->
      fst result = None
      /\ nth_error (swap_requests (snd result)) i
         = Some (SwapRequests.set_status s now r))
  /\ (forall type request,
        SwapRequestsPage.showsAcceptDecline type request = true ->
        type = SwapRequestsPage.received
        /\ SwapRequestsPage.status request = pending).
Proof.
  intros Hi Hid result. subst result. split; [|split].
  - intros Hreq Hrec.
    destruct net as [m|]; [split; [exact Hi | discriminate]|].
    rewrite update_status_online. simpl. split; [|reflexivity].
    rewrite nth_error_map, Hi. simpl.
    destruct (Supabase.update_target uid requestId r) eqn:E; [|reflexivity].
    apply update_target_iff in E. destruct E as [_ [E|E]]; contradiction.
  - intros -> Hpart. rewrite update_status_online. simpl.
    split; [reflexivity|]. rewrite nth_error_map, Hi. simpl.
    assert (E : Supabase.update_target uid requestId r = true)
      by (apply update_target_iff; auto).
    now rewrite E.
  - intros [|] request H; simpl in H; [discriminate|].
    split; [reflexivity | now apply Status_eqb_eq].
Qed.

Lemma status_update_by_participants_witness :
  (* Dave cannot touch the request *)
  nth_error
    (swap_requests
       (snd (Supabase.swap_requests_update_status None 20 Scenario.dave "r1"
               accepted (Scenario.db pending []))))
    0
  = Some (Scenario.request pending)
  (* Alice, the recipient, accepts it *)
  /\ nth_error
       (swap_requests
          (snd (Supabase.swap_requests_update_status None 20 Scenario.alice
                  "r1" accepted (Scenario.db pending []))))
       0
     = Some (SwapRequests.set_status accepted 20 (Scenario.request pending)).
Proof.
  split.
  - destruct (status_update_by_participants None 20 Scenario.dave "r1"
                accepted (Scenario.db pending []) 0
                (Scenario.request pending))
      as [H _]; [reflexivity | reflexivity |].
    apply H; discriminate.
  - apply (status_update_by_participants None 20 Scenario.alice "r1" accepted
             (Scenario.db pending []) 0 (Scenario.request pending));
      [reflexivity | reflexivity | reflexivity | right; reflexivity].
Defined.

(** C2, as stated, fails on the code: a delete that the policy refuses
    does not fail, it is reported as done.  Alice, the recipient, asks for
    the deletion of Bob's pending request: the request stays in the table,
    the backend reports no error and the page announces "Request deleted".
    And Bob has loaded his page while his request was pending, so its card
    shows Delete; the request has been accepted since.  He presses Delete:
    the request stays in the table, yet its card leaves his list and the
    page announces the deletion. *)
Lemma refused_delete_is_reported_as_done :
  (let out :=
     SwapRequestsPage.deleteRequest Scenario.env Scenario.alice "r1"
       (Scenario.db pending []) Scenario.alice_requests in
   fst (fst out) = Scenario.db pending []
   /\ map title (snd out) = ["Request deleted"]
   /\ map variant (snd out) = [default])
  /\ (let page :=
        fst (SwapRequestsPage.fetchSwapRequests Scenario.env Scenario.bob
               (Scenario.db pending []) SwapRequestsPage.initial) in
      let out :=
        SwapRequestsPage.deleteRequest Scenario.env Scenario.bob "r1"
          (Scenario.db accepted []) page in
      map (SwapRequestsPage.showsDelete SwapRequestsPage.sent)
        (SwapRequestsPage.sentRequests page) = [true]
      /\ fst (fst out) = Scenario.db accepted []
      /\ SwapRequestsPage.sentRequests (snd (fst out)) = []
      /\ map title (snd out) = ["Request deleted"]
      /\ map variant (snd out) = [default]).
Proof. repeat split. Qed.

(** C2, amended: a delete takes effect only for the requester of a pending
    request, and one that takes no effect is not reported as a failure.
    For the stored request [r] with the identifier handed to
    [deleteRequest]: if [r] is gone afterwards, the acting user is its
    requester and its status was pending.  When the acting user is not the
    requester (the recipient, or a user who takes no part in it) or the
    status is accepted or rejected, [r] is still in the table, and the whole
    database is as before when request identifiers are unique; the backend,
    when reached, reports no error then: the page announces the deletion
    and drops the cards with that identifier from its list of sent
    requests.  The requester's delete of a pending request that reaches the
    backend does remove it. *)
Theorem delete_only_by_requester_while_pending
  (env : Env) (uid requestId : uuid) (db : Database)
  (st : SwapRequestsPage.State) (r : SwapRequests.row) :
  In r (swap_requests db) ->
  SwapRequests.id r = requestId ->
  let out := SwapRequestsPage.deleteRequest env uid requestId db st in
  let db' := fst (fst out) in
  (~ In r (swap_requests db') ->
   uid = SwapRequests.requester_id r /\ SwapRequests.status r = pending)
  /\ (uid <> SwapRequests.requester_id r \/ SwapRequests.status r <> pending ->
      In r (swap_requests db')
      /\ (NoDup (map SwapRequests.id (swap_requests db)) -> db' = db)
      /\ (net env 0 = None ->
          snd out
          = [{| title := "Request deleted";
                description := "The swap request has been deleted.";
                variant := default |}]
          /\ SwapRequestsPage.sentRequests (snd (fst out))
             = filter
                 (fun req =>
                    negb (String.eqb (SwapRequestsPage.id req) requestId))
                 (SwapRequestsPage.sentRequests st)
          /\ SwapRequestsPage.receivedRequests (snd (fst out))
             = SwapRequestsPage.receivedRequests st))
  /\ (net env 0 = None ->
      uid = SwapRequests.requester_id r ->
      SwapRequests.status r = pending ->
      ~ In r (swap_requests db')).
Proof.
  intros Hin Hid out db'.
  assert (Hsilent : net env 0 = None ->
            snd out
            = [{| title := "Request deleted";
                  description := "The swap request has been deleted.";
                  variant := default |}]
            /\ SwapRequestsPage.sentRequests (snd (fst out))
               = filter
                   (fun req =>
                      negb (String.eqb (SwapRequestsPage.id req) requestId))
                   (SwapRequestsPage.sentRequests st)
            /\ SwapRequestsPage.receivedRequests (snd (fst out))
               = SwapRequestsPage.receivedRequests st).
  { intros Hnet. subst out.
    unfold SwapRequestsPage.deleteRequest, Supabase.swap_requests_delete.
    rewrite Hnet. repeat split. }
  subst db' out. rewrite deleteRequest_db.
  assert (Hkeep : Supabase.delete_target uid requestId r = false ->
                  In r (swap_requests
                          (snd (Supabase.swap_requests_delete (net env 0) uid
                                  requestId db)))).
  { intros E. rewrite delete_rows. destruct (net env 0); [assumption|].
    apply filter_In. split; [assumption | now rewrite E]. }
  split; [|split].
  - intros Hgone.
    destruct (Supabase.delete_target uid requestId r) eqn:E.
    + apply delete_target_iff in E. tauto.
    + exfalso. auto.
  - intros Hno.
    assert (E : Supabase.delete_target uid requestId r = false).
    { destruct (Supabase.delete_target uid requestId r) eqn:E;
        [|reflexivity].
      apply delete_target_iff in E. destruct E as [_ [E1 E2]].
      destruct Hno; contradiction. }
    split; [auto|]. split; [|exact Hsilent]. intros ND.
    unfold Supabase.swap_requests_delete.
    destruct (net env 0); [reflexivity|]. simpl.
    assert (Hnone : forall r', In r' (swap_requests db) ->
                      Supabase.delete_target uid requestId r' = false).
    { intros r' Hr'.
      destruct (Supabase.delete_target uid requestId r') eqn:E'; [|reflexivity].
      assert (r = r').
      { apply (NoDup_key_unique SwapRequests.id (swap_requests db)); auto.
        apply delete_target_iff in E'. destruct E' as [E' _]. congruence. }
      congruence. }
    rewrite (filter_none _ _ Hnone). cbn [map].
    rewrite (mem_nil_filter Feedback.swap_request_id).
    rewrite filter_all.
    + destruct db; reflexivity.
    + intros r' Hr'. now rewrite (Hnone r' Hr').
  - intros Hnet Hreq Hst. rewrite delete_rows, Hnet. intros Hr.
    apply filter_In in Hr. destruct Hr as [_ Hr].
    assert (E : Supabase.delete_target uid requestId r = true)
      by (apply delete_target_iff; auto).
    rewrite E in Hr. discriminate.
Qed.

Lemma delete_only_by_requester_while_pending_witness :
  (* Alice, the recipient, cannot delete Bob's pending request *)
  fst (fst (SwapRequestsPage.deleteRequest Scenario.env Scenario.alice "r1"
              (Scenario.db pending []) SwapRequestsPage.initial))
  = Scenario.db pending []
  (* Bob cannot delete it once it is accepted *)
  /\ In (Scenario.request accepted)
       (swap_requests
          (fst (fst (SwapRequestsPage.deleteRequest Scenario.env Scenario.bob
                       "r1" (Scenario.db accepted [])
                       SwapRequestsPage.initial))))
  (* Bob can delete it while it is pending *)
  /\ ~ In (Scenario.request pending)
         (swap_requests
            (fst (fst (SwapRequestsPage.deleteRequest Scenario.env
                         Scenario.bob "r1" (Scenario.db pending [])
                         SwapRequestsPage.initial)))).
Proof.
  split; [|split].
  - destruct (delete_only_by_requester_while_pending Scenario.env
                Scenario.alice "r1" (Scenario.db pending [])
                SwapRequestsPage.initial (Scenario.request pending))
      as [_ [H _]]; [simpl; auto | reflexivity |].
    destruct H as [_ [H _]]; [left; discriminate|].
    apply H.
    simpl. constructor; [simpl; tauto | constructor].
  - destruct (delete_only_by_requester_while_pending Scenario.env
                Scenario.bob "r1" (Scenario.db accepted [])
                SwapRequestsPage.initial (Scenario.request accepted))
      as [_ [H _]]; [simpl; auto | reflexivity |].
    destruct H as [H _]; [right; discriminate|].
    exact H.
  - destruct (delete_only_by_requester_while_pending Scenario.env
                Scenario.bob "r1" (Scenario.db pending [])
                SwapRequestsPage.initial (Scenario.request pending))
      as [_ [_ H]]; [simpl; auto | reflexivity |].
    apply H; reflexivity.
Defined.

(** C10: a successful status update of request [requestId] changes, in the
    page state, nothing but the status of the entries of the received list
    whose id is [requestId]: the sent list and the loading flag are as
    before, the received list keeps its length and order, an entry with
    another id is unchanged, and an entry with that id keeps every field but
    the status, which becomes the new one. *)
Theorem status_update_frame
  (env : Env) (uid requestId : uuid) (status : SwapRequestsPage.Decision)
  (db : Database) (st : SwapRequestsPage.State) :
  fst (Supabase.swap_requests_update_status (net env 0) (now env) uid
         requestId (SwapRequestsPage.decided status) db) = None ->
  let st' :=
    snd (fst (SwapRequestsPage.updateRequestStatus env uid requestId status
                db st)) in
  SwapRequestsPage.sentRequests st' = SwapRequestsPage.sentRequests st
  /\ SwapRequestsPage.loading st' = SwapRequestsPage.loading st
  /\ List.length (SwapRequestsPage.receivedRequests st')
     = List.length (SwapRequestsPage.receivedRequests st)
  /\ forall i req,
       nth_error (SwapRequestsPage.receivedRequests st) i = Some req ->
       exists req',
         nth_error (SwapRequestsPage.receivedRequests st') i = Some req'
         /\ SwapRequestsPage.id req' = SwapRequestsPage.id req
         /\ SwapRequestsPage.message req' = SwapRequestsPage.message req
         /\ SwapRequestsPage.created_at req' = SwapRequestsPage.created_at req
         /\ SwapRequestsPage.requester req' = SwapRequestsPage.requester req
         /\ SwapRequestsPage.recipient req' = SwapRequestsPage.recipient req
         /\ SwapRequestsPage.offered_skill req'
            = SwapRequestsPage.offered_skill req
         /\ SwapRequestsPage.wanted_skill req'
            = SwapRequestsPage.wanted_skill req
         /\ (SwapRequestsPage.id req = requestId ->
             SwapRequestsPage.status req' = SwapRequestsPage.decided status)
         /\ (SwapRequestsPage.id req <> requestId -> req' = req).
Proof.
  intros Hok st'. subst st'. unfold SwapRequestsPage.updateRequestStatus.
  destruct (Supabase.swap_requests_update_status (net env 0) (now env) uid
              requestId (SwapRequestsPage.decided status) db) as [[e|] db'];
    [discriminate|]. simpl.
  repeat split; [apply length_map|].
  intros i req Hi. rewrite nth_error_map, Hi. simpl.
  destruct (String.eqb_spec (SwapRequestsPage.id req) requestId) as [E|E].
  - eexists. split; [reflexivity|]. simpl. repeat split; tauto.
  - exists req. repeat split; tauto.
Qed.

Lemma status_update_frame_witness :
  SwapRequestsPage.receivedRequests
    (snd (fst (SwapRequestsPage.updateRequestStatus Scenario.env
                 Scenario.alice "r1" SwapRequestsPage.Accepted
                 (Scenario.db pending [])
                 Scenario.alice_requests)))
  <> []
  /\ SwapRequestsPage.sentRequests
       (snd (fst (SwapRequestsPage.updateRequestStatus Scenario.env
                    Scenario.alice "r1" SwapRequestsPage.Accepted
                    (Scenario.db pending [])
                    Scenario.alice_requests)))
     = [].
Proof.
  destruct (status_update_frame Scenario.env Scenario.alice "r1"
              SwapRequestsPage.Accepted (Scenario.db pending [])
              Scenario.alice_requests)
    as [Hsent [_ [Hlen _]]]; [reflexivity|].
  split.
  - intros E. rewrite E in Hlen. discriminate Hlen.
  - rewrite Hsent. reflexivity.
Defined.


(** ** Feedback: one row per swap request and reviewer *)

Lemma ratingItems_parse (v : string) :
  In v FeedbackPage.ratingItems ->
  Text.truthy v = true
  /\ exists n, Text.parseInt v = Some n /\ (1 <=? n)%Z && (n <=? 5)%Z = true.
Proof.
  unfold FeedbackPage.ratingItems. simpl.
  intros [<-|[<-|[<-|[<-|[<-|[]]]]]]; (split; [reflexivity|]);
    eexists; (split; [vm_compute; reflexivity | reflexivity]).
Qed.

Lemma truthy_nonempty (s : string) : s <> "" -> Text.truthy s = true.
Proof. destruct s; [congruence | reflexivity]. Qed.

Lemma same_pair_none (swap reviewer : uuid) (rows : list Feedback.row) :
  (forall f, In f rows ->
     ~ (Feedback.swap_request_id f = swap
        /\ Feedback.reviewer_id f = reviewer)) ->
  existsb (Supabase.same_pair swap reviewer) rows = false.
Proof.
  intros H. destruct (existsb (Supabase.same_pair swap reviewer) rows) eqn:E;
    [|reflexivity].
  apply existsb_exists in E. destruct E as [f [Hf E]].
  unfold Supabase.same_pair in E. apply andb_true_iff in E.
  rewrite !String.eqb_eq in E. exfalso. exact (H f Hf E).
Qed.

Section FeedbackInsert.

Variables (now : timestamp) (new_id uid : uuid) (db : Database).
Variable v : Supabase.NewFeedback.

Hypothesis own : Supabase.reviewer_id v = uid.

Lemma feedback_insert_first (n : Z) :
  Supabase.rating v = Some n ->
  (1 <=? n)%Z && (n <=? 5)%Z = true ->
  existsb (Supabase.same_pair (Supabase.swap_request_id v) uid) (feedback db)
  = false ->
  In (Supabase.swap_request_id v) (map SwapRequests.id (swap_requests db)) ->
  In uid (auth_users db) ->
  In (Supabase.reviewee_id v) (auth_users db) ->
  Supabase.feedback_insert None now new_id uid v db
  = (None,
     with_feedback (feedback db ++ [Supabase.stored now new_id v n]) db).
Proof.
  intros Hr Hn Hnone Hswap Huid Hrev.
  unfold Supabase.feedback_insert. rewrite Hr.
  unfold Policy.feedback_insert. cbn [Feedback.reviewer_id Supabase.stored].
  rewrite own, String.eqb_refl, Hn. cbn [negb]. rewrite Hnone.
  apply mem_In in Hswap, Huid, Hrev. rewrite Hswap, Huid, Hrev.
  reflexivity.
Qed.

Lemma feedback_insert_second (n : Z) :
  Supabase.rating v = Some n ->
  (1 <=? n)%Z && (n <=? 5)%Z = true ->
  existsb (Supabase.same_pair (Supabase.swap_request_id v) uid) (feedback db)
  = true ->
  Supabase.feedback_insert None now new_id uid v db
  = (Some (Supabase.unique_error "feedback_swap_request_id_reviewer_id_key"),
     db).
Proof.
  intros Hr Hn Hsome.
  unfold Supabase.feedback_insert. rewrite Hr.
  unfold Policy.feedback_insert. cbn [Feedback.reviewer_id Supabase.stored].
  rewrite own, String.eqb_refl, Hn. cbn [negb]. now rewrite Hsome.
Qed.

End FeedbackInsert.

Lemma submitFeedback_complete (env : Env) (uid : uuid) (db : Database)
  (st : FeedbackPage.State) :
  Text.truthy (FeedbackPage.Form.rating (FeedbackPage.feedbackForm st))
  = true ->
  Text.truthy (FeedbackPage.Form.revieweeId (FeedbackPage.feedbackForm st))
  = true ->
  let call :=
    Supabase.feedback_insert (net env 0) (now env) (fresh env 0) uid
      (FeedbackPage.submitted uid (FeedbackPage.feedbackForm st)) db in
  match fst call with
  | Some error =>
      FeedbackPage.submitFeedback env uid db st
      = (snd call, FeedbackPage.setSubmitting false st,
         [error_toast "Error submitting feedback" error])
  | None =>
      fst (fst (FeedbackPage.submitFeedback env uid db st)) = snd call
      /\ FeedbackPage.feedbackForm
           (snd (fst (FeedbackPage.submitFeedback env uid db st)))
         = FeedbackPage.Form.empty
      /\ hd_error (snd (FeedbackPage.submitFeedback env uid db st))
         = Some {| title := "Feedback submitted!";
                   description := "Thank you for your feedback.";
                   variant := default |}
  end.
Proof.
  intros Hr Hv call. subst call. unfold FeedbackPage.submitFeedback.
  rewrite Hr, Hv. cbn [negb orb].
  destruct (Supabase.feedback_insert (net env 0) (now env) (fresh env 0) uid
              (FeedbackPage.submitted uid (FeedbackPage.feedbackForm st)) db)
    as [[e|] db']; cbn [fst snd]; [reflexivity|].
  destruct (FeedbackPage.fetchAcceptedSwaps (shift 1 env) uid db' _)
    as [st2 toasts] eqn:E.
  cbn [fst snd hd_error]. repeat split.
  unfold FeedbackPage.fetchMyFeedback.
  assert (Hf : FeedbackPage.feedbackForm st2 = FeedbackPage.Form.empty).
  { revert E. unfold FeedbackPage.fetchAcceptedSwaps.
    repeat match goal with
           | |- context [match ?x with _ => _ end] => destruct x
           end; intros E; inversion E; reflexivity. }
  repeat match goal with
         | |- context [match ?x with _ => _ end] => destruct x
         end; assumption.
Qed.

(** C3: for an accepted swap request [r] and a participant [A] who has given
    no feedback for it, the first submission of the feedback form (the swap
    selected, the reviewee being the other participant, a rating chosen among
    the items of the selector) succeeds and appends exactly one row to
    [feedback]; a second submission by [A] for the same request is refused
    with the uniqueness error of (swap_request_id, reviewer_id), reported in
    the error notification, and leaves the database as it is: [feedback]
    holds exactly one row for the pair ([r], [A]). *)
Theorem feedback_once_per_reviewer
  (env env2 : Env) (A : uuid) (db : Database) (st st2 : FeedbackPage.State)
  (r : SwapRequests.row) :
  In r (swap_requests db) ->
  SwapRequests.status r = accepted ->
  A = SwapRequests.requester_id r \/ A = SwapRequests.recipient_id r ->
  In (SwapRequests.requester_id r) (auth_users db) ->
  In (SwapRequests.recipient_id r) (auth_users db) ->
  (forall f, In f (feedback db) ->
     ~ (Feedback.swap_request_id f = SwapRequests.id r
        /\ Feedback.reviewer_id f = A)) ->
  FeedbackPage.Form.swapRequestId (FeedbackPage.feedbackForm st)
  = SwapRequests.id r ->
  FeedbackPage.Form.revieweeId (FeedbackPage.feedbackForm st)
  = (if String.eqb (SwapRequests.requester_id r) A
     then SwapRequests.recipient_id r else SwapRequests.requester_id r) ->
  FeedbackPage.Form.revieweeId (FeedbackPage.feedbackForm st) <> "" ->
  In (FeedbackPage.Form.rating (FeedbackPage.feedbackForm st))
    FeedbackPage.ratingItems ->
  net env 0 = None ->
  FeedbackPage.Form.swapRequestId (FeedbackPage.feedbackForm st2)
  = SwapRequests.id r ->
  FeedbackPage.Form.revieweeId (FeedbackPage.feedbackForm st2) <> "" ->
  In (FeedbackPage.Form.rating (FeedbackPage.feedbackForm st2))
    FeedbackPage.ratingItems ->
  net env2 0 = None ->
  let first := FeedbackPage.submitFeedback env A db st in
  let db1 := fst (fst first) in
  exists row,
    feedback db1 = feedback db ++ [row]
    /\ Feedback.swap_request_id row = SwapRequests.id r
    /\ Feedback.reviewer_id row = A
    /\ hd_error (snd first)
       = Some {| title := "Feedback submitted!";
                 description := "Thank you for your feedback.";
                 variant := default |}
    /\ FeedbackPage.submitFeedback env2 A db1 st2
       = (db1, FeedbackPage.setSubmitting false st2,
          [error_toast "Error submitting feedback"
             (Supabase.unique_error
                "feedback_swap_request_id_reviewer_id_key")])
    /\ filter (Supabase.same_pair (SwapRequests.id r) A) (feedback db1)
       = [row].
Proof.
  intros Hr _ Hpart Hreq Hrec Hnone Hswap Hother Hne Hrate Hnet
    Hswap2 Hne2 Hrate2 Hnet2 first db1.
  destruct (ratingItems_parse _ Hrate) as [Ht [n [Hn Hrange]]].
  destruct (ratingItems_parse _ Hrate2) as [Ht2 [n2 [Hn2 Hrange2]]].
  set (row := Supabase.stored (now env) (fresh env 0)
                (FeedbackPage.submitted A (FeedbackPage.feedbackForm st)) n).
  assert (Hfilter_old :
            filter (Supabase.same_pair (SwapRequests.id r) A) (feedback db)
            = []).
  { apply filter_none. intros f Hf.
    destruct (Supabase.same_pair (SwapRequests.id r) A f) eqn:E;
      [|reflexivity].
    unfold Supabase.same_pair in E. apply andb_true_iff in E.
    rewrite !String.eqb_eq in E. exfalso. exact (Hnone f Hf E). }
  assert (Hrow : Supabase.same_pair (SwapRequests.id r) A row = true).
  { unfold Supabase.same_pair, row. simpl.
    rewrite Hswap, !String.eqb_refl. reflexivity. }
  assert (Hcall :
            Supabase.feedback_insert (net env 0) (now env) (fresh env 0) A
              (FeedbackPage.submitted A (FeedbackPage.feedbackForm st)) db
            = (None, with_feedback (feedback db ++ [row]) db)).
  { rewrite Hnet. apply feedback_insert_first; simpl.
    - reflexivity.
    - exact Hn.
    - exact Hrange.
    - rewrite Hswap. now apply same_pair_none.
    - rewrite Hswap. now apply in_map.
    - destruct Hpart as [-> | ->]; assumption.
    - rewrite Hother.
      destruct (String.eqb (SwapRequests.requester_id r) A); assumption. }
  pose proof (submitFeedback_complete env A db st Ht (truthy_nonempty _ Hne))
    as Hfirst.
  cbv zeta in Hfirst. rewrite Hcall in Hfirst. cbn [fst snd] in Hfirst.
  destruct Hfirst as [Hdb [_ Htoast]]. fold first in Hdb, Htoast.
  fold db1 in Hdb.
  assert (Hfb : feedback db1 = feedback db ++ [row]) by now rewrite Hdb.
  exists row. split; [exact Hfb|].
  split; [exact Hswap|]. split; [reflexivity|]. split; [exact Htoast|].
  split.
  - pose proof (submitFeedback_complete env2 A db1 st2 Ht2
                  (truthy_nonempty _ Hne2)) as Hsecond.
    cbv zeta in Hsecond.
    rewrite Hnet2,
      (feedback_insert_second (now env2) (fresh env2 0) A db1
         (FeedbackPage.submitted A (FeedbackPage.feedbackForm st2))
         eq_refl n2)
      in Hsecond.
    + exact Hsecond.
    + exact Hn2.
    + exact Hrange2.
    + simpl. rewrite Hswap2, Hfb, existsb_app. simpl.
      rewrite Hrow. now rewrite orb_true_r.
  - rewrite Hfb, filter_app, Hfilter_old. simpl. now rewrite Hrow.
Qed.

Lemma feedback_once_per_reviewer_witness :
  let st :=
    FeedbackPage.selectRating "5"
      (FeedbackPage.selectSwap Scenario.alice "r1"
         (fst (FeedbackPage.fetchAcceptedSwaps Scenario.env Scenario.alice
                 (Scenario.db accepted []) FeedbackPage.initial))) in
  let db1 :=
    fst (fst (FeedbackPage.submitFeedback Scenario.env Scenario.alice
                (Scenario.db accepted []) st)) in
  List.length (feedback db1) = 1
  /\ map variant
       (snd (FeedbackPage.submitFeedback Scenario.env Scenario.alice db1 st))
     = [destructive].
Proof.
  intros st db1.
  destruct (feedback_once_per_reviewer Scenario.env Scenario.env
              Scenario.alice (Scenario.db accepted []) st st
              (Scenario.request accepted))
    as [row [Hfb [_ [_ [_ [Hsecond _]]]]]];
    [ simpl; tauto | reflexivity | right; reflexivity
    | simpl; tauto | simpl; tauto | intros f []
    | reflexivity | reflexivity | discriminate | simpl; tauto | reflexivity
    | reflexivity | discriminate | simpl; tauto | reflexivity | ].
  fold db1 in Hfb, Hsecond. split.
  - rewrite Hfb. reflexivity.
  - rewrite Hsecond. reflexivity.
Defined.

(** ** Feedback page: the swaps that await feedback *)

Lemma JsSet_add_In (x y : string) (s : JsSet.t) :
  In x (JsSet.add y s) <-> In x s \/ x = y.
Proof.
  unfold JsSet.add. destruct (JsSet.has y s) eqn:E.
  - split; [tauto|]. intros [H| ->]; [assumption|].
    unfold JsSet.has in E. now apply mem_In in E.
  - rewrite in_app_iff. simpl. intuition congruence.
Qed.

Lemma JsSet_fold_In (x : string) (items : list string) (s : JsSet.t) :
  In x (fold_left (fun s y => JsSet.add y s) items s) <-> In x s \/ In x items.
Proof.
  revert s. induction items as [|y items IH]; intros s; simpl.
  - tauto.
  - rewrite IH, JsSet_add_In. intuition congruence.
Qed.

Lemma JsSet_has_of_list (x : string) (items : list string) :
  JsSet.has x (JsSet.of_list items) = true <-> In x items.
Proof.
  unfold JsSet.has. fold (mem x (JsSet.of_list items)). rewrite mem_In.
  unfold JsSet.of_list. rewrite JsSet_fold_In. simpl. tauto.
Qed.

Lemma insert_desc_perm {A} (key : A -> nat) (x : A) (l : list A) :
  Permutation (insert_desc key x l) (x :: l).
Proof.
  induction l as [|y l IH]; simpl; [reflexivity|].
  destruct (key y <? key x); [reflexivity|].
  rewrite IH. apply perm_swap.
Qed.

Lemma order_desc_perm {A} (key : A -> nat) (l : list A) :
  Permutation (order_desc key l) l.
Proof.
  induction l as [|x l IH]; simpl; [reflexivity|].
  rewrite insert_desc_perm. now constructor.
Qed.

Lemma order_desc_In {A} (key : A -> nat) (l : list A) (x : A) :
  In x (order_desc key l) <-> In x l.
Proof.
  split; apply Permutation_in;
    [apply order_desc_perm | symmetry; apply order_desc_perm].
Qed.

Lemma find_map {A B} (p : B -> bool) (f : A -> B) (l : list A) :
  find p (map f l) = option_map f (find (fun a => p (f a)) l).
Proof.
  induction l as [|a l IH]; simpl; [reflexivity|].
  destruct (p (f a)); [reflexivity | exact IH].
Qed.

Section AcceptedSwaps.

Variables (env : Env) (U : uuid) (db : Database) (st : FeedbackPage.State).

Hypothesis online : forall k, k < 4 -> net env k = None.

(** The rows returned by the first query of [fetchAcceptedSwaps]. *)
Lemma accepted_data :
  exists data,
    Supabase.swap_requests_of (net env 0) U (Some accepted) db = inr data
    /\ forall r,
         In r data
         <-> In r (swap_requests db)
             /\ SwapRequests.status r = accepted
             /\ (SwapRequests.requester_id r = U
                 \/ SwapRequests.recipient_id r = U).
Proof.
  unfold Supabase.swap_requests_of, Supabase.select.
  rewrite (online 0) by lia. eexists. split; [reflexivity|].
  intros r. rewrite order_desc_In, filter_In.
  unfold Policy.swap_requests_select.
  rewrite !andb_true_iff, !orb_true_iff, !String.eqb_eq, Status_eqb_eq.
  intuition congruence.
Qed.

Lemma fetchAcceptedSwaps_online :
  exists data pm sm,
    Supabase.swap_requests_of (net env 0) U (Some accepted) db = inr data
    /\ fst (FeedbackPage.fetchAcceptedSwaps env U db st)
       = FeedbackPage.setLoading false
           (FeedbackPage.setAcceptedSwaps
              (map
                 (FeedbackPage.withFeedbackStatus pm sm
                    (JsSet.of_list
                       (map Feedback.swap_request_id
                          (filter
                             (fun f =>
                                Policy.feedback_select U f
                                && (mem (Feedback.swap_request_id f)
                                      (map SwapRequests.id data)
                                    && String.eqb (Feedback.reviewer_id f) U))
                             (feedback db)))))
                 data)
              st).
Proof.
  destruct accepted_data as [data [Hdata _]].
  exists data. unfold FeedbackPage.fetchAcceptedSwaps. rewrite Hdata.
  unfold Supabase.profiles_in, Supabase.skills_in,
    Supabase.feedback_by_reviewer_in, Supabase.select.
  rewrite (online 1), (online 2), (online 3) by lia.
  do 2 eexists. split; reflexivity.
Qed.

(** [has_feedback] of a returned row tells whether [U] has reviewed it. *)
Lemma has_feedback_iff (data : list SwapRequests.row) (r : SwapRequests.row) :
  In r data ->
  JsSet.has (SwapRequests.id r)
    (JsSet.of_list
       (map Feedback.swap_request_id
          (filter
             (fun f =>
                Policy.feedback_select U f
                && (mem (Feedback.swap_request_id f) (map SwapRequests.id data)
                    && String.eqb (Feedback.reviewer_id f) U))
             (feedback db))))
  = existsb (Supabase.same_pair (SwapRequests.id r) U) (feedback db).
Proof.
  intros Hr. apply eq_true_iff_eq.
  rewrite JsSet_has_of_list, in_map_iff, existsb_exists.
  split.
  - intros [f [Hid Hf]]. apply filter_In in Hf. destruct Hf as [Hf Hc].
    exists f. split; [assumption|].
    rewrite !andb_true_iff in Hc. destruct Hc as [_ [_ Hrev]].
    unfold Supabase.same_pair. rewrite Hrev, Hid, String.eqb_refl.
    reflexivity.
  - intros [f [Hf Hc]]. unfold Supabase.same_pair in Hc.
    apply andb_true_iff in Hc. destruct Hc as [Hid Hrev].
    exists f. apply String.eqb_eq in Hid. split; [assumption|].
    apply filter_In. split; [assumption|].
    unfold Policy.feedback_select. rewrite Hrev.
    apply String.eqb_eq in Hrev. rewrite Hrev, String.eqb_refl. simpl.
    rewrite andb_true_r. apply mem_In. rewrite Hid. now apply in_map.
Qed.

End AcceptedSwaps.

(** C7: once [fetchAcceptedSwaps] has loaded the page (its four queries
    answered), the pending-feedback list shows exactly the stored swap
    requests that await feedback from [U] (status accepted, [U] requester or
    recipient, no feedback row by reviewer [U]): every entry of the list
    shows such a request, and every such request has an entry.  Selecting
    one of them in the form sets the selected swap to it and the reviewee to
    the other participant: the recipient if [U] is the requester, else the
    requester. *)
Theorem pending_feedback_list
  (env : Env) (U : uuid) (db : Database) (st : FeedbackPage.State) :
  (forall k, k < 4 -> net env k = None) ->
  let st' := fst (FeedbackPage.fetchAcceptedSwaps env U db st) in
  (forall v,
     In v (FeedbackPage.pendingFeedback st') ->
     exists r,
       In r (swap_requests db) /\ awaits_feedback db U r = true /\ shows v r)
  /\ (forall r,
        In r (swap_requests db) ->
        awaits_feedback db U r = true ->
        (exists v, In v (FeedbackPage.pendingFeedback st') /\ shows v r)
        /\ (NoDup (map SwapRequests.id (swap_requests db)) ->
            FeedbackPage.feedbackForm
              (FeedbackPage.selectSwap U (SwapRequests.id r) st')
            = {| FeedbackPage.Form.swapRequestId := SwapRequests.id r;
                 FeedbackPage.Form.revieweeId := other_participant U r;
                 FeedbackPage.Form.rating :=
                   FeedbackPage.Form.rating (FeedbackPage.feedbackForm st);
                 FeedbackPage.Form.comment :=
                   FeedbackPage.Form.comment (FeedbackPage.feedbackForm st)
              |})).
Proof.
  intros Honline st'.
  destruct (fetchAcceptedSwaps_online env U db st Honline)
    as [data [pm [sm [Hdata Hst]]]].
  destruct (accepted_data env U db Honline) as [data' [Hdata' Hin]].
  assert (data' = data) by congruence. subst data'. clear Hdata'.
  subst st'. rewrite Hst. clear Hst.
  set (fs := JsSet.of_list _).
  assert (Hhas : forall r, In r data ->
            FeedbackPage.AcceptedSwapRequest.has_feedback
              (FeedbackPage.withFeedbackStatus pm sm fs r)
            = existsb (Supabase.same_pair (SwapRequests.id r) U) (feedback db)).
  { intros r Hr. simpl. subst fs. now apply has_feedback_iff. }
  assert (Hawaits : forall r, In r data ->
            awaits_feedback db U r
            = negb (FeedbackPage.AcceptedSwapRequest.has_feedback
                      (FeedbackPage.withFeedbackStatus pm sm fs r))).
  { intros r Hr. rewrite (Hhas r Hr). unfold awaits_feedback.
    apply Hin in Hr. destruct Hr as [_ [Hs Hp]].
    apply Status_eqb_eq in Hs. rewrite Hs.
    assert (Hp' : String.eqb (SwapRequests.requester_id r) U
                  || String.eqb (SwapRequests.recipient_id r) U = true)
      by (rewrite orb_true_iff, !String.eqb_eq; exact Hp).
    now rewrite Hp'. }
  unfold FeedbackPage.pendingFeedback. cbn [FeedbackPage.acceptedSwaps
    FeedbackPage.setLoading FeedbackPage.setAcceptedSwaps].
  split.
  - intros v Hv. apply filter_In in Hv. destruct Hv as [Hv Hnot].
    apply in_map_iff in Hv. destruct Hv as [r [<- Hr]].
    exists r. split; [now apply Hin|].
    split; [now rewrite (Hawaits r Hr) | repeat split].
  - intros r Hr Haw.
    assert (Hr' : In r data).
    { apply Hin. split; [assumption|]. unfold awaits_feedback in Haw.
      rewrite !andb_true_iff, orb_true_iff, !String.eqb_eq, Status_eqb_eq
        in Haw. tauto. }
    split.
    + exists (FeedbackPage.withFeedbackStatus pm sm fs r).
      split; [|repeat split].
      apply filter_In. split; [now apply in_map|].
      now rewrite <- (Hawaits r Hr').
    + intros ND. unfold FeedbackPage.selectSwap.
      cbn [FeedbackPage.acceptedSwaps FeedbackPage.setLoading
             FeedbackPage.setAcceptedSwaps].
      rewrite find_map.
      destruct (find _ data) as [r'|] eqn:Hfind.
      * apply find_some in Hfind. destruct Hfind as [Hr'' Hid].
        simpl in Hid. apply String.eqb_eq in Hid.
        assert (r' = r).
        { apply (NoDup_key_unique SwapRequests.id (swap_requests db));
            [assumption | now apply Hin | assumption | assumption]. }
        subst r'. simpl. unfold other_participant.
        destruct (String.eqb (SwapRequests.requester_id r) U); reflexivity.
      * exfalso. apply (find_none _ _ Hfind) in Hr'. simpl in Hr'.
        rewrite String.eqb_refl in Hr'. discriminate.
Qed.

Lemma pending_feedback_list_witness :
  (* Bob has reviewed the swap, Alice has not: it awaits her feedback *)
  let given :=
    [{| Feedback.id := "f1"; Feedback.swap_request_id := "r1";
        Feedback.reviewer_id := Scenario.bob;
        Feedback.reviewee_id := Scenario.alice; Feedback.rating := 4%Z;
        Feedback.comment := None; Feedback.created_at := 15 |}] in
  let st' :=
    fst (FeedbackPage.fetchAcceptedSwaps Scenario.env Scenario.alice
           (Scenario.db accepted given) FeedbackPage.initial) in
  (exists v, In v (FeedbackPage.pendingFeedback st')
             /\ shows v (Scenario.request accepted))
  /\ FeedbackPage.Form.revieweeId
       (FeedbackPage.feedbackForm
          (FeedbackPage.selectSwap Scenario.alice "r1" st'))
     = Scenario.bob.
Proof.
  intros given st'.
  destruct (pending_feedback_list Scenario.env Scenario.alice
              (Scenario.db accepted given) FeedbackPage.initial)
    as [_ H]; [reflexivity|].
  destruct (H (Scenario.request accepted)) as [Hv Hsel];
    [simpl; tauto | reflexivity |].
  split; [exact Hv|].
  fold st' in Hsel.
  change "r1" with (SwapRequests.id (Scenario.request accepted)).
  rewrite Hsel; [reflexivity|].
  simpl. constructor; [simpl; tauto | constructor].
Defined.

(** ** Search: assembling the result set *)

Section JsMapInvariant.

Context {V : Type}.
Variable P : V -> Prop.

Local Abbreviation all_values := (Forall (fun kv : string * V => P (snd kv))).

Lemma JsMap_get_all (k : string) (m : JsMap.t V) (v : V) :
  all_values m -> JsMap.get k m = Some v -> P v.
Proof.
  induction m as [|[k' v'] m IH]; simpl; intros Hall Hget; [discriminate|].
  inversion Hall as [|? ? Hv Hm]; subst.
  destruct (String.eqb k' k).
  - inversion Hget; subst. exact Hv.
  - now apply IH.
Qed.

Lemma JsMap_set_all (k : string) (v : V) (m : JsMap.t V) :
  all_values m -> P v -> all_values (JsMap.set k v m).
Proof.
  induction m as [|[k' v'] m IH]; simpl; intros Hall Hv.
  - constructor; [exact Hv | constructor].
  - inversion Hall as [|? ? Hv' Hm]; subst.
    destruct (String.eqb k' k); constructor; auto.
Qed.

Lemma JsMap_values_all (m : JsMap.t V) (v : V) :
  all_values m -> In v (JsMap.values m) -> P v.
Proof.
  intros Hall Hv. unfold JsMap.values in Hv. apply in_map_iff in Hv.
  destruct Hv as [[k v'] [<- Hkv]].
  rewrite Forall_forall in Hall. exact (Hall _ Hkv).
Qed.

End JsMapInvariant.

Section Assemble.

(** A property of result records that holds of a fresh record and is kept
    when a skill that is not yet listed is pushed holds of every record of
    the assembled result. *)
Variable P : SearchPage.UserProfile.t -> Prop.
Variable data : list Profiles.row.

Hypothesis P_fresh :
  forall profile, In profile data -> P (SearchPage.UserProfile.of_row profile).

Hypothesis P_push :
  forall u skills,
    P u ->
    find (fun s => String.eqb (SkillRef.id s) (Skills.id skills))
      (SearchPage.UserProfile.offeredSkills u) = None ->
    P (SearchPage.UserProfile.push (SkillRef.of_row skills) u).

Lemma addProfile_all (l : list Profiles.row) (m : JsMap.t _) :
  incl l data -> Forall (fun kv => P (snd kv)) m ->
  Forall (fun kv => P (snd kv)) (fold_left SearchPage.addProfile l m).
Proof.
  revert m. induction l as [|p l IH]; simpl; intros m Hl Hm; [exact Hm|].
  apply IH.
  - intros x Hx. apply Hl. now right.
  - unfold SearchPage.addProfile.
    destruct (JsMap.has (Profiles.user_id p) m); [exact Hm|].
    apply JsMap_set_all; [exact Hm|]. apply P_fresh, Hl. now left.
Qed.

Lemma addOfferedSkill_all
  (l : list (UserSkills.row * option Skills.row)) (m : JsMap.t _) :
  Forall (fun kv => P (snd kv)) m ->
  Forall (fun kv => P (snd kv)) (fold_left SearchPage.addOfferedSkill l m).
Proof.
  revert m. induction l as [|[us sk] l IH]; simpl; intros m Hm; [exact Hm|].
  apply IH. unfold SearchPage.addOfferedSkill. cbn [fst snd].
  destruct (JsMap.get (UserSkills.user_id us) m) as [u|] eqn:Hget;
    [|exact Hm].
  destruct sk as [skills|]; [|exact Hm].
  destruct (find _ (SearchPage.UserProfile.offeredSkills u)) eqn:Hfind;
    [exact Hm|].
  apply JsMap_set_all; [exact Hm|].
  apply P_push; [|exact Hfind]. exact (JsMap_get_all P _ _ _ Hm Hget).
Qed.

Lemma assemble_all (allUserSkills : list (UserSkills.row * option Skills.row))
  (u : SearchPage.UserProfile.t) :
  In u (SearchPage.assemble data allUserSkills) -> P u.
Proof.
  unfold SearchPage.assemble. apply JsMap_values_all.
  apply addOfferedSkill_all, addProfile_all;
    [apply incl_refl | constructor].
Qed.

End Assemble.

Lemma truthy_trim_blank (term : string) :
  Text.truthy (Text.trim term) = false <-> blank term.
Proof.
  unfold blank. destruct (Text.trim term); simpl; split; congruence.
Qed.

(** What a search run does to the displayed list: nothing (blank term, or an
    error), or it empties it, or it replaces it with the assembled result. *)
Lemma searchUsers_cases (env : Env) (uid : uuid) (db : Database)
  (st : SearchPage.State) :
  let st' := fst (SearchPage.searchUsers env uid db st) in
  SearchPage.users st' = SearchPage.users st
  \/ SearchPage.users st' = []
  \/ exists userIds data allUserSkills,
       Supabase.profiles_public_others_in (net env 2) uid userIds db
       = inr data
       /\ SearchPage.users st' = SearchPage.assemble data allUserSkills.
Proof.
  unfold SearchPage.searchUsers.
  destruct (negb _); [now left|].
  destruct (Supabase.skills_ilike _ _ _ _) as [e|[|s0 ms]];
    [now left | right; now left |].
  destruct (Supabase.user_skills_offering _ _ _ _) as [e|us]; [now left|].
  destruct (distinct _) as [|u0 ids]; [right; now left|].
  destruct (Supabase.profiles_public_others_in (net env 2) uid (u0 :: ids) db)
    as [e|data] eqn:Hdata; [now left|].
  destruct (Supabase.user_skills_offered_by _ _ _ _) as [e|all];
    [now left|].
  right; right. exists (u0 :: ids), data, all. split; [exact Hdata|].
  reflexivity.
Qed.

(** The data of a search: public profiles of other users. *)
Lemma profiles_public_others (net : option string) (uid : uuid)
  (userIds : list uuid) (db : Database) (data : list Profiles.row) :
  Supabase.profiles_public_others_in net uid userIds db = inr data ->
  forall p,
    In p data ->
    In p (profiles db)
    /\ Profiles.is_public p = Some true
    /\ Profiles.user_id p <> uid.
Proof.
  unfold Supabase.profiles_public_others_in, Supabase.select.
  destruct net; [discriminate|]. intros E p Hp. inversion E; subst.
  apply filter_In in Hp. destruct Hp as [Hp Hc].
  rewrite !andb_true_iff, negb_true_iff, String.eqb_neq in Hc.
  destruct Hc as [_ [[Hpub Hother] _]].
  destruct (Profiles.is_public p) as [[|]|]; try discriminate. auto.
Qed.

(** A search that runs to its end empties the displayed list or replaces it
    with an assembled result. *)
Lemma searchUsers_online (env : Env) (uid : uuid) (db : Database)
  (st : SearchPage.State) :
  ~ blank (SearchPage.searchTerm st) ->
  (forall k, k < 4 -> net env k = None) ->
  let st' := fst (SearchPage.searchUsers env uid db st) in
  SearchPage.users st' = []
  \/ exists userIds data allUserSkills,
       Supabase.profiles_public_others_in None uid userIds db = inr data
       /\ SearchPage.users st' = SearchPage.assemble data allUserSkills.
Proof.
  intros Hterm Honline. unfold SearchPage.searchUsers.
  destruct (Text.truthy (Text.trim (SearchPage.searchTerm st))) eqn:Ht;
    [|exfalso; now apply Hterm, truthy_trim_blank].
  cbn [negb].
  unfold Supabase.skills_ilike, Supabase.user_skills_offering,
    Supabase.user_skills_offered_by, Supabase.select.
  rewrite (Honline 0), (Honline 1), (Honline 2), (Honline 3) by lia.
  destruct (filter _ (skills db)) as [|s0 ms]; [now left|].
  destruct (distinct _) as [|u0 ids]; [now left|].
  unfold Supabase.profiles_public_others_in at 1. unfold Supabase.select.
  right. do 3 eexists. split; reflexivity.
Qed.

Lemma NoDup_snoc {A} (l : list A) (x : A) :
  NoDup l -> ~ In x l -> NoDup (l ++ [x]).
Proof.
  intros Hl Hx. apply (Permutation_NoDup (l := x :: l)).
  - apply Permutation_cons_append.
  - now constructor.
Qed.

(** C4: a search that runs to its end (a term that is not blank, every
    query answered) never shows the searching user's own profile nor a
    profile that is not public: each record of the result is the record of a
    stored profile of another user whose public flag is set; and, user ids
    being unique among profiles, no record of the result belongs to the
    searching user or to a user whose profile has the flag off or unset,
    whatever skills matched. *)
Theorem search_excludes_self_and_private
  (env : Env) (uid : uuid) (db : Database) (st : SearchPage.State) :
  ~ blank (SearchPage.searchTerm st) ->
  (forall k, k < 4 -> net env k = None) ->
  let st' := fst (SearchPage.searchUsers env uid db st) in
  (forall u,
     In u (SearchPage.users st') ->
     SearchPage.UserProfile.user_id u <> uid
     /\ exists p,
          In p (profiles db)
          /\ Profiles.id p = SearchPage.UserProfile.id u
          /\ Profiles.user_id p = SearchPage.UserProfile.user_id u
          /\ Profiles.is_public p = Some true)
  /\ (NoDup (map Profiles.user_id (profiles db)) ->
      forall p,
        In p (profiles db) ->
        Profiles.user_id p = uid \/ Profiles.is_public p <> Some true ->
        forall u,
          In u (SearchPage.users st') ->
          SearchPage.UserProfile.user_id u <> Profiles.user_id p).
Proof.
  intros Hterm Honline st'.
  assert (Hmain : forall u,
            In u (SearchPage.users st') ->
            SearchPage.UserProfile.user_id u <> uid
            /\ exists p,
                 In p (profiles db)
                 /\ Profiles.id p = SearchPage.UserProfile.id u
                 /\ Profiles.user_id p = SearchPage.UserProfile.user_id u
                 /\ Profiles.is_public p = Some true).
  { destruct (searchUsers_online env uid db st Hterm Honline)
      as [E | [userIds [data [all [Hdata E]]]]];
      fold st' in E; rewrite E; [intros u []|].
    apply assemble_all.
    - intros profile Hp.
      destruct (profiles_public_others _ _ _ _ _ Hdata profile Hp)
        as [Hin [Hpub Hother]].
      split; [exact Hother|]. exists profile. simpl. auto.
    - intros u skills [Hother [p Hp]] _. split; [exact Hother|].
      exists p. exact Hp. }
  split; [exact Hmain|].
  intros ND p Hp Hbad u Hu E.
  destruct (Hmain u Hu) as [Hother [p' [Hp' [_ [Huser Hpub]]]]].
  assert (p' = p).
  { apply (NoDup_key_unique Profiles.user_id (profiles db)); auto.
    congruence. }
  subst p'. destruct Hbad as [Hself | Hprivate]; congruence.
Qed.

Lemma search_excludes_self_and_private_witness :
  (* Bob searches for guitar: Alice is shown; Carol, who offers it too but
     is private, is not *)
  map SearchPage.UserProfile.user_id
    (SearchPage.users
       (fst (SearchPage.searchUsers Scenario.env Scenario.bob
               (Scenario.db pending []) (Scenario.searching "guitar"))))
  = [Scenario.alice]
  /\ forall u,
       In u (SearchPage.users
               (fst (SearchPage.searchUsers Scenario.env Scenario.bob
                       (Scenario.db pending [])
                       (Scenario.searching "guitar")))) ->
       SearchPage.UserProfile.user_id u <> Scenario.carol.
Proof.
  split; [reflexivity|].
  destruct (search_excludes_self_and_private Scenario.env Scenario.bob
              (Scenario.db pending []) (Scenario.searching "guitar"))
    as [_ H]; [discriminate | reflexivity |].
  apply (H ltac:(repeat constructor; simpl; intuition discriminate)
           (Scenario.profile "p-carol" Scenario.carol "Carol" false)).
  - simpl. tauto.
  - right. discriminate.
Defined.

(** C6: in an assembled search result, whatever the profile and user-skill
    rows it is assembled from (also when they yield the same skill of a
    user more than once), no record lists two skills with the same
    identifier; so it is for the list a search that runs to its end
    displays. *)
Theorem offered_skills_distinct :
  (forall data allUserSkills u,
     In u (SearchPage.assemble data allUserSkills) ->
     NoDup (map SkillRef.id (SearchPage.UserProfile.offeredSkills u)))
  /\ (forall env uid db st,
        ~ blank (SearchPage.searchTerm st) ->
        (forall k, k < 4 -> net env k = None) ->
        forall u,
          In u (SearchPage.users (fst (SearchPage.searchUsers env uid db st)))
          ->
          NoDup (map SkillRef.id (SearchPage.UserProfile.offeredSkills u))).
Proof.
  assert (Hassemble : forall data allUserSkills u,
            In u (SearchPage.assemble data allUserSkills) ->
            NoDup (map SkillRef.id (SearchPage.UserProfile.offeredSkills u))).
  { intros data allUserSkills. apply assemble_all.
    - intros profile _. constructor.
    - intros u skills Hu Hfind. simpl. rewrite map_app. simpl.
      apply NoDup_snoc; [exact Hu|].
      intros Hin. apply in_map_iff in Hin. destruct Hin as [s [Hs Hin]].
      apply (find_none _ _ Hfind) in Hin. rewrite Hs in Hin.
      rewrite String.eqb_refl in Hin. discriminate. }
  split; [exact Hassemble|].
  intros env uid db st Hterm Honline u.
  destruct (searchUsers_online env uid db st Hterm Honline)
    as [E | [userIds [data [all [_ E]]]]]; rewrite E; [intros []|].
  apply Hassemble.
Qed.

Lemma offered_skills_distinct_witness :
  (* the same user-skill row handed in twice *)
  let twice :=
    [(Scenario.user_skill "us1" Scenario.alice "s-guitar" offered,
      Some Scenario.guitar);
     (Scenario.user_skill "us1" Scenario.alice "s-guitar" offered,
      Some Scenario.guitar)] in
  let result :=
    SearchPage.assemble
      [Scenario.profile "p-alice" Scenario.alice "Alice" true] twice in
  map (fun u => map SkillRef.id (SearchPage.UserProfile.offeredSkills u))
    result
  = [["s-guitar"]]
  /\ Forall
       (fun u =>
          NoDup (map SkillRef.id (SearchPage.UserProfile.offeredSkills u)))
       result.
Proof.
  intros twice result. split; [reflexivity|].
  apply Forall_forall. intros u Hu.
  destruct offered_skills_distinct as [H _].
  exact (H _ twice u Hu).
Defined.

(** ** Search: the ILIKE pattern of a term *)

Lemma like_percent (ci : bool) (p s : string) :
  Text.like ci (String "%" p) s
  = Text.like ci p s
    || match s with
       | EmptyString => false
       | String _ s' => Text.like ci (String "%" p) s'
       end.
Proof. destruct s; reflexivity. Qed.

Lemma like_percent_only (ci : bool) (s : string) :
  Text.like ci "%" s = true.
Proof.
  induction s as [|c s IH]; [reflexivity|].
  rewrite like_percent. rewrite IH. apply orb_true_r.
Qed.

Lemma like_literal (ci : bool) (c : ascii) (p s : string) :
  Ascii.eqb c "%" = false ->
  Ascii.eqb c "_" = false ->
  Ascii.eqb c "\" = false ->
  Text.like ci (String c p) s
  = match s with
    | EmptyString => false
    | String d s' => Text.char_eq ci c d && Text.like ci p s'
    end.
Proof. intros H1 H2 H3. simpl. rewrite H1, H2, H3. reflexivity. Qed.

(** A term without pattern characters, followed by [%], matches the strings
    it is a prefix of. *)
Lemma ilike_prefix (t s : string) :
  Text.wildcard_free t = true ->
  Text.ilike (t +++ "%") s = Text.ci_prefix t s.
Proof.
  unfold Text.ilike. revert s. induction t as [|c t IH]; intros s Hfree.
  - simpl String.append. apply like_percent_only.
  - simpl in Hfree. rewrite !andb_true_iff, !negb_true_iff in Hfree.
    destruct Hfree as [[[[H1 H2] H3] _] Hfree].
    change (String c t +++ "%") with (String c (t +++ "%")).
    rewrite (like_literal true c _ s H1 H2 H3).
    destruct s as [|d s]; [reflexivity|]. simpl. now rewrite IH.
Qed.

(** For a term without pattern characters the pattern [%term%] matches the
    names that contain the term, letter case ignored. *)
Lemma ilike_substring (t s : string) :
  Text.wildcard_free t = true ->
  Text.ilike ("%" +++ t +++ "%") s = Text.ci_substring t s.
Proof.
  intros Hfree. change ("%" +++ t +++ "%") with (String "%" (t +++ "%")).
  induction s as [|d s IH]; unfold Text.ilike in *; rewrite like_percent.
  - fold (Text.ilike (t +++ "%") ""). rewrite (ilike_prefix t "" Hfree).
    simpl. reflexivity.
  - fold (Text.ilike (t +++ "%") (String d s)).
    rewrite (ilike_prefix t _ Hfree), IH. reflexivity.
Qed.

(** A term without pattern characters reaches [ILIKE] as it is. *)
Lemma like_pattern_append (a b : string) :
  Supabase.like_pattern (a +++ b)
  = Supabase.like_pattern a +++ Supabase.like_pattern b.
Proof. induction a as [|c a IH]; simpl; [reflexivity | now rewrite IH]. Qed.

Lemma like_pattern_plain (t : string) :
  Text.wildcard_free t = true -> Supabase.like_pattern t = t.
Proof.
  induction t as [|c t IH]; simpl; [reflexivity|]. intros Hfree.
  rewrite !andb_true_iff, !negb_true_iff in Hfree.
  destruct Hfree as [[_ Hstar] Hfree]. now rewrite Hstar, (IH Hfree).
Qed.

Lemma like_pattern_term (t : string) :
  Text.wildcard_free t = true ->
  Supabase.like_pattern ("%" +++ t +++ "%") = "%" +++ t +++ "%".
Proof.
  intros Hfree. rewrite !like_pattern_append, (like_pattern_plain t Hfree).
  reflexivity.
Qed.

(** C5, as stated, fails on the code in two ways.  Bob has searched for
    guitar and sees Alice; he clears the search box and presses Enter:
    [searchUsers] returns at once and Alice stays displayed.  And the term
    [_] occurs in no skill name, yet as a pattern it matches every name of
    one character or more: the search displays a result. *)
Lemma search_blank_or_wildcard_term_shows_results :
  SearchPage.users
    (fst (SearchPage.searchUsers Scenario.env Scenario.bob
            (Scenario.db pending [])
            (SearchPage.setSearchTerm ""
               (fst (SearchPage.searchUsers Scenario.env Scenario.bob
                       (Scenario.db pending [])
                       (Scenario.searching "guitar"))))))
  <> []
  /\ forallb (fun s => negb (Text.ci_substring "_" (Skills.name s)))
       (skills (Scenario.db pending [])) = true
  /\ SearchPage.users
       (fst (SearchPage.searchUsers Scenario.env Scenario.bob
               (Scenario.db pending []) (Scenario.searching "_")))
     <> [].
Proof. repeat split; vm_compute; discriminate. Qed.

(** C5, amended, for terms and skill names written in ASCII.  A search
    with a blank term (empty, or white space only) does nothing: the state,
    and with it the displayed result set, stays as it is (it is empty on
    the page as loaded).  A search with another term, its first two queries
    answered, displays the empty result set when no stored user-skill row
    offers a skill whose name matches the pattern the backend makes of
    [%term%] for ILIKE, which covers a term that matches no skill name and
    a term whose matching skills nobody offers.  For a term without the
    pattern characters [%], [_], backslash and [*], a name matches the
    pattern exactly when the term occurs in it as a substring, letter case
    ignored. *)
Theorem search_empty_results
  (env : Env) (uid : uuid) (db : Database) (st : SearchPage.State) :
  let term := SearchPage.searchTerm st in
  let st' := fst (SearchPage.searchUsers env uid db st) in
  (blank term -> SearchPage.searchUsers env uid db st = (st, []))
  /\ (Text.is_ascii term = true ->
      (forall s, In s (skills db) -> Text.is_ascii (Skills.name s) = true) ->
      ~ blank term ->
      net env 0 = None ->
      net env 1 = None ->
      (forall s r,
         In s (skills db) ->
         Text.ilike (Supabase.like_pattern ("%" +++ term +++ "%"))
           (Skills.name s) = true ->
         In r (user_skills db) ->
         UserSkills.skill_type r = offered ->
         UserSkills.skill_id r <> Skills.id s) ->
      SearchPage.users st' = [])
  /\ (Text.is_ascii term = true ->
      Text.wildcard_free term = true ->
      forall name,
        Text.is_ascii name = true ->
        Text.ilike (Supabase.like_pattern ("%" +++ term +++ "%")) name
        = Text.ci_substring term name)
  /\ SearchPage.users SearchPage.initial = [].
Proof.
  intros term st'. subst term st'. split; [|split; [|split]].
  - intros Hblank. unfold SearchPage.searchUsers.
    apply truthy_trim_blank in Hblank. now rewrite Hblank.
  - intros _ _ Hterm Hnet0 Hnet1 Hnone. unfold SearchPage.searchUsers.
    destruct (Text.truthy (Text.trim (SearchPage.searchTerm st))) eqn:Ht;
      [|exfalso; now apply Hterm, truthy_trim_blank].
    cbn [negb].
    unfold Supabase.skills_ilike, Supabase.user_skills_offering,
      Supabase.select.
    rewrite Hnet0, Hnet1.
    destruct (filter _ (skills db)) as [|s0 ms] eqn:Hmatch; [reflexivity|].
    rewrite filter_none; [reflexivity|].
    intros r Hr.
    destruct (SkillType_eqb (UserSkills.skill_type r) offered) eqn:Htype;
      [|apply andb_false_r].
    destruct (mem (UserSkills.skill_id r) (map Skills.id (s0 :: ms))) eqn:Hm;
      [|now rewrite andb_false_r].
    exfalso. apply mem_In, in_map_iff in Hm. destruct Hm as [s [Hid Hs]].
    rewrite <- Hmatch in Hs. apply filter_In in Hs. destruct Hs as [Hs Hlike].
    unfold Policy.skills_select in Hlike. simpl in Hlike.
    apply (Hnone s r Hs Hlike Hr); [|now symmetry].
    destruct (UserSkills.skill_type r); [reflexivity | discriminate].
  - intros _ Hfree name _. rewrite (like_pattern_term _ Hfree).
    now apply ilike_substring.
  - reflexivity.
Qed.

Lemma search_empty_results_witness :
  (* a blank term on the page as loaded; a term that matches no skill; a
     term without pattern characters *)
  SearchPage.users
    (fst (SearchPage.searchUsers Scenario.env Scenario.bob
            (Scenario.db pending []) (Scenario.searching "  ")))
  = []
  /\ SearchPage.users
       (fst (SearchPage.searchUsers Scenario.env Scenario.bob
               (Scenario.db pending []) (Scenario.searching "piano")))
     = []
  /\ Text.ilike (Supabase.like_pattern "%PAN%") "Spanish"
     = Text.ci_substring "PAN" "Spanish".
Proof.
  split; [|split].
  - destruct (search_empty_results Scenario.env Scenario.bob
                (Scenario.db pending []) (Scenario.searching "  "))
      as [H _].
    rewrite H; reflexivity.
  - destruct (search_empty_results Scenario.env Scenario.bob
                (Scenario.db pending []) (Scenario.searching "piano"))
      as [_ [H _]].
    apply H; [reflexivity | | discriminate | reflexivity | reflexivity |].
    + intros s Hs. simpl in Hs. destruct Hs as [<-|[<-|[]]]; reflexivity.
    + intros s r Hs Hlike. exfalso. simpl in Hs.
      destruct Hs as [<-|[<-|[]]]; vm_compute in Hlike; discriminate.
  - destruct (search_empty_results Scenario.env Scenario.bob
                (Scenario.db pending []) (Scenario.searching "PAN"))
      as [_ [_ [H _]]].
    apply (H eq_refl eq_refl "Spanish" eq_refl).
Defined.

(** ** Skills page: finding or creating the skill *)

Lemma findSkill_None (st : SkillsPage.State) :
  SkillsPage.findSkill st = None
  <-> forall s,
        In s (SkillsPage.allSkills st) ->
        Text.toLowerCase (SkillsPage.Skill.name s)
        <> Text.toLowerCase (SkillsPage.newSkillName st).
Proof.
  unfold SkillsPage.findSkill. split.
  - intros H s Hs. apply (find_none _ _ H) in Hs. now apply String.eqb_neq.
  - intros H. destruct (find _ _) as [s|] eqn:E; [|reflexivity].
    apply find_some in E. destruct E as [Hs E]. apply String.eqb_eq in E.
    exfalso. exact (H s Hs E).
Qed.

Lemma user_skills_insert_skills (net : option string)
  (new_id uid user skill : uuid) (type : SkillType) (db : Database) :
  skills (snd (Supabase.user_skills_insert net new_id uid user skill type db))
  = skills db.
Proof.
  unfold Supabase.user_skills_insert.
  repeat match goal with
         | |- context [match ?x with _ => _ end] => destruct x
         end; reflexivity.
Qed.

Lemma addSkill_db_found (env : Env) (uid : uuid) (type : SkillType)
  (db : Database) (st : SkillsPage.State) (skill : SkillsPage.Skill.t) :
  ~ blank (SkillsPage.newSkillName st) ->
  SkillsPage.findSkill st = Some skill ->
  fst (fst (SkillsPage.addSkill env uid type db st))
  = snd (Supabase.user_skills_insert (net env 1) (fresh env 1) uid uid
           (SkillsPage.Skill.id skill) type db).
Proof.
  intros Hname Hfind. unfold SkillsPage.addSkill.
  destruct (Text.truthy (Text.trim (SkillsPage.newSkillName st))) eqn:Ht;
    [|exfalso; now apply Hname, truthy_trim_blank].
  cbn [negb]. unfold SkillsPage.findOrCreateSkill.
  change (SkillsPage.findSkill (SkillsPage.setAdding true st))
    with (SkillsPage.findSkill st).
  rewrite Hfind.
  destruct (Supabase.user_skills_insert _ _ _ _ _ _ _) as [[e|[data emb]] db2];
    reflexivity.
Qed.

Lemma addSkill_db_created (env : Env) (uid : uuid) (type : SkillType)
  (db : Database) (st : SkillsPage.State) :
  ~ blank (SkillsPage.newSkillName st) ->
  SkillsPage.findSkill st = None ->
  skills (fst (fst (SkillsPage.addSkill env uid type db st)))
  = skills (snd (Supabase.skills_insert (net env 0) (fresh env 0) uid
                   (Text.trim (SkillsPage.newSkillName st)) db)).
Proof.
  intros Hname Hfind. unfold SkillsPage.addSkill.
  destruct (Text.truthy (Text.trim (SkillsPage.newSkillName st))) eqn:Ht;
    [|exfalso; now apply Hname, truthy_trim_blank].
  cbn [negb]. unfold SkillsPage.findOrCreateSkill.
  change (SkillsPage.findSkill (SkillsPage.setAdding true st))
    with (SkillsPage.findSkill st).
  rewrite Hfind.
  destruct (Supabase.skills_insert _ _ _ _ _) as [[e|newSkill] db1];
    [reflexivity|].
  cbn [fst snd].
  rewrite <- (user_skills_insert_skills (net env 1) (fresh env 1) uid uid
                (SkillsPage.Skill.id (SkillsPage.Skill.of_row newSkill))
                type db1).
  destruct (Supabase.user_skills_insert _ _ _ _ _ _ _) as [[e|[data emb]] db2];
    reflexivity.
Qed.

(** C8, as stated, fails on the code: the skill list of the page is searched
    with letter case ignored.  Bob enters guitar; no stored skill has that
    name (the stored one is Guitar), yet no row is added to [skills]: the
    row of Guitar is linked instead. *)
Lemma skill_lookup_ignores_case :
  existsb (fun s => String.eqb (Skills.name s) "guitar")
    (skills (Scenario.db pending [])) = false
  /\ skills
       (fst (fst (SkillsPage.addSkill Scenario.env Scenario.bob offered
                    (Scenario.db pending [])
                    (Scenario.entering Scenario.bob "guitar"))))
     = skills (Scenario.db pending [])
  /\ map UserSkills.skill_id
       (user_skills
          (fst (fst (SkillsPage.addSkill Scenario.env Scenario.bob offered
                       (Scenario.db pending [])
                       (Scenario.entering Scenario.bob "guitar")))))
     = map UserSkills.skill_id (user_skills (Scenario.db pending []))
       ++ [Skills.id Scenario.guitar].
Proof. repeat split. Qed.

(** C8, amended, for a name entered without white space around it, the
    name and the names of the page's list being written in ASCII.  The
    page looks the name up, letter case ignored, in its own list of skills
    (the approved skills it has loaded, and those it has created since).
    When the list has such a skill, that skill is reused: the link is
    inserted with its identifier and the [skills] table is unchanged.  When
    the list has none, the page asks the backend to insert a skill with the
    name; if the request is answered, a row is added to [skills] exactly
    when no stored skill has that very name (names are unique, compared as
    stored), and otherwise the request is refused and the database is
    unchanged. *)
Theorem skill_created_when_not_listed
  (env : Env) (uid : uuid) (skillType : SkillType) (db : Database)
  (st : SkillsPage.State) :
  let name := SkillsPage.newSkillName st in
  let db' := fst (fst (SkillsPage.addSkill env uid skillType db st)) in
  Text.is_ascii name = true ->
  (forall s,
     In s (SkillsPage.allSkills st) ->
     Text.is_ascii (SkillsPage.Skill.name s) = true) ->
  name <> "" ->
  Text.trim name = name ->
  (forall skill,
     SkillsPage.findSkill st = Some skill ->
     In skill (SkillsPage.allSkills st)
     /\ Text.toLowerCase (SkillsPage.Skill.name skill) = Text.toLowerCase name
     /\ skills db' = skills db
     /\ db' = snd (Supabase.user_skills_insert (net env 1) (fresh env 1) uid
                     uid (SkillsPage.Skill.id skill) skillType db))
  /\ (SkillsPage.findSkill st = None ->
      net env 0 = None ->
      (existsb (fun s => String.eqb (Skills.name s) name) (skills db) = false ->
       skills db'
       = skills db
         ++ [{| Skills.id := fresh env 0; Skills.name := name;
                Skills.category := None; Skills.is_approved := Some true |}])
      /\ (existsb (fun s => String.eqb (Skills.name s) name) (skills db)
          = true ->
          db' = db))
  /\ (SkillsPage.findSkill st = None
      <-> forall s,
            In s (SkillsPage.allSkills st) ->
            Text.toLowerCase (SkillsPage.Skill.name s)
            <> Text.toLowerCase name).
Proof.
  intros name db' _ _ Hne Htrim.
  assert (Hname : ~ blank name) by (unfold blank; congruence).
  subst name db'. split; [|split].
  - intros skill Hfind.
    pose proof Hfind as Hf. unfold SkillsPage.findSkill in Hf.
    apply find_some in Hf. destruct Hf as [Hin Heq].
    apply String.eqb_eq in Heq.
    rewrite (addSkill_db_found env uid skillType db st skill Hname Hfind).
    repeat split; auto. apply user_skills_insert_skills.
  - intros Hfind Hnet. split; intros Hstored.
    + rewrite (addSkill_db_created env uid skillType db st Hname Hfind).
      unfold Supabase.skills_insert, Policy.skills_insert.
      rewrite Hnet, Htrim. cbn [negb]. rewrite Hstored. reflexivity.
    + unfold SkillsPage.addSkill.
      destruct (Text.truthy (Text.trim (SkillsPage.newSkillName st))) eqn:Ht;
        [|reflexivity].
      cbn [negb]. unfold SkillsPage.findOrCreateSkill.
      change (SkillsPage.findSkill (SkillsPage.setAdding true st))
        with (SkillsPage.findSkill st).
      rewrite Hfind.
      unfold Supabase.skills_insert, Policy.skills_insert.
      cbn [SkillsPage.newSkillName SkillsPage.setAdding].
      rewrite Hnet, Htrim. cbn [negb]. rewrite Hstored. reflexivity.
  - apply findSkill_None.
Qed.

Lemma skill_created_when_not_listed_witness :
  (* Piano is new: a row is added; Spanish is listed: none is *)
  map Skills.name
    (skills
       (fst (fst (SkillsPage.addSkill Scenario.env Scenario.alice offered
                    (Scenario.db pending [])
                    (Scenario.entering Scenario.alice "Piano")))))
  = ["Guitar"; "Spanish"; "Piano"]
  /\ skills
       (fst (fst (SkillsPage.addSkill Scenario.env Scenario.alice offered
                    (Scenario.db pending [])
                    (Scenario.entering Scenario.alice "Spanish"))))
     = skills (Scenario.db pending []).
Proof.
  split.
  - destruct (skill_created_when_not_listed Scenario.env Scenario.alice
                offered (Scenario.db pending [])
                (Scenario.entering Scenario.alice "Piano"))
      as [_ [H _]]; [reflexivity | | discriminate | reflexivity |].
    { intros s Hs. simpl in Hs. destruct Hs as [<-|[<-|[]]]; reflexivity. }
    destruct (H eq_refl eq_refl) as [Hnew _].
    rewrite (Hnew eq_refl). reflexivity.
  - destruct (skill_created_when_not_listed Scenario.env Scenario.alice
                offered (Scenario.db pending [])
                (Scenario.entering Scenario.alice "Spanish"))
      as [H _]; [reflexivity | | discriminate | reflexivity |].
    { intros s Hs. simpl in Hs. destruct Hs as [<-|[<-|[]]]; reflexivity. }
    destruct (H (SkillsPage.Skill.of_row Scenario.spanish) eq_refl)
      as [_ [_ [Hsame _]]].
    exact Hsame.
Defined.

(** ** Failed mutations and the page state *)

Lemma setSubmitting_idle (st : FeedbackPage.State) :
  FeedbackPage.submitting st = false ->
  FeedbackPage.setSubmitting false st = st.
Proof. destruct st; simpl; intros ->; reflexivity. Qed.

Lemma setAdding_idle (st : SkillsPage.State) :
  SkillsPage.adding st = false ->
  SkillsPage.setAdding false (SkillsPage.setAdding true st) = st.
Proof. destruct st; simpl; intros ->; reflexivity. Qed.

(** C9, as stated, fails on the code.  Alice adds Piano, which is new: the
    page creates the skill, the insert of the link then fails (here the
    request does not reach the backend), and the error notification with the
    message of the failure is shown; but the page state is not as it was:
    Piano has been appended to its list of skills. *)
Lemma failed_skill_add_keeps_created_skill :
  map variant
    (snd (SkillsPage.addSkill (Scenario.offline_at 1) Scenario.alice offered
            (Scenario.db pending [])
            (Scenario.entering Scenario.alice "Piano")))
  = [destructive]
  /\ map description
       (snd (SkillsPage.addSkill (Scenario.offline_at 1) Scenario.alice
               offered (Scenario.db pending [])
               (Scenario.entering Scenario.alice "Piano")))
     = ["Failed to fetch"]
  /\ map SkillsPage.Skill.name
       (SkillsPage.allSkills
          (snd (fst (SkillsPage.addSkill (Scenario.offline_at 1)
                       Scenario.alice offered (Scenario.db pending [])
                       (Scenario.entering Scenario.alice "Piano")))))
     = ["Guitar"; "Spanish"; "Piano"]
  /\ snd (fst (SkillsPage.addSkill (Scenario.offline_at 1) Scenario.alice
                 offered (Scenario.db pending [])
                 (Scenario.entering Scenario.alice "Piano")))
     <> Scenario.entering Scenario.alice "Piano".
Proof. repeat split; try reflexivity. vm_compute. discriminate. Qed.

(** C9, amended.  When the backend call of a status update, of a request
    deletion, of a skill removal or of a feedback submission fails with
    error [e], the handler leaves the page state as it was and shows one
    notification, of the destructive variant, whose description is the
    message of [e].  So does a skill add when the insert of the skill fails,
    or when the skill was found in the page's list and the insert of the
    link fails.  When a skill add has created the skill and the insert of
    the link then fails, the notification is the same and the page state is
    as it was but for the created skill, which stays appended to the page's
    list of skills.  (The feedback form and the skill input are idle when
    the handler starts: no submission or add is under way.) *)
Theorem failed_mutation_keeps_state (env : Env) (uid : uuid) (db : Database)
  (e : PostgrestError) (db' : Database) :
  (forall requestId status st,
     Supabase.swap_requests_update_status (net env 0) (now env) uid requestId
       (SwapRequestsPage.decided status) db = (Some e, db') ->
     SwapRequestsPage.updateRequestStatus env uid requestId status db st
     = (db', st, [error_toast "Error updating request" e]))
  /\ (forall requestId st,
        Supabase.swap_requests_delete (net env 0) uid requestId db
        = (Some e, db') ->
        SwapRequestsPage.deleteRequest env uid requestId db st
        = (db', st, [error_toast "Error deleting request" e]))
  /\ (forall userSkillId st,
        Supabase.user_skills_delete (net env 0) uid userSkillId db
        = (Some e, db') ->
        SkillsPage.removeSkill env uid userSkillId db st
        = (db', st, [error_toast "Error removing skill" e]))
  /\ (forall st,
        FeedbackPage.submitting st = false ->
        Text.truthy (FeedbackPage.Form.rating (FeedbackPage.feedbackForm st))
        = true ->
        Text.truthy
          (FeedbackPage.Form.revieweeId (FeedbackPage.feedbackForm st))
        = true ->
        Supabase.feedback_insert (net env 0) (now env) (fresh env 0) uid
          (FeedbackPage.submitted uid (FeedbackPage.feedbackForm st)) db
        = (Some e, db') ->
        FeedbackPage.submitFeedback env uid db st
        = (db', st, [error_toast "Error submitting feedback" e]))
  /\ (forall skillType st,
        SkillsPage.adding st = false ->
        ~ blank (SkillsPage.newSkillName st) ->
        (SkillsPage.findSkill st = None ->
         Supabase.skills_insert (net env 0) (fresh env 0) uid
           (Text.trim (SkillsPage.newSkillName st)) db = (inl e, db') ->
         SkillsPage.addSkill env uid skillType db st
         = (db', st, [error_toast "Error adding skill" e]))
        /\ (forall skill,
              SkillsPage.findSkill st = Some skill ->
              Supabase.user_skills_insert (net env 1) (fresh env 1) uid uid
                (SkillsPage.Skill.id skill) skillType db = (inl e, db') ->
              SkillsPage.addSkill env uid skillType db st
              = (db', st, [error_toast "Error adding skill" e]))
        /\ (forall newSkill db1,
              SkillsPage.findSkill st = None ->
              Supabase.skills_insert (net env 0) (fresh env 0) uid
                (Text.trim (SkillsPage.newSkillName st)) db
              = (inr newSkill, db1) ->
              Supabase.user_skills_insert (net env 1) (fresh env 1) uid uid
                (Skills.id newSkill) skillType db1 = (inl e, db') ->
              SkillsPage.addSkill env uid skillType db st
              = (db',
                 SkillsPage.setAllSkills
                   (SkillsPage.allSkills st
                    ++ [SkillsPage.Skill.of_row newSkill]) st,
                 [error_toast "Error adding skill" e]))).
Proof.
  split; [|split; [|split; [|split]]].
  - intros requestId status st H.
    unfold SwapRequestsPage.updateRequestStatus. now rewrite H.
  - intros requestId st H.
    unfold SwapRequestsPage.deleteRequest. now rewrite H.
  - intros userSkillId st H.
    unfold SkillsPage.removeSkill. now rewrite H.
  - intros st Hidle Hr Hv H.
    pose proof (submitFeedback_complete env uid db st Hr Hv) as Hs.
    cbv zeta in Hs. rewrite H in Hs. cbn [fst snd] in Hs.
    now rewrite Hs, (setSubmitting_idle st Hidle).
  - intros skillType st Hidle Hname.
    assert (Ht : Text.truthy (Text.trim (SkillsPage.newSkillName st)) = true).
    { destruct (Text.truthy _) eqn:Ht; [reflexivity|].
      exfalso. now apply Hname, truthy_trim_blank. }
    split; [|split].
    + intros Hfind H. unfold SkillsPage.addSkill. rewrite Ht. cbn [negb].
      unfold SkillsPage.findOrCreateSkill.
      change (SkillsPage.findSkill (SkillsPage.setAdding true st))
        with (SkillsPage.findSkill st).
      rewrite Hfind.
      change (SkillsPage.newSkillName (SkillsPage.setAdding true st))
        with (SkillsPage.newSkillName st).
      rewrite H. now rewrite (setAdding_idle st Hidle).
    + intros skill Hfind H. unfold SkillsPage.addSkill. rewrite Ht.
      cbn [negb]. unfold SkillsPage.findOrCreateSkill.
      change (SkillsPage.findSkill (SkillsPage.setAdding true st))
        with (SkillsPage.findSkill st).
      rewrite Hfind, H. now rewrite (setAdding_idle st Hidle).
    + intros newSkill db1 Hfind H1 H2. unfold SkillsPage.addSkill.
      rewrite Ht. cbn [negb]. unfold SkillsPage.findOrCreateSkill.
      change (SkillsPage.findSkill (SkillsPage.setAdding true st))
        with (SkillsPage.findSkill st).
      rewrite Hfind.
      change (SkillsPage.newSkillName (SkillsPage.setAdding true st))
        with (SkillsPage.newSkillName st).
      rewrite H1.
      change (SkillsPage.Skill.id (SkillsPage.Skill.of_row newSkill))
        with (Skills.id newSkill).
      rewrite H2. destruct st; simpl in *; subst; reflexivity.
Qed.

Lemma failed_mutation_keeps_state_witness :
  (* the second feedback of Alice for the same swap; a status update and a
     skill add that do not reach the backend *)
  let given :=
    [{| Feedback.id := "f1"; Feedback.swap_request_id := "r1";
        Feedback.reviewer_id := Scenario.alice;
        Feedback.reviewee_id := Scenario.bob; Feedback.rating := 5%Z;
        Feedback.comment := None; Feedback.created_at := 15 |}] in
  let form :=
    {| FeedbackPage.loading := false; FeedbackPage.acceptedSwaps := [];
       FeedbackPage.myFeedback := [];
       FeedbackPage.feedbackForm :=
         {| FeedbackPage.Form.swapRequestId := "r1";
            FeedbackPage.Form.revieweeId := Scenario.bob;
            FeedbackPage.Form.rating := "3";
            FeedbackPage.Form.comment := "again" |};
       FeedbackPage.submitting := false |} in
  snd (fst (FeedbackPage.submitFeedback Scenario.env Scenario.alice
              (Scenario.db accepted given) form))
  = form
  /\ snd (fst (SwapRequestsPage.updateRequestStatus (Scenario.offline_at 0)
                 Scenario.alice "r1" SwapRequestsPage.Accepted
                 (Scenario.db pending []) SwapRequestsPage.initial))
     = SwapRequestsPage.initial
  /\ SkillsPage.addSkill (Scenario.offline_at 0) Scenario.alice offered
       (Scenario.db pending []) (Scenario.entering Scenario.alice "Piano")
     = (Scenario.db pending [], Scenario.entering Scenario.alice "Piano",
        [error_toast "Error adding skill"
           (Supabase.fetch_error "Failed to fetch")]).
Proof.
  intros given form. split; [|split].
  - destruct (failed_mutation_keeps_state Scenario.env Scenario.alice
                (Scenario.db accepted given)
                (Supabase.unique_error
                   "feedback_swap_request_id_reviewer_id_key")
                (Scenario.db accepted given))
      as [_ [_ [_ [H _]]]].
    rewrite (H form); reflexivity.
  - destruct (failed_mutation_keeps_state (Scenario.offline_at 0)
                Scenario.alice (Scenario.db pending [])
                (Supabase.fetch_error "Failed to fetch")
                (Scenario.db pending []))
      as [H _].
    rewrite (H "r1" SwapRequestsPage.Accepted SwapRequestsPage.initial);
      reflexivity.
  - destruct (failed_mutation_keeps_state (Scenario.offline_at 0)
                Scenario.alice (Scenario.db pending [])
                (Supabase.fetch_error "Failed to fetch")
                (Scenario.db pending []))
      as [_ [_ [_ [_ H]]]].
    destruct (H offered (Scenario.entering Scenario.alice "Piano")) as [H0 _];
      [reflexivity | discriminate |].
    apply H0; reflexivity.
Defined.

(** * Further properties *)

(** ** Lists in the order of the backend *)

Section NewestFirst.

Context {A : Type}.
Variable key : A -> nat.

Lemma insert_desc_In (x y : A) (l : list A) :
  In y (insert_desc key x l) <-> y = x \/ In y l.
Proof.
  split.
  - intros H. apply (Permutation_in _ (insert_desc_perm key x l)) in H.
    destruct H; auto.
  - intros H. apply (Permutation_in _ (Permutation_sym
                                         (insert_desc_perm key x l))).
    destruct H; [left | right]; auto.
Qed.

Lemma insert_desc_sorted (x : A) (l : list A) :
  newest_first key l -> newest_first key (insert_desc key x l).
Proof.
  unfold newest_first. induction l as [|y l IH]; simpl; intros Hs.
  - constructor; constructor.
  - inversion Hs as [|? ? Hl Hy]; subst.
    destruct (key y <? key x) eqn:E.
    + apply Nat.ltb_lt in E. constructor; [assumption|].
      constructor; [lia|].
      rewrite Forall_forall in *. intros z Hz. specialize (Hy z Hz). lia.
    + apply Nat.ltb_ge in E. constructor; [now apply IH|].
      rewrite Forall_forall in *. intros z Hz.
      apply insert_desc_In in Hz. destruct Hz as [-> | Hz]; auto.
Qed.

Lemma order_desc_sorted (l : list A) : newest_first key (order_desc key l).
Proof.
  induction l as [|x l IH]; simpl; [constructor|].
  now apply insert_desc_sorted.
Qed.

Lemma newest_first_filter (f : A -> bool) (l : list A) :
  newest_first key l -> newest_first key (filter f l).
Proof.
  unfold newest_first. induction 1 as [|x l Hl IH Hx]; simpl; [constructor|].
  destruct (f x); [|assumption].
  constructor; [assumption|].
  rewrite Forall_forall in *. intros y Hy. apply filter_In in Hy.
  apply Hx. tauto.
Qed.

End NewestFirst.

Lemma newest_first_map {A B} (keyA : A -> nat) (keyB : B -> nat)
  (f : A -> B) (l : list A) :
  (forall a, keyB (f a) = keyA a) ->
  newest_first keyA l -> newest_first keyB (map f l).
Proof.
  unfold newest_first. intros Hkey.
  induction 1 as [|x l Hl IH Hx]; simpl; constructor; [assumption|].
  rewrite Forall_forall in *. intros y Hy. apply in_map_iff in Hy.
  destruct Hy as [a [<- Ha]]. rewrite !Hkey. now apply Hx.
Qed.

(** ** JavaScript maps: lookup after construction *)

Lemma JsMap_get_set_same {V} (k : string) (v : V) (m : JsMap.t V) :
  JsMap.get k (JsMap.set k v m) = Some v.
Proof.
  induction m as [|[k' v'] m IH]; simpl.
  - now rewrite String.eqb_refl.
  - destruct (String.eqb k' k) eqn:E; simpl.
    + now rewrite String.eqb_refl.
    + now rewrite E.
Qed.

Lemma JsMap_get_set_other {V} (k k0 : string) (v : V) (m : JsMap.t V) :
  k0 <> k -> JsMap.get k (JsMap.set k0 v m) = JsMap.get k m.
Proof.
  intros Hne. induction m as [|[k' v'] m IH]; simpl.
  - apply String.eqb_neq in Hne. now rewrite Hne.
  - destruct (String.eqb k' k0) eqn:E; simpl.
    + apply String.eqb_eq in E. subst k'.
      apply String.eqb_neq in Hne. now rewrite Hne.
    + destruct (String.eqb k' k); [reflexivity | exact IH].
Qed.

Lemma find_append {A} (f : A -> bool) (l1 l2 : list A) :
  find f (l1 ++ l2)
  = match find f l1 with Some a => Some a | None => find f l2 end.
Proof.
  induction l1 as [|a l1 IH]; simpl; [reflexivity|].
  destruct (f a); [reflexivity | exact IH].
Qed.

(** [new Map(entries).get(k)] is the value of the last entry with key [k]. *)
Lemma JsMap_get_fold {V} (k : string) (entries : list (string * V))
  (m : JsMap.t V) :
  JsMap.get k
    (fold_left (fun m kv => JsMap.set (fst kv) (snd kv) m) entries m)
  = match find (fun kv => String.eqb (fst kv) k) (rev entries) with
    | Some kv => Some (snd kv)
    | None => JsMap.get k m
    end.
Proof.
  revert m. induction entries as [|[k0 v0] entries IH]; intros m; simpl.
  - reflexivity.
  - rewrite IH. rewrite find_append.
    destruct (find _ (rev entries)) as [kv|]; [reflexivity|]. simpl.
    destruct (String.eqb k0 k) eqn:E.
    + apply String.eqb_eq in E. subst. apply JsMap_get_set_same.
    + apply String.eqb_neq in E. now apply JsMap_get_set_other.
Qed.

(** With one entry at most per key, it is the value of the entry with
    key [k]. *)
Lemma JsMap_get_of_entries {V} (k : string) (entries : list (string * V)) :
  NoDup (map fst entries) ->
  JsMap.get k (JsMap.of_entries entries)
  = option_map snd (find (fun kv => String.eqb (fst kv) k) entries).
Proof.
  intros ND. unfold JsMap.of_entries. rewrite JsMap_get_fold. simpl.
  destruct (find _ (rev entries)) as [kv|] eqn:Hrev.
  - apply find_some in Hrev. destruct Hrev as [Hin Hk].
    apply in_rev in Hin.
    destruct (find _ entries) as [kv'|] eqn:Hfwd.
    + apply find_some in Hfwd. destruct Hfwd as [Hin' Hk'].
      apply String.eqb_eq in Hk, Hk'.
      assert (kv = kv').
      { apply (NoDup_key_unique fst entries); auto. congruence. }
      now subst.
    + apply (find_none _ _ Hfwd) in Hin. congruence.
  - destruct (find _ entries) as [kv'|] eqn:Hfwd; [|reflexivity].
    apply find_some in Hfwd. destruct Hfwd as [Hin' Hk'].
    apply in_rev in Hin'. apply (find_none _ _ Hrev) in Hin'. congruence.
Qed.

(** ** Swap-requests page: what is loaded *)

Lemma requests_data (uid : uuid) (only : option Status) (db : Database) :
  exists data,
    Supabase.swap_requests_of None uid only db = inr data
    /\ newest_first SwapRequests.created_at data
    /\ forall r,
         In r data
         <-> In r (swap_requests db)
             /\ (forall s, only = Some s -> SwapRequests.status r = s)
             /\ (SwapRequests.requester_id r = uid
                 \/ SwapRequests.recipient_id r = uid).
Proof.
  unfold Supabase.swap_requests_of, Supabase.select.
  eexists. split; [reflexivity|]. split; [apply order_desc_sorted|].
  intros r. rewrite order_desc_In, filter_In.
  unfold Policy.swap_requests_select.
  rewrite !andb_true_iff, !orb_true_iff, !String.eqb_eq.
  destruct only as [s|].
  - rewrite Status_eqb_eq. split.
    + intros [Hr [_ [Hs Hp]]]. split; [assumption|]. split; [|assumption].
      intros s' E. congruence.
    + intros [Hr [Hs Hp]]. specialize (Hs s eq_refl).
      intuition congruence.
  - split.
    + intros [Hr [_ [_ Hp]]]. split; [assumption|]. split; [|assumption].
      discriminate.
    + intros [Hr [_ Hp]]. intuition congruence.
Qed.

Lemma fetchSwapRequests_online (env : Env) (uid : uuid) (db : Database)
  (st : SwapRequestsPage.State) :
  (forall k, k < 3 -> net env k = None) ->
  exists data profiles skills,
    Supabase.swap_requests_of None uid None db = inr data
    /\ Supabase.profiles_in None uid
         (distinct (map SwapRequests.requester_id data
                    ++ map SwapRequests.recipient_id data)) db
       = inr profiles
    /\ Supabase.skills_in None uid
         (distinct (map SwapRequests.offered_skill_id data
                    ++ map SwapRequests.wanted_skill_id data)) db
       = inr skills
    /\ SwapRequestsPage.fetchSwapRequests env uid db st
       = ({| SwapRequestsPage.loading := false;
             SwapRequestsPage.sentRequests :=
               filter
                 (fun req =>
                    String.eqb (Party.id (SwapRequestsPage.requester req)) uid)
                 (map
                    (SwapRequestsPage.transform (profilesMap profiles)
                       (skillsMap skills))
                    data);
             SwapRequestsPage.receivedRequests :=
               filter
                 (fun req =>
                    String.eqb (Party.id (SwapRequestsPage.recipient req)) uid)
                 (map
                    (SwapRequestsPage.transform (profilesMap profiles)
                       (skillsMap skills))
                    data) |},
          []).
Proof.
  intros Honline. unfold SwapRequestsPage.fetchSwapRequests.
  rewrite (Honline 0), (Honline 1), (Honline 2) by lia.
  destruct (requests_data uid None db) as [data [Hdata _]].
  rewrite Hdata. do 3 eexists. split; [reflexivity|].
  split; [reflexivity|]. split; reflexivity.
Qed.

Lemma transform_lists (pm : JsMap.t Profiles.row) (sm : JsMap.t Skills.row)
  (r : SwapRequests.row) :
  lists (SwapRequestsPage.transform pm sm r) r.
Proof. repeat split. Qed.

(** X1: when its three queries are answered, [fetchSwapRequests] shows no
    notification, stops the loading indicator and fills the two tabs: the
    sent list shows exactly the stored requests whose requester is the user,
    the received list exactly those whose recipient is the user. *)
Theorem swap_request_lists (env : Env) (uid : uuid) (db : Database)
  (st : SwapRequestsPage.State) :
  (forall k, k < 3 -> net env k = None) ->
  let st' := fst (SwapRequestsPage.fetchSwapRequests env uid db st) in
  snd (SwapRequestsPage.fetchSwapRequests env uid db st) = []
  /\ SwapRequestsPage.loading st' = false
  /\ (forall v,
        In v (SwapRequestsPage.sentRequests st') ->
        exists r,
          In r (swap_requests db)
          /\ SwapRequests.requester_id r = uid /\ lists v r)
  /\ (forall r,
        In r (swap_requests db) ->
        SwapRequests.requester_id r = uid ->
        exists v, In v (SwapRequestsPage.sentRequests st') /\ lists v r)
  /\ (forall v,
        In v (SwapRequestsPage.receivedRequests st') ->
        exists r,
          In r (swap_requests db)
          /\ SwapRequests.recipient_id r = uid /\ lists v r)
  /\ (forall r,
        In r (swap_requests db) ->
        SwapRequests.recipient_id r = uid ->
        exists v, In v (SwapRequestsPage.receivedRequests st') /\ lists v r).
Proof.
  intros Honline st'. subst st'.
  destruct (fetchSwapRequests_online env uid db st Honline)
    as [data [profiles [skills [Hdata [_ [_ Hfetch]]]]]].
  destruct (requests_data uid None db) as [data' [Hdata' [_ Hin]]].
  assert (data' = data) by congruence. subst data'.
  rewrite Hfetch. cbn [fst snd SwapRequestsPage.loading
    SwapRequestsPage.sentRequests SwapRequestsPage.receivedRequests].
  split; [reflexivity|]. split; [reflexivity|].
  split; [|split; [|split]].
  - intros v Hv. apply filter_In in Hv. destruct Hv as [Hv Hreq].
    apply in_map_iff in Hv. destruct Hv as [r [<- Hr]].
    simpl in Hreq. apply String.eqb_eq in Hreq.
    exists r. split; [now apply Hin|]. split; [assumption|].
    apply transform_lists.
  - intros r Hr Hreq. eexists. split; [|apply transform_lists].
    apply filter_In. split.
    + apply in_map, Hin. split; [assumption|]. split; [discriminate|auto].
    + simpl. now apply String.eqb_eq.
  - intros v Hv. apply filter_In in Hv. destruct Hv as [Hv Hrec].
    apply in_map_iff in Hv. destruct Hv as [r [<- Hr]].
    simpl in Hrec. apply String.eqb_eq in Hrec.
    exists r. split; [now apply Hin|]. split; [assumption|].
    apply transform_lists.
  - intros r Hr Hrec. eexists. split; [|apply transform_lists].
    apply filter_In. split.
    + apply in_map, Hin. split; [assumption|]. split; [discriminate|auto].
    + simpl. now apply String.eqb_eq.
Qed.

Lemma swap_request_lists_witness :
  (* Bob's page: the request he has sent to Alice, nothing received *)
  (exists v,
     In v (SwapRequestsPage.sentRequests
             (fst (SwapRequestsPage.fetchSwapRequests Scenario.env
                     Scenario.bob (Scenario.db pending [])
                     SwapRequestsPage.initial)))
     /\ lists v (Scenario.request pending))
  /\ SwapRequestsPage.receivedRequests
       (fst (SwapRequestsPage.fetchSwapRequests Scenario.env Scenario.bob
               (Scenario.db pending []) SwapRequestsPage.initial))
     = [].
Proof.
  destruct (swap_request_lists Scenario.env Scenario.bob
              (Scenario.db pending []) SwapRequestsPage.initial)
    as [_ [_ [_ [Hsent _]]]]; [reflexivity|].
  split; [|reflexivity].
  apply Hsent; [simpl; tauto | reflexivity].
Defined.

(** X2: every list the pages load from the backend is newest first: the
    sent and received requests, the accepted swaps of the feedback page and
    the feedback received (each when the queries that load it are
    answered). *)
Theorem loaded_lists_newest_first (env : Env) (uid : uuid) (db : Database) :
  (forall st,
     (forall k, k < 3 -> net env k = None) ->
     newest_first SwapRequestsPage.created_at
       (SwapRequestsPage.sentRequests
          (fst (SwapRequestsPage.fetchSwapRequests env uid db st)))
     /\ newest_first SwapRequestsPage.created_at
          (SwapRequestsPage.receivedRequests
             (fst (SwapRequestsPage.fetchSwapRequests env uid db st))))
  /\ (forall st,
        (forall k, k < 4 -> net env k = None) ->
        newest_first FeedbackPage.AcceptedSwapRequest.created_at
          (FeedbackPage.acceptedSwaps
             (fst (FeedbackPage.fetchAcceptedSwaps env uid db st))))
  /\ (forall st,
        (forall k, k < 2 -> net env k = None) ->
        newest_first FeedbackPage.FeedbackView.created_at
          (FeedbackPage.myFeedback
             (FeedbackPage.fetchMyFeedback env uid db st))).
Proof.
  split; [|split].
  - intros st Honline.
    destruct (fetchSwapRequests_online env uid db st Honline)
      as [data [profiles [skills [Hdata [_ [_ Hfetch]]]]]].
    destruct (requests_data uid None db) as [data' [Hdata' [Hsorted _]]].
    assert (data' = data) by congruence. subst data'.
    rewrite Hfetch. cbn [fst SwapRequestsPage.sentRequests
      SwapRequestsPage.receivedRequests].
    split; apply newest_first_filter;
      apply (newest_first_map SwapRequests.created_at); auto.
  - intros st Honline.
    destruct (fetchAcceptedSwaps_online env uid db st Honline)
      as [data [pm [sm [Hdata Hst]]]].
    rewrite (Honline 0) in Hdata by lia.
    destruct (requests_data uid (Some accepted) db)
      as [data' [Hdata' [Hsorted _]]].
    assert (data' = data) by congruence. subst data'.
    rewrite Hst. cbn [FeedbackPage.acceptedSwaps FeedbackPage.setLoading
      FeedbackPage.setAcceptedSwaps].
    apply (newest_first_map SwapRequests.created_at); auto.
  - intros st Honline. unfold FeedbackPage.fetchMyFeedback.
    rewrite (Honline 0), (Honline 1) by lia.
    unfold Supabase.feedback_about, Supabase.profiles_in, Supabase.select.
    cbn [FeedbackPage.myFeedback FeedbackPage.setMyFeedback].
    apply (newest_first_map Feedback.created_at); [reflexivity|].
    apply order_desc_sorted.
Qed.

(** ** Swap-requests page: the cards *)

Lemma distinct_In (x : string) (l : list string) : In x (distinct l) <-> In x l.
Proof.
  unfold distinct, JsSet.of_list. rewrite JsSet_fold_In. simpl. tauto.
Qed.

Lemma NoDup_map_filter {A B} (key : A -> B) (g : A -> bool) (l : list A) :
  NoDup (map key l) -> NoDup (map key (filter g l)).
Proof.
  induction l as [|a l IH]; simpl; intros ND; [constructor|].
  inversion ND as [|? ? Hnotin ND']; subst.
  destruct (g a); simpl; [|auto].
  constructor; [|auto].
  intros Hin. apply Hnotin. apply in_map_iff in Hin.
  destruct Hin as [b [E Hb]]. apply filter_In in Hb.
  apply in_map_iff. exists b. tauto.
Qed.

(** Under a unique key, the row with key [k] among the rows that pass a
    filter is the row with key [k], if it passes. *)
Lemma find_filter_unique {A} (key : A -> string) (g : A -> bool) (k : string)
  (l : list A) :
  NoDup (map key l) ->
  find (fun a => String.eqb (key a) k) (filter g l)
  = match find (fun a => String.eqb (key a) k) l with
    | Some a => if g a then Some a else None
    | None => None
    end.
Proof.
  induction l as [|a l IH]; simpl; intros ND; [reflexivity|].
  inversion ND as [|? ? Hnotin ND']; subst.
  destruct (String.eqb (key a) k) eqn:E.
  - destruct (g a); simpl; [now rewrite E|].
    rewrite (IH ND').
    destruct (find _ l) as [b|] eqn:Hb; [|reflexivity].
    apply find_some in Hb. destruct Hb as [Hb Ek].
    apply String.eqb_eq in E, Ek. exfalso. apply Hnotin.
    rewrite E, <- Ek. now apply in_map.
  - destruct (g a); simpl; [rewrite E|]; now apply IH.
Qed.

(** What the map of profiles of a page holds for a user it has asked for:
    the stored profile of the user, if the caller may read it. *)
Lemma profilesMap_get (uid k : uuid) (userIds : list uuid) (db : Database)
  (rows : list Profiles.row) :
  NoDup (map Profiles.user_id (profiles db)) ->
  In k userIds ->
  Supabase.profiles_in None uid userIds db = inr rows ->
  JsMap.get k (profilesMap rows)
  = match
      find (fun p => String.eqb (Profiles.user_id p) k) (profiles db)
    with
    | Some p => if Policy.profiles_select uid p then Some p else None
    | None => None
    end.
Proof.
  intros ND Hk Hrows. unfold Supabase.profiles_in, Supabase.select in Hrows.
  inversion Hrows; subst rows; clear Hrows.
  unfold profilesMap. rewrite JsMap_get_of_entries.
  - rewrite (find_map (fun kv => String.eqb (fst kv) k)
               (fun p => (Profiles.user_id p, p))).
    cbn [fst]. rewrite (find_filter_unique Profiles.user_id _ k _ ND).
    destruct (find _ (profiles db)) as [p|] eqn:Hp; [|reflexivity].
    apply find_some in Hp. destruct Hp as [_ Ek]. apply String.eqb_eq in Ek.
    apply mem_In in Hk. rewrite Ek, Hk, andb_true_r.
    destruct (Policy.profiles_select uid p); reflexivity.
  - rewrite map_map. cbn [fst]. now apply NoDup_map_filter.
Qed.

Lemma skillsMap_get (uid k : uuid) (skillIds : list uuid) (db : Database)
  (rows : list Skills.row) :
  NoDup (map Skills.id (skills db)) ->
  In k skillIds ->
  Supabase.skills_in None uid skillIds db = inr rows ->
  JsMap.get k (skillsMap rows)
  = find (fun s => String.eqb (Skills.id s) k) (skills db).
Proof.
  intros ND Hk Hrows. unfold Supabase.skills_in, Supabase.select in Hrows.
  inversion Hrows; subst rows; clear Hrows.
  unfold skillsMap. rewrite JsMap_get_of_entries.
  - rewrite (find_map (fun kv => String.eqb (fst kv) k)
               (fun s => (Skills.id s, s))).
    cbn [fst]. rewrite (find_filter_unique Skills.id _ k _ ND).
    destruct (find _ (skills db)) as [s|] eqn:Hs; [|reflexivity].
    apply find_some in Hs. destruct Hs as [_ Ek]. apply String.eqb_eq in Ek.
    apply mem_In in Hk. unfold Policy.skills_select. now rewrite Ek, Hk.
  - rewrite map_map. cbn [fst]. now apply NoDup_map_filter.
Qed.

Lemma find_unique {A} (key : A -> string) (l : list A) (a : A) :
  NoDup (map key l) -> In a l ->
  find (fun b => String.eqb (key b) (key a)) l = Some a.
Proof.
  intros ND Ha.
  destruct (find _ l) as [b|] eqn:Hb.
  - apply find_some in Hb. destruct Hb as [Hb E]. apply String.eqb_eq in E.
    f_equal. now apply (NoDup_key_unique key l).
  - apply (find_none _ _ Hb) in Ha. rewrite String.eqb_refl in Ha.
    discriminate.
Qed.

(** X3: the card of a received request.  For a stored request [r] addressed
    to the user, whose requester has the profile [p] and whose skills are
    [so] (offered) and [sw] (wanted), the received list has an entry showing
    [r], and [RequestCard] on it behaves as follows.  If the user may not
    read [p] (it is not public) or [p] has no display name, rendering the
    card throws.  Otherwise the card carries the requester's display name
    (and, when the name starts with an ASCII character, that character in
    upper case as the avatar's fallback), shows the wanted skill of the
    request under "They offer:" and its offered skill under "They want:",
    offers Accept and Decline exactly when the request is pending, and never
    offers Delete. *)
Theorem received_card (env : Env) (uid : uuid) (db : Database)
  (st : SwapRequestsPage.State) (r : SwapRequests.row) (p : Profiles.row)
  (so sw : Skills.row) :
  (forall k, k < 3 -> net env k = None) ->
  NoDup (map Profiles.user_id (profiles db)) ->
  NoDup (map Skills.id (skills db)) ->
  In r (swap_requests db) ->
  SwapRequests.recipient_id r = uid ->
  In p (profiles db) ->
  Profiles.user_id p = SwapRequests.requester_id r ->
  In so (skills db) ->
  Skills.id so = SwapRequests.offered_skill_id r ->
  In sw (skills db) ->
  Skills.id sw = SwapRequests.wanted_skill_id r ->
  exists v,
    In v (SwapRequestsPage.receivedRequests
            (fst (SwapRequestsPage.fetchSwapRequests env uid db st)))
    /\ lists v r
    /\ match
         (if Policy.profiles_select uid p then Profiles.display_name p
          else None)
       with
       | None =>
           SwapRequestsPage.RequestCard SwapRequestsPage.received v = None
       | Some name =>
           exists card,
             SwapRequestsPage.RequestCard SwapRequestsPage.received v
             = Some card
             /\ SwapRequestsPage.Card.name card = name
             /\ (Text.is_ascii (Text.charAt0 name) = true ->
                 SwapRequestsPage.Card.fallback card
                 = Text.toUpperCase (Text.charAt0 name))
             /\ SwapRequestsPage.Card.offeredLabel card = "They offer:"
             /\ SwapRequestsPage.Card.offered card = Skills.name sw
             /\ SwapRequestsPage.Card.wantedLabel card = "They want:"
             /\ SwapRequestsPage.Card.wanted card = Skills.name so
             /\ SwapRequestsPage.Card.acceptDecline card
                = Status_eqb (SwapRequests.status r) pending
             /\ SwapRequestsPage.Card.delete card = false
       end.
Proof.
  intros Honline NDp NDs Hr Hrec Hp Hpu Hso Hsoid Hsw Hswid.
  destruct (fetchSwapRequests_online env uid db st Honline)
    as [data [profiles [skills [Hdata [Hprofiles [Hskills Hfetch]]]]]].
  destruct (requests_data uid None db) as [data' [Hdata' [_ Hin]]].
  assert (data' = data) by congruence. subst data'.
  assert (Hrd : In r data).
  { apply Hin. split; [assumption|]. split; [discriminate | auto]. }
  exists (SwapRequestsPage.transform (profilesMap profiles)
            (skillsMap skills) r).
  rewrite Hfetch. cbn [fst SwapRequestsPage.receivedRequests].
  split.
  { apply filter_In. split; [now apply in_map|].
    simpl. now apply String.eqb_eq. }
  split; [apply transform_lists|].
  unfold SwapRequestsPage.RequestCard, SwapRequestsPage.transform.
  cbn [SwapRequestsPage.requester SwapRequestsPage.recipient
       SwapRequestsPage.offered_skill SwapRequestsPage.wanted_skill
       SwapRequestsPage.status SwapRequestsPage.message
       SwapRequestsPage.showsAcceptDecline SwapRequestsPage.showsDelete
       Party.make Party.display_name Party.avatar_url].
  rewrite (fun H => profilesMap_get uid (SwapRequests.requester_id r) _ db
                      profiles NDp H Hprofiles) by
    (apply distinct_In, in_or_app; left; now apply in_map).
  rewrite (fun H => skillsMap_get uid (SwapRequests.offered_skill_id r) _ db
                      skills NDs H Hskills) by
    (apply distinct_In, in_or_app; left; now apply in_map).
  rewrite (fun H => skillsMap_get uid (SwapRequests.wanted_skill_id r) _ db
                      skills NDs H Hskills) by
    (apply distinct_In, in_or_app; right; now apply in_map).
  rewrite <- Hpu, <- Hsoid, <- Hswid.
  rewrite (find_unique Profiles.user_id _ p NDp Hp).
  rewrite (find_unique Skills.id _ so NDs Hso).
  rewrite (find_unique Skills.id _ sw NDs Hsw).
  destruct (Policy.profiles_select uid p); [|reflexivity].
  destruct (Profiles.display_name p) as [name|]; [|reflexivity].
  cbn [option_map]. eexists. split; [reflexivity|].
  repeat split.
Qed.

Lemma received_card_witness :
  (* Alice's page: the card of Carol's request cannot be rendered, Carol's
     profile being private; the card of Bob's request can *)
  (exists v,
     In v (SwapRequestsPage.receivedRequests
             (fst (SwapRequestsPage.fetchSwapRequests Scenario.env
                     Scenario.alice (Scenario.busy pending)
                     SwapRequestsPage.initial)))
     /\ lists v Scenario.request_from_carol
     /\ SwapRequestsPage.RequestCard SwapRequestsPage.received v = None)
  /\ (exists v card,
        In v (SwapRequestsPage.receivedRequests
                (fst (SwapRequestsPage.fetchSwapRequests Scenario.env
                        Scenario.alice (Scenario.busy pending)
                        SwapRequestsPage.initial)))
        /\ SwapRequestsPage.RequestCard SwapRequestsPage.received v
           = Some card
        /\ SwapRequestsPage.Card.name card = "Bob"
        /\ SwapRequestsPage.Card.offered card = "Guitar").
Proof.
  split.
  - destruct (received_card Scenario.env Scenario.alice
                (Scenario.busy pending) SwapRequestsPage.initial
                Scenario.request_from_carol
                (Scenario.profile "p-carol" Scenario.carol "Carol" false)
                Scenario.guitar Scenario.guitar)
      as [v [Hv [Hl Hcard]]];
      try reflexivity; try (simpl; tauto);
      try (repeat constructor; simpl; intuition discriminate).
    exists v. auto.
  - destruct (received_card Scenario.env Scenario.alice
                (Scenario.busy pending) SwapRequestsPage.initial
                (Scenario.request pending)
                (Scenario.profile "p-bob" Scenario.bob "Bob" true)
                Scenario.spanish Scenario.guitar)
      as [v [Hv [_ [card [Hcard [Hname [_ [_ [Hoff _]]]]]]]]];
      try reflexivity; try (simpl; tauto);
      try (repeat constructor; simpl; intuition discriminate).
    exists v, card. auto.
Defined.

Lemma loaded_lists_newest_first_witness :
  map SwapRequestsPage.created_at
    (SwapRequestsPage.receivedRequests
       (fst (SwapRequestsPage.fetchSwapRequests Scenario.env Scenario.alice
               (Scenario.busy pending) SwapRequestsPage.initial)))
  = [30; 10]
  /\ newest_first SwapRequestsPage.created_at
       (SwapRequestsPage.receivedRequests
          (fst (SwapRequestsPage.fetchSwapRequests Scenario.env
                  Scenario.alice (Scenario.busy pending)
                  SwapRequestsPage.initial))).
Proof.
  split; [reflexivity|].
  destruct (loaded_lists_newest_first Scenario.env Scenario.alice
              (Scenario.busy pending)) as [H _].
  apply (H SwapRequestsPage.initial). reflexivity.
Defined.

(** ** Swap-requests page: acting from a page just loaded *)

Lemma fetched_entry (env : Env) (uid : uuid) (db : Database)
  (st : SwapRequestsPage.State) (v : SwapRequestsPage.SwapRequest) :
  (forall k, k < 3 -> net env k = None) ->
  (In v (SwapRequestsPage.sentRequests
           (fst (SwapRequestsPage.fetchSwapRequests env uid db st))) ->
   exists r,
     In r (swap_requests db) /\ SwapRequests.requester_id r = uid
     /\ lists v r)
  /\ (In v (SwapRequestsPage.receivedRequests
              (fst (SwapRequestsPage.fetchSwapRequests env uid db st))) ->
      exists r,
        In r (swap_requests db) /\ SwapRequests.recipient_id r = uid
        /\ lists v r).
Proof.
  intros Honline.
  destruct (fetchSwapRequests_online env uid db st Honline)
    as [data [profiles [skills [Hdata [_ [_ Hfetch]]]]]].
  destruct (requests_data uid None db) as [data' [Hdata' [_ Hin]]].
  assert (data' = data) by congruence. subst data'.
  rewrite Hfetch. cbn [fst SwapRequestsPage.sentRequests
    SwapRequestsPage.receivedRequests].
  split; intros Hv; apply filter_In in Hv; destruct Hv as [Hv Hu];
    apply in_map_iff in Hv; destruct Hv as [r [<- Hr]];
    simpl in Hu; apply String.eqb_eq in Hu;
    exists r; (split; [now apply Hin|]); (split; [assumption|]);
    apply transform_lists.
Qed.

(** X4: Delete on a page just loaded does delete.  When the page has been
    loaded from the database, a card of the sent tab shows Delete, and the
    delete request is answered, then the stored request of that card is
    gone and every other stored request is kept (request identifiers being
    unique); the page drops the card from the sent list, leaves the received
    list alone and shows the success notification. *)
Theorem delete_from_loaded_page (env env' : Env) (uid : uuid) (db : Database)
  (st0 : SwapRequestsPage.State) (v : SwapRequestsPage.SwapRequest) :
  (forall k, k < 3 -> net env k = None) ->
  NoDup (map SwapRequests.id (swap_requests db)) ->
  let st := fst (SwapRequestsPage.fetchSwapRequests env uid db st0) in
  In v (SwapRequestsPage.sentRequests st) ->
  SwapRequestsPage.showsDelete SwapRequestsPage.sent v = true ->
  net env' 0 = None ->
  let result :=
    SwapRequestsPage.deleteRequest env' uid (SwapRequestsPage.id v) db st in
  (forall r,
     In r (swap_requests (fst (fst result))) <->
     In r (swap_requests db) /\ SwapRequests.id r <> SwapRequestsPage.id v)
  /\ (forall v',
        In v' (SwapRequestsPage.sentRequests (snd (fst result))) <->
        In v' (SwapRequestsPage.sentRequests st)
        /\ SwapRequestsPage.id v' <> SwapRequestsPage.id v)
  /\ SwapRequestsPage.receivedRequests (snd (fst result))
     = SwapRequestsPage.receivedRequests st
  /\ map variant (snd result) = [default].
Proof.
  intros Honline ND st Hv Hshow Hnet result.
  destruct (fetched_entry env uid db st0 v Honline) as [Hsent _].
  destruct (Hsent Hv) as [r [Hr [Hreq [Hid [Hst _]]]]].
  simpl in Hshow. apply Status_eqb_eq in Hshow.
  subst result. unfold SwapRequestsPage.deleteRequest.
  unfold Supabase.swap_requests_delete. rewrite Hnet.
  cbn [fst snd swap_requests with_feedback with_swap_requests
       SwapRequestsPage.sentRequests SwapRequestsPage.receivedRequests].
  split; [|split; [|split]]; try reflexivity.
  - intros r'. rewrite filter_In, negb_true_iff. split.
    + intros [Hr' Hnot]. split; [assumption|]. intros E.
      assert (r' = r).
      { apply (NoDup_key_unique SwapRequests.id (swap_requests db)); auto.
        congruence. }
      subst r'.
      assert (Ht : Supabase.delete_target uid (SwapRequestsPage.id v) r
                   = true).
      { apply delete_target_iff. repeat split; congruence. }
      congruence.
    + intros [Hr' Hne]. split; [assumption|].
      destruct (Supabase.delete_target uid (SwapRequestsPage.id v) r')
        eqn:Ht; [|reflexivity].
      apply delete_target_iff in Ht. tauto.
  - intros v'. rewrite filter_In, negb_true_iff, String.eqb_neq. tauto.
Qed.

Lemma delete_from_loaded_page_witness :
  (* Bob deletes the pending request from his page *)
  swap_requests
    (fst (fst (SwapRequestsPage.deleteRequest Scenario.env Scenario.bob "r1"
                 (Scenario.busy pending)
                 (fst (SwapRequestsPage.fetchSwapRequests Scenario.env
                         Scenario.bob (Scenario.busy pending)
                         SwapRequestsPage.initial)))))
  = [Scenario.request_from_carol]
  /\ Forall (fun r => SwapRequests.id r <> "r1")
       (swap_requests
          (fst (fst (SwapRequestsPage.deleteRequest Scenario.env
                       Scenario.bob "r1" (Scenario.busy pending)
                       (fst (SwapRequestsPage.fetchSwapRequests
                               Scenario.env Scenario.bob
                               (Scenario.busy pending)
                               SwapRequestsPage.initial)))))).
Proof.
  split; [reflexivity|]. apply Forall_forall.
  destruct (delete_from_loaded_page Scenario.env Scenario.env Scenario.bob
              (Scenario.busy pending) SwapRequestsPage.initial
              (SwapRequestsPage.transform
                 (profilesMap (profiles (Scenario.busy pending)))
                 (skillsMap (skills (Scenario.busy pending)))
                 (Scenario.request pending)))
    as [H _];
    [ reflexivity
    | repeat constructor; simpl; intuition discriminate
    | simpl; tauto | reflexivity | reflexivity |].
  intros r Hr. apply H in Hr. exact (proj2 Hr).
Defined.



(** ** Search: the users found and the skills listed *)

Lemma JsMap_get_In {V} (k : string) (v : V) (m : JsMap.t V) :
  JsMap.get k m = Some v -> In (k, v) m.
Proof.
  induction m as [|[k' v'] m IH]; simpl; [discriminate|].
  destruct (String.eqb_spec k' k) as [-> | Hne].
  - intros E. inversion E. now left.
  - intros E. right. now apply IH.
Qed.

Lemma JsMap_get_None {V} (k : string) (m : JsMap.t V) :
  JsMap.get k m = None <-> ~ In k (map fst m).
Proof.
  induction m as [|[k' v'] m IH]; simpl; [tauto|].
  destruct (String.eqb_spec k' k) as [-> | Hne].
  - split; [discriminate | tauto].
  - rewrite IH. tauto.
Qed.

(** [m.set(k, v)] on a key that is there keeps the keys and their order. *)
Lemma JsMap_set_keys_present {V} (k : string) (v : V) (m : JsMap.t V) :
  In k (map fst m) -> map fst (JsMap.set k v m) = map fst m.
Proof.
  induction m as [|[k' v'] m IH]; simpl; [tauto|].
  destruct (String.eqb_spec k' k) as [-> | Hne]; simpl; [reflexivity|].
  intros [E | Hin]; [contradiction|]. now rewrite IH.
Qed.

Lemma JsMap_set_keys_absent {V} (k : string) (v : V) (m : JsMap.t V) :
  ~ In k (map fst m) -> map fst (JsMap.set k v m) = map fst m ++ [k].
Proof.
  induction m as [|[k' v'] m IH]; simpl; [reflexivity|].
  destruct (String.eqb_spec k' k) as [-> | Hne]; simpl; [tauto|].
  intros Hnot. rewrite IH; tauto.
Qed.

Lemma JsMap_set_In {V} (k : string) (v : V) (m : JsMap.t V) (kv : string * V) :
  NoDup (map fst m) ->
  In kv (JsMap.set k v m) -> kv = (k, v) \/ (In kv m /\ fst kv <> k).
Proof.
  induction m as [|[k' v'] m IH]; simpl; intros ND Hin.
  - destruct Hin as [<- | []]. now left.
  - inversion ND as [|? ? Hnotin ND']; subst.
    destruct (String.eqb_spec k' k) as [-> | Hne]; simpl in Hin.
    + destruct Hin as [<- | Hin]; [now left|]. right. split; [now right|].
      intros E. apply Hnotin. rewrite <- E. now apply in_map.
    + destruct Hin as [<- | Hin]; [right; split; [now left | exact Hne]|].
      destruct (IH ND' Hin) as [-> | [Hin' Hk]]; [now left|].
      right. split; [now right | exact Hk].
Qed.

Lemma JsMap_set_pairs {V} (Q : string * V -> Prop) (k : string) (v : V)
  (m : JsMap.t V) :
  Forall Q m -> Q (k, v) -> Forall Q (JsMap.set k v m).
Proof.
  induction m as [|[k' v'] m IH]; simpl; intros Hall Hv.
  - constructor; [exact Hv | constructor].
  - inversion Hall as [|? ? Hv' Hm]; subst.
    destruct (String.eqb k' k); constructor; auto.
Qed.

Section UserMap.

Variable data : list Profiles.row.
Variable allUserSkills : list (UserSkills.row * option Skills.row).

(** The map after the profiles have been entered: one entry per user id of
    [data], each under its own user id, with no skill listed yet. *)
Lemma addProfile_entries (l : list Profiles.row) (m : JsMap.t _) :
  NoDup (map fst m) ->
  Forall (fun kv => fst kv = SearchPage.UserProfile.user_id (snd kv)) m ->
  let m' := fold_left SearchPage.addProfile l m in
  NoDup (map fst m')
  /\ Forall (fun kv => fst kv = SearchPage.UserProfile.user_id (snd kv)) m'
  /\ (forall k, In k (map fst m') <-> In k (map fst m)
                                      \/ In k (map Profiles.user_id l))
  /\ (forall kv, In kv m' ->
        In kv m
        \/ exists p, In p l /\ snd kv = SearchPage.UserProfile.of_row p).
Proof.
  revert m. induction l as [|p l IH]; intros m ND Hkeys; simpl.
  - repeat split; auto; tauto.
  - unfold SearchPage.addProfile at 2 4 6 8. unfold JsMap.has.
    destruct (JsMap.get (Profiles.user_id p) m) as [u|] eqn:Hget.
    + destruct (IH m ND Hkeys) as [H1 [H2 [H3 H4]]].
      split; [exact H1|]. split; [exact H2|]. split.
      * intros k. rewrite H3. split; [tauto|].
        intros [H | [<- | H]]; auto. left.
        apply JsMap_get_In in Hget. now apply (in_map fst) in Hget.
      * intros kv Hkv. destruct (H4 kv Hkv) as [H | [q [Hq E]]]; auto.
        right. exists q. split; [now right | assumption].
    + pose proof (proj1 (JsMap_get_None _ _) Hget) as Hnot.
      destruct (IH (JsMap.set (Profiles.user_id p)
                      (SearchPage.UserProfile.of_row p) m))
        as [H1 [H2 [H3 H4]]].
      * rewrite JsMap_set_keys_absent by assumption.
        apply NoDup_snoc; assumption.
      * apply JsMap_set_pairs; [exact Hkeys | reflexivity].
      * split; [exact H1|]. split; [exact H2|]. split.
        -- intros k. rewrite H3, JsMap_set_keys_absent by assumption.
           rewrite in_app_iff. simpl. intuition congruence.
        -- intros kv Hkv. destruct (H4 kv Hkv) as [H | [q [Hq E]]].
           ++ apply (JsMap_set_In _ _ _ _ ND) in H.
              destruct H as [-> | [H _]]; [|now left].
              right. exists p. split; [now left | reflexivity].
           ++ right. exists q. split; [now right | assumption].
Qed.

(** Entering the skills changes neither the keys nor the user ids. *)
Lemma addOfferedSkill_keys
  (l : list (UserSkills.row * option Skills.row)) (m : JsMap.t _) :
  Forall (fun kv => fst kv = SearchPage.UserProfile.user_id (snd kv)) m ->
  let m' := fold_left SearchPage.addOfferedSkill l m in
  map fst m' = map fst m
  /\ Forall (fun kv => fst kv = SearchPage.UserProfile.user_id (snd kv)) m'.
Proof.
  revert m. induction l as [|[r sk] l IH]; intros m Hkeys; simpl; [auto|].
  unfold SearchPage.addOfferedSkill at 2 4. cbn [fst snd].
  destruct (JsMap.get (UserSkills.user_id r) m) as [u|] eqn:Hget;
    [|apply IH; assumption].
  destruct sk as [skills|]; [|apply IH; assumption].
  destruct (find _ (SearchPage.UserProfile.offeredSkills u));
    [apply IH; assumption|].
  pose proof (JsMap_get_In _ _ _ Hget) as Hin.
  assert (Hk : UserSkills.user_id r = SearchPage.UserProfile.user_id u).
  { rewrite Forall_forall in Hkeys. exact (Hkeys _ Hin). }
  destruct (IH (JsMap.set (UserSkills.user_id r)
                  (SearchPage.UserProfile.push (SkillRef.of_row skills) u) m))
    as [H1 H2].
  - apply JsMap_set_pairs; [exact Hkeys | exact Hk].
  - split; [|exact H2]. rewrite H1.
    apply JsMap_set_keys_present. now apply (in_map fst) in Hin.
Qed.

Lemma assemble_user_ids :
  NoDup (map SearchPage.UserProfile.user_id
           (SearchPage.assemble data allUserSkills))
  /\ forall k,
       In k (map SearchPage.UserProfile.user_id
               (SearchPage.assemble data allUserSkills))
       <-> In k (map Profiles.user_id data).
Proof.
  unfold SearchPage.assemble, JsMap.values.
  destruct (addProfile_entries data [] ltac:(constructor) ltac:(constructor))
    as [H1 [H2 [H3 _]]].
  destruct (addOfferedSkill_keys allUserSkills _ H2) as [H4 H5].
  cbv zeta in *.
  assert (E : map SearchPage.UserProfile.user_id
                (map snd
                   (fold_left SearchPage.addOfferedSkill allUserSkills
                      (fold_left SearchPage.addProfile data [])))
              = map fst (fold_left SearchPage.addProfile data [])).
  { rewrite <- H4, map_map. apply map_ext_in. intros kv Hkv.
    rewrite Forall_forall in H5. symmetry. exact (H5 kv Hkv). }
  rewrite E. split; [exact H1|]. intros k. rewrite H3. simpl. tauto.
Qed.

End UserMap.

Lemma assemble_nil (all : list (UserSkills.row * option Skills.row)) :
  SearchPage.assemble [] all = [].
Proof.
  unfold SearchPage.assemble. simpl.
  induction all as [|[r sk] all IH]; [reflexivity|]. exact IH.
Qed.

(** A search that runs to its end displays the result assembled from the
    four answers. *)
Lemma searchUsers_assembled (env : Env) (uid : uuid) (db : Database)
  (st : SearchPage.State) :
  ~ blank (SearchPage.searchTerm st) ->
  (forall k, k < 4 -> net env k = None) ->
  exists matching userSkills data all,
    Supabase.skills_ilike None uid ("%" +++ SearchPage.searchTerm st +++ "%")
      db = inr matching
    /\ Supabase.user_skills_offering None uid (map Skills.id matching) db
       = inr userSkills
    /\ Supabase.profiles_public_others_in None uid
         (distinct (map UserSkills.user_id userSkills)) db = inr data
    /\ Supabase.user_skills_offered_by None uid
         (distinct (map UserSkills.user_id userSkills)) db = inr all
    /\ SearchPage.searchUsers env uid db st
       = (SearchPage.setLoading false
            (SearchPage.setUsers (SearchPage.assemble data all) st), []).
Proof.
  intros Hterm Honline.
  do 4 eexists. do 4 (split; [reflexivity|]).
  unfold SearchPage.searchUsers.
  destruct (Text.truthy (Text.trim (SearchPage.searchTerm st))) eqn:Ht;
    [|exfalso; now apply Hterm, truthy_trim_blank].
  cbn [negb].
  rewrite (Honline 0), (Honline 1), (Honline 2), (Honline 3) by lia.
  unfold Supabase.skills_ilike, Supabase.user_skills_offering,
    Supabase.profiles_public_others_in, Supabase.user_skills_offered_by,
    Supabase.select.
  assert (Hempty : forall (f : Profiles.row -> bool) all,
            SearchPage.assemble
              (filter (fun p => Policy.profiles_select uid p
                                && (f p && mem (Profiles.user_id p) []))
                 (profiles db)) all = []).
  { intros f all. rewrite filter_none; [apply assemble_nil|].
    intros p _. unfold mem. simpl.
    destruct (Policy.profiles_select uid p), (f p); reflexivity. }
  destruct (filter _ (skills db)) as [|s0 ms].
  - match goal with
    | |- context [map UserSkills.user_id (filter ?f (user_skills db))] =>
        rewrite (filter_none f (user_skills db))
    end.
    + cbn [map distinct JsSet.of_list fold_left]. now rewrite Hempty.
    + intros r _. unfold mem. simpl.
      destruct (SkillType_eqb (UserSkills.skill_type r) offered);
        reflexivity.
  - destruct (distinct _) as [|u0 ids]; [now rewrite Hempty | reflexivity].
Qed.

(** Who offers a skill whose name matches the pattern of [term]. *)
Lemma offering_users (uid : uuid) (term : string) (db : Database)
  (matching : list Skills.row) (userSkills : list UserSkills.row) (k : uuid) :
  Supabase.skills_ilike None uid ("%" +++ term +++ "%") db = inr matching ->
  Supabase.user_skills_offering None uid (map Skills.id matching) db
  = inr userSkills ->
  In k (distinct (map UserSkills.user_id userSkills))
  <-> exists r s,
        In r (user_skills db) /\ UserSkills.user_id r = k
        /\ UserSkills.skill_type r = offered
        /\ In s (skills db) /\ Skills.id s = UserSkills.skill_id r
        /\ Text.ilike (Supabase.like_pattern ("%" +++ term +++ "%"))
             (Skills.name s) = true.
Proof.
  unfold Supabase.skills_ilike, Supabase.user_skills_offering,
    Supabase.select.
  intros Hm Hus. inversion Hm; subst matching. inversion Hus; subst userSkills.
  clear Hm Hus. rewrite distinct_In, in_map_iff. split.
  - intros [r [Hk Hr]]. apply filter_In in Hr. destruct Hr as [Hr Hc].
    simpl in Hc. apply andb_true_iff in Hc. destruct Hc as [Ht Hmem].
    apply mem_In, in_map_iff in Hmem. destruct Hmem as [s [Hid Hs]].
    apply filter_In in Hs. destruct Hs as [Hs Hlike]. simpl in Hlike.
    exists r, s. repeat split; auto.
    destruct (UserSkills.skill_type r); [reflexivity | discriminate].
  - intros [r [s [Hr [Hk [Ht [Hs [Hid Hlike]]]]]]].
    exists r. split; [assumption|]. apply filter_In. split; [assumption|].
    simpl. rewrite Ht. simpl. apply mem_In, in_map_iff.
    exists s. split; [assumption|]. apply filter_In. now split.
Qed.

(** X6: whom a search finds, for a term and skill names written in ASCII.
    A search that runs to its end displays a record for a user exactly when
    the user is not the one searching, has a public profile, and offers a
    skill whose name matches the pattern the backend makes of [%term%] for
    ILIKE ([*] in the term standing for [%]); and it displays one record
    per user at most. *)
Theorem search_finds_exactly (env : Env) (uid : uuid) (db : Database)
  (st : SearchPage.State) :
  Text.is_ascii (SearchPage.searchTerm st) = true ->
  (forall s, In s (skills db) -> Text.is_ascii (Skills.name s) = true) ->
  ~ blank (SearchPage.searchTerm st) ->
  (forall k, k < 4 -> net env k = None) ->
  let found :=
    map SearchPage.UserProfile.user_id
      (SearchPage.users (fst (SearchPage.searchUsers env uid db st))) in
  NoDup found
  /\ forall k,
       In k found
       <-> k <> uid
           /\ (exists p,
                 In p (profiles db) /\ Profiles.user_id p = k
                 /\ Profiles.is_public p = Some true)
           /\ (exists r s,
                 In r (user_skills db) /\ UserSkills.user_id r = k
                 /\ UserSkills.skill_type r = offered
                 /\ In s (skills db) /\ Skills.id s = UserSkills.skill_id r
                 /\ Text.ilike
                      (Supabase.like_pattern
                         ("%" +++ SearchPage.searchTerm st +++ "%"))
                      (Skills.name s) = true).
Proof.
  intros _ _ Hterm Honline found. subst found.
  destruct (searchUsers_assembled env uid db st Hterm Honline)
    as [matching [userSkills [data [all [Hm [Hus [Hd [_ Hsearch]]]]]]]].
  rewrite Hsearch. cbn [fst SearchPage.users SearchPage.setLoading
    SearchPage.setUsers].
  destruct (assemble_user_ids data all) as [ND Hkeys].
  split; [exact ND|]. intros k. rewrite Hkeys, in_map_iff.
  rewrite <- (offering_users uid _ db matching userSkills k Hm Hus).
  unfold Supabase.profiles_public_others_in, Supabase.select in Hd.
  inversion Hd as [Hd']. clear Hd. split.
  - intros [p [Hk Hp]]. subst k. apply filter_In in Hp.
    destruct Hp as [Hp Hc].
    rewrite !andb_true_iff, negb_true_iff, String.eqb_neq in Hc.
    destruct Hc as [_ [[Hpub Hne] Hin]]. apply mem_In in Hin.
    split; [exact Hne|]. split; [|exact Hin].
    exists p. repeat split; auto.
    destruct (Profiles.is_public p) as [[|]|]; congruence.
  - intros [Hne [[p [Hp [Hk Hpub]]] Hin]]. exists p. split; [assumption|].
    subst k. apply filter_In. split; [assumption|].
    unfold Policy.profiles_select. rewrite Hpub. simpl.
    rewrite andb_true_iff, negb_true_iff, String.eqb_neq, mem_In.
    split; assumption.
Qed.

Lemma search_finds_exactly_witness :
  (* Dave searches for guitar: Alice is found; Carol offers it too but is
     private *)
  In Scenario.alice
    (map SearchPage.UserProfile.user_id
       (SearchPage.users
          (fst (SearchPage.searchUsers Scenario.env Scenario.dave
                  (Scenario.db pending []) (Scenario.searching "guitar")))))
  /\ ~ In Scenario.carol
         (map SearchPage.UserProfile.user_id
            (SearchPage.users
               (fst (SearchPage.searchUsers Scenario.env Scenario.dave
                       (Scenario.db pending [])
                       (Scenario.searching "guitar"))))).
Proof.
  destruct (search_finds_exactly Scenario.env Scenario.dave
              (Scenario.db pending []) (Scenario.searching "guitar"))
    as [_ H]; [reflexivity | | discriminate | reflexivity |].
  { intros s Hs. simpl in Hs. destruct Hs as [<-|[<-|[]]]; reflexivity. }
  split.
  - apply H. split; [discriminate|]. split.
    + exists (Scenario.profile "p-alice" Scenario.alice "Alice" true).
      simpl. tauto.
    + exists (Scenario.user_skill "us1" Scenario.alice "s-guitar" offered),
        Scenario.guitar.
      simpl. tauto.
  - intros Hin. apply H in Hin. destruct Hin as [_ [[p [Hp [Hk Hpub]]] _]].
    simpl in Hp.
    destruct Hp as [<-|[<-|[<-|[<-|[]]]]]; discriminate.
Defined.

(** What one user-skill row adds to the record under key [k]. *)
Lemma addOfferedSkill_step (m : JsMap.t SearchPage.UserProfile.t)
  (r : UserSkills.row) (sk : option Skills.row) :
  NoDup (map fst m) ->
  forall k u1,
    In (k, u1) (SearchPage.addOfferedSkill m (r, sk)) ->
    exists u,
      In (k, u) m
      /\ forall x,
           In x (map SkillRef.id (SearchPage.UserProfile.offeredSkills u1))
           <-> In x (map SkillRef.id (SearchPage.UserProfile.offeredSkills u))
               \/ (UserSkills.user_id r = k
                   /\ exists s, sk = Some s /\ Skills.id s = x).
Proof.
  intros ND k u1. unfold SearchPage.addOfferedSkill. cbn [fst snd].
  destruct (JsMap.get (UserSkills.user_id r) m) as [u0|] eqn:Hget.
  - pose proof (JsMap_get_In _ _ _ Hget) as Hin0.
    destruct sk as [s|].
    + destruct (find _ (SearchPage.UserProfile.offeredSkills u0)) as [s'|]
        eqn:Hfind.
      * intros Hin. exists u1. split; [assumption|]. intros x.
        split; [tauto|]. intros [H | [Hk [s'' [E Hx]]]]; [assumption|].
        inversion E; subst s'' k x.
        assert ((UserSkills.user_id r, u1) = (UserSkills.user_id r, u0)).
        { apply (NoDup_key_unique fst m); auto. }
        inversion H; subst u1.
        apply find_some in Hfind. destruct Hfind as [Hs' E'].
        apply String.eqb_eq in E'. rewrite <- E'. now apply in_map.
      * intros Hin. apply (JsMap_set_In _ _ _ _ ND) in Hin.
        destruct Hin as [E | [Hin Hk]].
        -- inversion E; subst k u1. exists u0. split; [assumption|].
           intros x. simpl. rewrite map_app, in_app_iff. simpl.
           split.
           ++ intros [H | [H | []]]; [now left|].
              right. split; [reflexivity|]. exists s. auto.
           ++ intros [H | [_ [s' [E' Hx]]]]; [now left|].
              inversion E'; subst s'. right. now left.
        -- exists u1. split; [assumption|]. intros x.
           split; [tauto|]. intros [H | [Hk' _]]; [assumption|].
           simpl in Hk. congruence.
    + intros Hin. exists u1. split; [assumption|]. intros x.
      split; [tauto|]. intros [H | [_ [s [E _]]]]; [assumption|discriminate].
  - intros Hin. exists u1. split; [assumption|]. intros x.
    split; [tauto|]. intros [H | [Hk _]]; [assumption|].
    exfalso. apply JsMap_get_None in Hget. apply Hget. subst k.
    now apply (in_map fst) in Hin.
Qed.

Lemma addOfferedSkill_keys_one (m : JsMap.t SearchPage.UserProfile.t)
  (us : UserSkills.row * option Skills.row) :
  map fst (SearchPage.addOfferedSkill m us) = map fst m.
Proof.
  unfold SearchPage.addOfferedSkill.
  destruct (JsMap.get _ m) as [u|] eqn:Hget; [|reflexivity].
  destruct (snd us); [|reflexivity].
  destruct (find _ _); [reflexivity|].
  apply JsMap_set_keys_present.
  apply JsMap_get_In in Hget. now apply (in_map fst) in Hget.
Qed.

(** What a run of user-skill rows adds. *)
Lemma addOfferedSkill_fold
  (l : list (UserSkills.row * option Skills.row))
  (m : JsMap.t SearchPage.UserProfile.t) :
  NoDup (map fst m) ->
  forall k u',
    In (k, u') (fold_left SearchPage.addOfferedSkill l m) ->
    exists u,
      In (k, u) m
      /\ forall x,
           In x (map SkillRef.id (SearchPage.UserProfile.offeredSkills u'))
           <-> In x (map SkillRef.id (SearchPage.UserProfile.offeredSkills u))
               \/ exists r s,
                    In (r, Some s) l /\ UserSkills.user_id r = k
                    /\ Skills.id s = x.
Proof.
  revert m. induction l as [|[r sk] l IH]; intros m ND k u' Hin; simpl in Hin.
  - exists u'. split; [assumption|]. intros x. split; [tauto|].
    intros [H | [r [s [[] _]]]]. assumption.
  - destruct (IH (SearchPage.addOfferedSkill m (r, sk))
                ltac:(now rewrite addOfferedSkill_keys_one) k u' Hin)
      as [u1 [Hin1 Hx1]].
    destruct (addOfferedSkill_step m r sk ND k u1 Hin1) as [u [Hu Hx]].
    exists u. split; [assumption|]. intros x. rewrite Hx1, Hx. split.
    + intros [[H | [Hk [s [E Hs]]]] | [r' [s' [Hl [Hk Hs]]]]].
      * now left.
      * right. exists r, s. subst sk. split; [now left | auto].
      * right. exists r', s'. split; [now right | auto].
    + intros [H | [r' [s' [[E | Hl] [Hk Hs]]]]].
      * left. now left.
      * inversion E; subst r' sk. left. right. split; [assumption|].
        exists s'. auto.
      * right. exists r', s'. auto.
Qed.

(** The entries a run of user-skill rows lists come from its rows. *)
Lemma addOfferedSkill_entries (Q : SkillRef.t -> Prop)
  (l : list (UserSkills.row * option Skills.row))
  (m : JsMap.t SearchPage.UserProfile.t) :
  Forall
    (fun kv =>
       forall e, In e (SearchPage.UserProfile.offeredSkills (snd kv)) -> Q e)
    m ->
  (forall r s, In (r, Some s) l -> Q (SkillRef.of_row s)) ->
  Forall
    (fun kv =>
       forall e, In e (SearchPage.UserProfile.offeredSkills (snd kv)) -> Q e)
    (fold_left SearchPage.addOfferedSkill l m).
Proof.
  revert m. induction l as [|[r sk] l IH]; intros m Hm Hl; simpl;
    [exact Hm|].
  apply IH; [|intros r' s' H; apply (Hl r' s'); now right].
  unfold SearchPage.addOfferedSkill. cbn [fst snd].
  destruct (JsMap.get (UserSkills.user_id r) m) as [u|] eqn:Hget;
    [|exact Hm].
  destruct sk as [s|]; [|exact Hm].
  destruct (find _ (SearchPage.UserProfile.offeredSkills u)); [exact Hm|].
  apply (JsMap_set_all
           (fun u => forall e,
              In e (SearchPage.UserProfile.offeredSkills u) -> Q e));
    [exact Hm|].
  intros e He. simpl in He. apply in_app_or in He.
  destruct He as [He | [<- | []]].
  - exact (JsMap_get_all
             (fun u => forall e,
                In e (SearchPage.UserProfile.offeredSkills u) -> Q e)
             _ _ _ Hm Hget e He).
  - apply (Hl r s). now left.
Qed.

(** X7: the skills a search lists for a user are all the skills the user
    offers, matching or not.  In the result of a search that runs to its
    end, a record lists the skill with identifier [x] exactly when a stored
    user-skill row of that user offers the stored skill [x]; and each
    listed entry carries the identifier and the name of a stored skill. *)
Theorem search_lists_all_offered_skills (env : Env) (uid : uuid)
  (db : Database) (st : SearchPage.State) (u : SearchPage.UserProfile.t) :
  ~ blank (SearchPage.searchTerm st) ->
  (forall k, k < 4 -> net env k = None) ->
  In u (SearchPage.users (fst (SearchPage.searchUsers env uid db st))) ->
  (forall x,
     In x (map SkillRef.id (SearchPage.UserProfile.offeredSkills u))
     <-> exists r s,
           In r (user_skills db)
           /\ UserSkills.user_id r = SearchPage.UserProfile.user_id u
           /\ UserSkills.skill_type r = offered
           /\ UserSkills.skill_id r = x
           /\ In s (skills db) /\ Skills.id s = x)
  /\ (forall e,
        In e (SearchPage.UserProfile.offeredSkills u) ->
        exists s, In s (skills db) /\ e = SkillRef.of_row s).
Proof.
  intros Hterm Honline Hu.
  destruct (searchUsers_assembled env uid db st Hterm Honline)
    as [matching [userSkills [data [all [Hm [Hus [Hd [Ha Hsearch]]]]]]]].
  rewrite Hsearch in Hu. cbn [fst SearchPage.users SearchPage.setLoading
    SearchPage.setUsers] in Hu.
  assert (Hembed : forall r s,
            Supabase.embed_skill uid db r = Some s ->
            In s (skills db) /\ Skills.id s = UserSkills.skill_id r).
  { intros r s E. unfold Supabase.embed_skill in E. apply find_some in E.
    destruct E as [Hs E]. rewrite andb_true_r in E.
    apply String.eqb_eq in E. auto. }
  assert (Hall : forall r sk,
            In (r, sk) all ->
            In r (user_skills db) /\ UserSkills.skill_type r = offered
            /\ sk = Supabase.embed_skill uid db r).
  { intros r sk Hin. unfold Supabase.user_skills_offered_by, Supabase.select
      in Ha. inversion Ha as [Ha']. rewrite <- Ha' in Hin.
    apply in_map_iff in Hin. destruct Hin as [r' [E Hr']].
    inversion E; subst r' sk. apply filter_In in Hr'.
    destruct Hr' as [Hr' Hc]. simpl in Hc. apply andb_true_iff in Hc.
    destruct Hc as [Ht _]. repeat split; auto.
    destruct (UserSkills.skill_type r); [reflexivity | discriminate]. }
  split.
  - (* the identifiers *)
    pose proof Hu as Hu'. unfold SearchPage.assemble, JsMap.values in Hu'.
    apply in_map_iff in Hu'. destruct Hu' as [[k u'] [E Hkv]].
    simpl in E. subst u'.
    destruct (addProfile_entries data [] ltac:(constructor)
                ltac:(constructor)) as [ND [Hkeys [Hk1 Hfresh]]].
    cbv zeta in ND, Hkeys, Hk1, Hfresh.
    destruct (addOfferedSkill_fold all _ ND k u Hkv) as [u0 [Hu0 Hx]].
    destruct (addOfferedSkill_keys all _ Hkeys) as [_ Hkeys'].
    cbv zeta in Hkeys'. rewrite Forall_forall in Hkeys'.
    pose proof (Hkeys' _ Hkv) as Hku. simpl in Hku.
    destruct (Hfresh _ Hu0) as [[] | [p [Hp Ep]]]. simpl in Ep.
    assert (Hnone : SearchPage.UserProfile.offeredSkills u0 = [])
      by now rewrite Ep.
    assert (Hkin : In k (distinct (map UserSkills.user_id userSkills))).
    { rewrite Forall_forall in Hkeys. pose proof (Hkeys _ Hu0) as Hk0.
      simpl in Hk0. rewrite Hk0, Ep. simpl.
      unfold Supabase.profiles_public_others_in, Supabase.select in Hd.
      inversion Hd as [Hd']. rewrite <- Hd' in Hp. apply filter_In in Hp.
      destruct Hp as [_ Hc]. rewrite !andb_true_iff in Hc.
      apply mem_In. tauto. }
    intros x. rewrite Hx, Hnone. simpl. rewrite <- Hku. split.
    + intros [[] | [r [s [Hin [Hk Hs]]]]].
      destruct (Hall r (Some s) Hin) as [Hr [Ht E]].
      destruct (Hembed r s (eq_sym E)) as [Hs' Hid].
      exists r, s. repeat split; auto. congruence.
    + intros [r [s [Hr [Hk [Ht [Hid [Hs Hsid]]]]]]]. right.
      destruct (Supabase.embed_skill uid db r) as [s'|] eqn:E.
      * destruct (Hembed r s' E) as [_ Hid'].
        exists r, s'. split; [|split; [assumption | congruence]].
        unfold Supabase.user_skills_offered_by, Supabase.select in Ha.
        inversion Ha as [Ha']. apply in_map_iff. exists r.
        split; [now rewrite E|]. apply filter_In. split; [assumption|].
        simpl. rewrite Ht. simpl. apply mem_In. now rewrite Hk.
      * exfalso. unfold Supabase.embed_skill in E.
        apply (find_none _ _ E) in Hs. rewrite andb_true_r in Hs.
        apply String.eqb_neq in Hs. congruence.
  - (* the entries *)
    unfold SearchPage.assemble in Hu.
    refine (JsMap_values_all
              (fun u => forall e,
                 In e (SearchPage.UserProfile.offeredSkills u) ->
                 exists s, In s (skills db) /\ e = SkillRef.of_row s)
              _ u _ Hu).
    apply addOfferedSkill_entries.
    + apply (addProfile_all
               (fun u => forall e,
                  In e (SearchPage.UserProfile.offeredSkills u) ->
                  exists s, In s (skills db) /\ e = SkillRef.of_row s)
               data);
        [intros profile _ e [] | apply incl_refl | constructor].
    + intros r s Hin. destruct (Hall r (Some s) Hin) as [_ [_ E]].
      destruct (Hembed r s (eq_sym E)) as [Hs _]. eauto.
Qed.

Lemma search_lists_all_offered_skills_witness :
  (* Dave searches for guitar and finds Alice, shown with Spanish too *)
  let result :=
    SearchPage.users
      (fst (SearchPage.searchUsers Scenario.env Scenario.dave
              Scenario.versatile (Scenario.searching "guitar"))) in
  map SearchPage.UserProfile.user_id result = [Scenario.alice]
  /\ Forall
       (fun u =>
          In "s-spanish"
            (map SkillRef.id (SearchPage.UserProfile.offeredSkills u)))
       result.
Proof.
  intros result. split; [reflexivity|].
  apply Forall_forall. intros u Hu.
  destruct (search_lists_all_offered_skills Scenario.env Scenario.dave
              Scenario.versatile (Scenario.searching "guitar") u)
    as [H _]; [discriminate | reflexivity | exact Hu |].
  apply H.
  exists (Scenario.user_skill "us5" Scenario.alice "s-spanish" offered),
    Scenario.spanish.
  assert (Hid : SearchPage.UserProfile.user_id u = Scenario.alice).
  { vm_compute in Hu. destruct Hu as [<- | []]. reflexivity. }
  rewrite Hid. simpl. tauto.
Defined.

(** ** Search: letter case of the term *)

Lemma lower_char_special (c x : ascii) :
  x = "%"%char \/ x = "_"%char \/ x = "\"%char \/ x = "*"%char ->
  Ascii.eqb (Text.lower_char c) x = Ascii.eqb c x.
Proof.
  intros [-> | [-> | [-> | ->]]];
    destruct c as [[|] [|] [|] [|] [|] [|] [|] [|]]; reflexivity.
Qed.

(** Terms that differ in letter case only give patterns that do. *)
Lemma like_pattern_case (p1 : string) :
  forall p2,
    Text.toLowerCase p1 = Text.toLowerCase p2 ->
    Text.toLowerCase (Supabase.like_pattern p1)
    = Text.toLowerCase (Supabase.like_pattern p2).
Proof.
  induction p1 as [|c1 p1 IH]; intros [|c2 p2] Hlow; try discriminate;
    [reflexivity|].
  simpl in Hlow. inversion Hlow as [[Hc Hp]]. simpl.
  rewrite (IH p2 Hp). f_equal.
  assert (Hstar : Ascii.eqb c1 "*" = Ascii.eqb c2 "*").
  { rewrite <- (lower_char_special c1 "*"), <- (lower_char_special c2 "*")
      by auto. now rewrite Hc. }
  rewrite Hstar. destruct (Ascii.eqb c2 "*"); [reflexivity | exact Hc].
Qed.

Lemma like_underscore (ci : bool) (p s : string) :
  Text.like ci (String "_" p) s
  = match s with
    | EmptyString => false
    | String _ s' => Text.like ci p s'
    end.
Proof. reflexivity. Qed.

Lemma like_escape (ci : bool) (e : ascii) (p s : string) :
  Text.like ci (String "\" (String e p)) s
  = match s with
    | EmptyString => false
    | String d s' => Text.char_eq ci e d && Text.like ci p s'
    end.
Proof. reflexivity. Qed.

Lemma like_escape_end (ci : bool) (s : string) :
  Text.like ci (String "\" EmptyString) s = false.
Proof. reflexivity. Qed.

Lemma toLowerCase_app (a b : string) :
  Text.toLowerCase (a +++ b) = Text.toLowerCase a +++ Text.toLowerCase b.
Proof. induction a as [|c a IH]; simpl; [reflexivity | now rewrite IH]. Qed.

(** ILIKE does not see the letter case of its pattern. *)
Lemma ilike_pattern_case (n : nat) :
  forall p1 p2 s,
    String.length p1 <= n ->
    Text.toLowerCase p1 = Text.toLowerCase p2 ->
    Text.ilike p1 s = Text.ilike p2 s.
Proof.
  unfold Text.ilike. induction n as [|n IH]; intros p1 p2 s Hlen Hlow.
  - destruct p1; [|simpl in Hlen; lia].
    destruct p2; [reflexivity | discriminate].
  - destruct p1 as [|c1 p1], p2 as [|c2 p2]; try discriminate;
      [reflexivity|].
    simpl in Hlow, Hlen. inversion Hlow as [[Hc Hp]].
    assert (Hspecial : forall x,
              x = "%"%char \/ x = "_"%char \/ x = "\"%char
              \/ x = "*"%char ->
              Ascii.eqb c1 x = Ascii.eqb c2 x).
    { intros x Hx.
      rewrite <- (lower_char_special c1 x Hx),
        <- (lower_char_special c2 x Hx). now rewrite Hc. }
    destruct (Ascii.eqb c1 "%") eqn:E1.
    { pose proof E1 as E2. rewrite Hspecial in E2 by auto.
      apply Ascii.eqb_eq in E1, E2. subst c1 c2.
      induction s as [|d s IHs].
      - rewrite (like_percent true p1 ""), (like_percent true p2 "").
        now rewrite (IH p1 p2 "" ltac:(lia) Hp).
      - rewrite (like_percent true p1 (String d s)),
          (like_percent true p2 (String d s)).
        now rewrite (IH p1 p2 (String d s) ltac:(lia) Hp), IHs. }
    destruct (Ascii.eqb c1 "_") eqn:E3.
    { pose proof E3 as E4. rewrite Hspecial in E4 by auto.
      apply Ascii.eqb_eq in E3, E4. subst c1 c2.
      rewrite !like_underscore. destruct s as [|d s]; [reflexivity|].
      apply IH; [lia | assumption]. }
    destruct (Ascii.eqb c1 "\") eqn:E5.
    { pose proof E5 as E6. rewrite Hspecial in E6 by auto.
      apply Ascii.eqb_eq in E5, E6. subst c1 c2.
      destruct p1 as [|e1 p1], p2 as [|e2 p2]; try discriminate;
        [reflexivity|].
      simpl in Hp, Hlen. inversion Hp as [[He Hp']].
      rewrite !like_escape. destruct s as [|d s]; [reflexivity|].
      unfold Text.char_eq. rewrite He. f_equal.
      apply IH; [lia | assumption]. }
    pose proof E1 as E2. pose proof E3 as E4. pose proof E5 as E6.
    rewrite Hspecial in E2, E4, E6 by auto.
    rewrite (like_literal true c1 p1 s E1 E3 E5),
      (like_literal true c2 p2 s E2 E4 E6).
    destruct s as [|d s]; [reflexivity|].
    unfold Text.char_eq. rewrite Hc. f_equal.
    apply IH; [lia | assumption].
Qed.

(** X8: a search does not see the letter case of an ASCII term.  With
    skill names written in ASCII, two terms written in ASCII that differ in
    letter case only (neither being blank) make [searchUsers] display the
    same result, show the same notifications and leave the same loading
    flag. *)
Theorem search_ignores_case_of_term (env : Env) (uid : uuid) (db : Database)
  (st : SearchPage.State) (t1 t2 : string) :
  Text.is_ascii t1 = true ->
  Text.is_ascii t2 = true ->
  (forall s, In s (skills db) -> Text.is_ascii (Skills.name s) = true) ->
  Text.toLowerCase t1 = Text.toLowerCase t2 ->
  ~ blank t1 ->
  ~ blank t2 ->
  let run t :=
    SearchPage.searchUsers env uid db (SearchPage.setSearchTerm t st) in
  SearchPage.users (fst (run t1)) = SearchPage.users (fst (run t2))
  /\ SearchPage.loading (fst (run t1)) = SearchPage.loading (fst (run t2))
  /\ snd (run t1) = snd (run t2).
Proof.
  intros _ _ _ Hlow Hb1 Hb2 run. subst run. cbv beta.
  unfold SearchPage.searchUsers.
  cbn [SearchPage.searchTerm SearchPage.setSearchTerm].
  destruct (Text.truthy (Text.trim t1)) eqn:Ht1;
    [|exfalso; now apply Hb1, truthy_trim_blank].
  destruct (Text.truthy (Text.trim t2)) eqn:Ht2;
    [|exfalso; now apply Hb2, truthy_trim_blank].
  cbn [negb].
  assert (E : Supabase.skills_ilike (net env 0) uid ("%" +++ t1 +++ "%") db
              = Supabase.skills_ilike (net env 0) uid ("%" +++ t2 +++ "%")
                  db).
  { unfold Supabase.skills_ilike, Supabase.select.
    destruct (net env 0); [reflexivity|]. f_equal.
    apply filter_ext. intros s. f_equal.
    apply (ilike_pattern_case
             (String.length (Supabase.like_pattern ("%" +++ t1 +++ "%"))));
      [lia|].
    apply like_pattern_case. rewrite !toLowerCase_app. now rewrite Hlow. }
  rewrite E. clear E.
  repeat match goal with
         | |- context [match ?x with _ => _ end] => destruct x
         end; repeat split.
Qed.

Lemma search_ignores_case_of_term_witness :
  map SearchPage.UserProfile.user_id
    (SearchPage.users
       (fst (SearchPage.searchUsers Scenario.env Scenario.bob
               (Scenario.db pending []) (Scenario.searching "GuItAr"))))
  = [Scenario.alice].
Proof.
  destruct (search_ignores_case_of_term Scenario.env Scenario.bob
              (Scenario.db pending []) SearchPage.initial "GuItAr" "guitar")
    as [H _];
    [reflexivity | reflexivity | | reflexivity | discriminate
     | discriminate |].
  { intros s Hs. simpl in Hs. destruct Hs as [<-|[<-|[]]]; reflexivity. }
  unfold Scenario.searching. rewrite H. reflexivity.
Defined.

(** ** Sending a swap request *)


Lemma swap_requests_insert_ok (now : timestamp) (new_id uid recipient : uuid)
  (v : Supabase.NewSwapRequest) (db : Database) :
  Supabase.requester_id v = uid ->
  Supabase.recipient_id v = Some recipient ->
  In uid (auth_users db) ->
  In recipient (auth_users db) ->
  In (Supabase.offered_skill_id v) (map Skills.id (skills db)) ->
  In (Supabase.wanted_skill_id v) (map Skills.id (skills db)) ->
  Supabase.swap_requests_insert None now new_id uid v db
  = (None,
     with_swap_requests
       (swap_requests db ++ [Supabase.requested now new_id v recipient]) db).
Proof.
  intros Hu Hrcp H1 H2 H3 H4. unfold Supabase.swap_requests_insert.
  rewrite Hu, Hrcp, String.eqb_refl. cbn [negb].
  apply mem_In in H1, H2, H3, H4. now rewrite H1, H2, H3, H4.
Qed.



(** X10: [sendSwapRequest] is all or nothing.  Whatever the dialog holds
    and whatever the backend answers, either the database is left as it
    was, the dialog keeps its selected user and its form and one error
    notification is shown; or exactly one request is appended, pending,
    from the signed-in user, between registered users and about listed
    skills, every other table being left as it was. *)
Theorem send_request_all_or_nothing (env : Env) (uid : uuid) (db : Database)
  (d : SearchPage.Dialog) :
  let out := SearchPage.sendSwapRequest env uid db d in
  (fst (fst out) = db
   /\ SearchPage.selectedUser (snd (fst out)) = SearchPage.selectedUser d
   /\ SearchPage.swapRequest (snd (fst out)) = SearchPage.swapRequest d
   /\ exists t, snd out = [t] /\ variant t = destructive)
  \/ (exists r,
        fst (fst out) = with_swap_requests (swap_requests db ++ [r]) db
        /\ SwapRequests.requester_id r = uid
        /\ SwapRequests.status r = pending
        /\ In uid (auth_users db)
        /\ In (SwapRequests.recipient_id r) (auth_users db)
        /\ In (SwapRequests.offered_skill_id r) (map Skills.id (skills db))
        /\ In (SwapRequests.wanted_skill_id r) (map Skills.id (skills db))
        /\ SearchPage.selectedUser (snd (fst out)) = None
        /\ exists t, snd out = [t] /\ variant t = default).
Proof.
  cbv zeta. unfold SearchPage.sendSwapRequest.
  destruct (negb _ || negb _).
  { left. cbn [fst snd]. repeat split. eexists. split; reflexivity. }
  unfold Supabase.swap_requests_insert.
  destruct (net env 0) as [m|].
  { left. cbn [fst snd]. repeat split. eexists. split; reflexivity. }
  cbn [SearchPage.proposed Supabase.requester_id Supabase.recipient_id
    Supabase.offered_skill_id Supabase.wanted_skill_id].
  rewrite String.eqb_refl. cbn [negb].
  destruct (option_map _ _) as [recipient|];
    [|left; cbn [fst snd]; repeat split; eexists; split; reflexivity].
  destruct (mem uid (auth_users db)) eqn:H1; cbn [negb];
    [|left; cbn [fst snd]; repeat split; eexists; split; reflexivity].
  destruct (mem recipient (auth_users db)) eqn:H2; cbn [negb];
    [|left; cbn [fst snd]; repeat split; eexists; split; reflexivity].
  destruct (mem _ (map Skills.id (skills db))) eqn:H3; cbn [negb];
    [|left; cbn [fst snd]; repeat split; eexists; split; reflexivity].
  destruct (mem (SearchPage.SwapRequest.wantedSkillId _) _) eqn:H4;
    cbn [negb];
    [|left; cbn [fst snd]; repeat split; eexists; split; reflexivity].
  right. apply mem_In in H1, H2, H3, H4. cbn [fst snd].
  eexists. split; [reflexivity|]. cbn.
  repeat (split; [first [reflexivity | assumption] |]).
  eexists. split; reflexivity.
Qed.

(** ** Feedback: what a submission changes on the pages *)

(** The pending-feedback list of a page loaded from [db]. *)
Lemma pending_entries (env : Env) (U : uuid) (db : Database)
  (st : FeedbackPage.State) :
  (forall k, k < 4 -> net env k = None) ->
  let st' := fst (FeedbackPage.fetchAcceptedSwaps env U db st) in
  (forall v,
     In v (FeedbackPage.pendingFeedback st') ->
     exists r,
       In r (swap_requests db) /\ awaits_feedback db U r = true /\ shows v r)
  /\ (forall r,
        In r (swap_requests db) ->
        awaits_feedback db U r = true ->
        exists v, In v (FeedbackPage.pendingFeedback st') /\ shows v r).
Proof.
  intros Honline st'.
  destruct (fetchAcceptedSwaps_online env U db st Honline)
    as [data [pm [sm [Hdata Hst]]]].
  destruct (accepted_data env U db Honline) as [data' [Hdata' Hin]].
  assert (data' = data) by congruence. subst data'. clear Hdata'.
  subst st'. rewrite Hst. clear Hst.
  set (fs := JsSet.of_list _).
  assert (Hawaits : forall r, In r data ->
            awaits_feedback db U r
            = negb (FeedbackPage.AcceptedSwapRequest.has_feedback
                      (FeedbackPage.withFeedbackStatus pm sm fs r))).
  { intros r Hr. cbn [FeedbackPage.withFeedbackStatus
      FeedbackPage.AcceptedSwapRequest.has_feedback]. subst fs.
    rewrite (has_feedback_iff U db data r Hr). unfold awaits_feedback.
    apply Hin in Hr. destruct Hr as [_ [Hs Hp]].
    apply Status_eqb_eq in Hs. rewrite Hs.
    assert (Hp' : String.eqb (SwapRequests.requester_id r) U
                  || String.eqb (SwapRequests.recipient_id r) U = true)
      by (rewrite orb_true_iff, !String.eqb_eq; exact Hp).
    now rewrite Hp'. }
  unfold FeedbackPage.pendingFeedback. cbn [FeedbackPage.acceptedSwaps
    FeedbackPage.setLoading FeedbackPage.setAcceptedSwaps].
  split.
  - intros v Hv. apply filter_In in Hv. destruct Hv as [Hv Hnot].
    apply in_map_iff in Hv. destruct Hv as [r [<- Hr]].
    exists r. split; [now apply Hin|].
    split; [now rewrite (Hawaits r Hr) | repeat split].
  - intros r Hr Haw.
    assert (Hr' : In r data).
    { apply Hin. split; [assumption|]. unfold awaits_feedback in Haw.
      rewrite !andb_true_iff, orb_true_iff, !String.eqb_eq, Status_eqb_eq
        in Haw. tauto. }
    exists (FeedbackPage.withFeedbackStatus pm sm fs r).
    split; [|repeat split].
    apply filter_In. split; [now apply in_map|].
    now rewrite <- (Hawaits r Hr').
Qed.

Lemma fetchMyFeedback_frame (env : Env) (uid : uuid) (db : Database)
  (st : FeedbackPage.State) :
  let st' := FeedbackPage.fetchMyFeedback env uid db st in
  FeedbackPage.acceptedSwaps st' = FeedbackPage.acceptedSwaps st
  /\ FeedbackPage.feedbackForm st' = FeedbackPage.feedbackForm st
  /\ FeedbackPage.loading st' = FeedbackPage.loading st
  /\ FeedbackPage.submitting st' = FeedbackPage.submitting st.
Proof.
  cbv zeta. unfold FeedbackPage.fetchMyFeedback.
  destruct (Supabase.feedback_about _ _ _); [repeat split|].
  destruct (Supabase.profiles_in _ _ _ _); repeat split.
Qed.

Lemma fetchAcceptedSwaps_frame (env : Env) (uid : uuid) (db : Database)
  (st : FeedbackPage.State) :
  let st' := fst (FeedbackPage.fetchAcceptedSwaps env uid db st) in
  FeedbackPage.feedbackForm st' = FeedbackPage.feedbackForm st
  /\ FeedbackPage.myFeedback st' = FeedbackPage.myFeedback st
  /\ FeedbackPage.submitting st' = FeedbackPage.submitting st.
Proof.
  cbv zeta. unfold FeedbackPage.fetchAcceptedSwaps.
  destruct (Supabase.swap_requests_of _ _ _ _); [repeat split|].
  destruct (Supabase.profiles_in _ _ _ _); [repeat split|].
  destruct (Supabase.skills_in _ _ _ _); repeat split.
Qed.

Local Abbreviation feedback_submitted :=
  {| title := "Feedback submitted!";
     description := "Thank you for your feedback.";
     variant := default |}.

(** What has happened when [submitFeedback] announces a success. *)
Lemma submitFeedback_success (env : Env) (uid : uuid) (db : Database)
  (st : FeedbackPage.State) :
  let out := FeedbackPage.submitFeedback env uid db st in
  let form := FeedbackPage.feedbackForm st in
  In feedback_submitted (snd out) ->
  exists n,
    Text.parseInt (FeedbackPage.Form.rating form) = Some n
    /\ (1 <=? n)%Z && (n <=? 5)%Z = true
    /\ existsb
         (Supabase.same_pair (FeedbackPage.Form.swapRequestId form) uid)
         (feedback db) = false
    /\ In (FeedbackPage.Form.swapRequestId form)
         (map SwapRequests.id (swap_requests db))
    /\ In uid (auth_users db)
    /\ In (FeedbackPage.Form.revieweeId form) (auth_users db)
    /\ fst (fst out)
       = with_feedback
           (feedback db
            ++ [Supabase.stored (now env) (fresh env 0)
                  (FeedbackPage.submitted uid form) n])
           db
    /\ snd (fst out)
       = FeedbackPage.setSubmitting false
           (FeedbackPage.fetchMyFeedback (shift 5 env) uid (fst (fst out))
              (fst (FeedbackPage.fetchAcceptedSwaps (shift 1 env) uid
                      (fst (fst out))
                      (FeedbackPage.setFeedbackForm FeedbackPage.Form.empty
                         (FeedbackPage.setSubmitting true st))))).
Proof.
  cbv zeta. unfold FeedbackPage.submitFeedback.
  destruct (negb _ || negb _).
  { intros [H|[]]. discriminate H. }
  unfold Supabase.feedback_insert.
  destruct (net env 0) as [m|].
  { intros [H|[]]. discriminate H. }
  cbn [FeedbackPage.submitted Supabase.rating Supabase.reviewer_id
    Supabase.swap_request_id Supabase.reviewee_id].
  destruct (Text.parseInt _) as [n|].
  2:{ destruct (negb _); intros [H|[]]; discriminate H. }
  unfold Policy.feedback_insert. cbn [Supabase.stored Feedback.reviewer_id
    Supabase.reviewer_id].
  rewrite String.eqb_refl. cbn [negb].
  destruct ((1 <=? n)%Z && (n <=? 5)%Z) eqn:Hrange; cbn [negb].
  2:{ intros [H|[]]; discriminate H. }
  destruct (existsb _ (feedback db)) eqn:Hpair.
  { intros [H|[]]; discriminate H. }
  destruct (mem _ (map SwapRequests.id (swap_requests db))) eqn:H1;
    cbn [negb]; [|intros [H|[]]; discriminate H].
  destruct (mem uid (auth_users db)) eqn:H2;
    cbn [negb]; [|intros [H|[]]; discriminate H].
  destruct (mem _ (auth_users db)) eqn:H3 in |- *;
    cbn [negb]; [|intros [H|[]]; discriminate H].
  intros _. exists n. apply mem_In in H1, H2, H3.
  destruct (FeedbackPage.fetchAcceptedSwaps _ _ _ _) as [st2 toasts] eqn:E.
  cbn [fst snd]. repeat (split; [first [reflexivity | assumption] |]).
  now rewrite E.
Qed.

Lemma awaits_feedback_after (db : Database) (U : uuid) (row : Feedback.row)
  (r : SwapRequests.row) :
  Feedback.reviewer_id row = U ->
  awaits_feedback (with_feedback (feedback db ++ [row]) db) U r
  = awaits_feedback db U r
    && negb (String.eqb (Feedback.swap_request_id row) (SwapRequests.id r)).
Proof.
  intros HU. unfold awaits_feedback.
  cbn [feedback with_feedback]. rewrite existsb_app. cbn [existsb].
  unfold Supabase.same_pair at 2. rewrite HU, String.eqb_refl.
  rewrite orb_false_r, andb_true_r, negb_orb.
  now rewrite andb_assoc.
Qed.

(** X11: a reviewed swap leaves the pending-feedback list.  When
    [submitFeedback] announces that the feedback was submitted and the four
    queries of its refresh are answered, the form is empty again, the page
    is no longer submitting, and the pending-feedback list shows exactly the
    requests that awaited the user's feedback before, the one just reviewed
    apart. *)
Theorem reviewed_swap_leaves_pending_list (env : Env) (uid : uuid)
  (db : Database) (st : FeedbackPage.State) :
  let out := FeedbackPage.submitFeedback env uid db st in
  let st' := snd (fst out) in
  let reviewed :=
    FeedbackPage.Form.swapRequestId (FeedbackPage.feedbackForm st) in
  In feedback_submitted (snd out) ->
  (forall k, k < 5 -> net env k = None) ->
  FeedbackPage.feedbackForm st' = FeedbackPage.Form.empty
  /\ FeedbackPage.submitting st' = false
  /\ (forall v,
        In v (FeedbackPage.pendingFeedback st') ->
        FeedbackPage.AcceptedSwapRequest.id v <> reviewed
        /\ exists r,
             In r (swap_requests db) /\ awaits_feedback db uid r = true
             /\ shows v r)
  /\ (forall r,
        In r (swap_requests db) ->
        awaits_feedback db uid r = true ->
        SwapRequests.id r <> reviewed ->
        exists v, In v (FeedbackPage.pendingFeedback st') /\ shows v r).
Proof.
  intros out st' reviewed Hok Honline.
  destruct (submitFeedback_success env uid db st Hok)
    as [n [Hn [Hrange [Hpair [Hswap [Huid [Hrev [Hdb Hst]]]]]]]].
  fold out in Hdb, Hst. fold st' in Hst.
  set (db' := fst (fst out)) in *.
  set (st1 := FeedbackPage.setFeedbackForm _ _) in Hst.
  set (st2 := fst (FeedbackPage.fetchAcceptedSwaps (shift 1 env) uid db'
                     st1)) in Hst.
  destruct (fetchMyFeedback_frame (shift 5 env) uid db' st2)
    as [Hacc [Hform _]].
  destruct (fetchAcceptedSwaps_frame (shift 1 env) uid db' st1)
    as [Hform1 _].
  fold st2 in Hform1.
  assert (Hpending : FeedbackPage.pendingFeedback st'
                     = FeedbackPage.pendingFeedback st2).
  { rewrite Hst. unfold FeedbackPage.pendingFeedback.
    cbn [FeedbackPage.acceptedSwaps FeedbackPage.setSubmitting].
    now rewrite Hacc. }
  assert (Honline' : forall k, k < 4 -> net (shift 1 env) k = None).
  { intros k Hk. simpl. apply Honline. lia. }
  destruct (pending_entries (shift 1 env) uid db' st1 Honline')
    as [Hsound Hcomplete].
  fold st2 in Hsound, Hcomplete.
  assert (Haw : forall r,
            awaits_feedback db' uid r
            = awaits_feedback db uid r
              && negb (String.eqb reviewed (SwapRequests.id r))).
  { intros r. rewrite Hdb. now rewrite awaits_feedback_after. }
  split; [rewrite Hst; cbn [FeedbackPage.feedbackForm
                              FeedbackPage.setSubmitting];
          now rewrite Hform, Hform1|].
  split; [now rewrite Hst|].
  rewrite Hpending. split.
  - intros v Hv. destruct (Hsound v Hv) as [r [Hr [Hawr Hshow]]].
    rewrite Haw in Hawr. apply andb_true_iff in Hawr.
    destruct Hawr as [Hawr Hne]. apply negb_true_iff in Hne.
    apply String.eqb_neq in Hne. split.
    + destruct Hshow as [Hid _]. rewrite Hid. congruence.
    + exists r. split; [|now split].
      rewrite Hdb in Hr. exact Hr.
  - intros r Hr Hawr Hne. apply Hcomplete.
    + rewrite Hdb. exact Hr.
    + rewrite Haw, Hawr. cbn [andb]. apply negb_true_iff.
      apply String.eqb_neq. congruence.
Qed.

Lemma reviewed_swap_leaves_pending_list_witness :
  Forall (fun v => FeedbackPage.AcceptedSwapRequest.id v <> "r1")
    (FeedbackPage.pendingFeedback
       (snd (fst (FeedbackPage.submitFeedback Scenario.env Scenario.alice
                    (Scenario.db accepted []) Scenario.reviewing)))).
Proof.
  destruct (reviewed_swap_leaves_pending_list Scenario.env Scenario.alice
              (Scenario.db accepted []) Scenario.reviewing)
    as [_ [_ [H _]]].
  - left. reflexivity.
  - intros k _. reflexivity.
  - apply Forall_forall. intros v Hv. exact (proj1 (H v Hv)).
Defined.

(** The list of received feedback of a page loaded from [db]. *)
Lemma my_feedback_entries (env : Env) (uid : uuid) (db : Database)
  (st : FeedbackPage.State) :
  (forall k, k < 2 -> net env k = None) ->
  let shown :=
    FeedbackPage.myFeedback (FeedbackPage.fetchMyFeedback env uid db st) in
  newest_first FeedbackPage.FeedbackView.created_at shown
  /\ (forall w,
        In w shown ->
        exists f,
          In f (feedback db) /\ Feedback.reviewee_id f = uid
          /\ presents w f)
  /\ (forall f,
        In f (feedback db) ->
        Feedback.reviewee_id f = uid ->
        exists w, In w shown /\ presents w f).
Proof.
  intros Honline shown. subst shown.
  unfold FeedbackPage.fetchMyFeedback, Supabase.feedback_about,
    Supabase.profiles_in, Supabase.select.
  rewrite (Honline 0), (Honline 1) by lia.
  cbn [FeedbackPage.myFeedback FeedbackPage.setMyFeedback].
  set (pm := profilesMap _).
  assert (Hin : forall f,
            In f (order_desc Feedback.created_at
                    (filter
                       (fun r =>
                          Policy.feedback_select uid r
                          && String.eqb (Feedback.reviewee_id r) uid)
                       (feedback db)))
            <-> In f (feedback db) /\ Feedback.reviewee_id f = uid).
  { intros f. rewrite order_desc_In, filter_In, andb_true_iff.
    unfold Policy.feedback_select.
    rewrite orb_true_iff, !String.eqb_eq. intuition auto. }
  split; [|split].
  - apply (newest_first_map Feedback.created_at); [reflexivity|].
    apply order_desc_sorted.
  - intros w Hw. apply in_map_iff in Hw. destruct Hw as [f [<- Hf]].
    apply Hin in Hf. exists f. split; [tauto|]. split; [tauto|].
    repeat split.
  - intros f Hf Hu. exists (FeedbackPage.transformFeedback pm f).
    split; [|repeat split]. apply in_map. apply Hin. now split.
Qed.

(** X12: the list of received feedback.  When its two queries are
    answered, [fetchMyFeedback] fills the list with exactly the stored
    feedback whose reviewee is the user, newest first, and leaves the rest
    of the page as it is; feedback the user has given is not listed. *)
Theorem my_feedback_list (env : Env) (uid : uuid) (db : Database)
  (st : FeedbackPage.State) :
  (forall k, k < 2 -> net env k = None) ->
  let st' := FeedbackPage.fetchMyFeedback env uid db st in
  newest_first FeedbackPage.FeedbackView.created_at
    (FeedbackPage.myFeedback st')
  /\ (forall w,
        In w (FeedbackPage.myFeedback st') ->
        exists f,
          In f (feedback db) /\ Feedback.reviewee_id f = uid
          /\ presents w f)
  /\ (forall f,
        In f (feedback db) ->
        Feedback.reviewee_id f = uid ->
        exists w, In w (FeedbackPage.myFeedback st') /\ presents w f)
  /\ FeedbackPage.acceptedSwaps st' = FeedbackPage.acceptedSwaps st
  /\ FeedbackPage.feedbackForm st' = FeedbackPage.feedbackForm st.
Proof.
  intros Honline st'.
  destruct (my_feedback_entries env uid db st Honline) as [H1 [H2 H3]].
  destruct (fetchMyFeedback_frame env uid db st) as [H4 [H5 _]].
  repeat split; assumption.
Qed.

Lemma my_feedback_list_witness :
  let f1 :=
    {| Feedback.id := "f1"; Feedback.swap_request_id := "r1";
       Feedback.reviewer_id := Scenario.bob;
       Feedback.reviewee_id := Scenario.alice; Feedback.rating := 4%Z;
       Feedback.comment := None; Feedback.created_at := 15 |} in
  exists w,
    In w (FeedbackPage.myFeedback
            (FeedbackPage.fetchMyFeedback Scenario.env Scenario.alice
               (Scenario.db accepted [f1]) FeedbackPage.initial))
    /\ FeedbackPage.FeedbackView.rating w = 4%Z.
Proof.
  intros f1.
  destruct (my_feedback_list Scenario.env Scenario.alice
              (Scenario.db accepted [f1]) FeedbackPage.initial)
    as [_ [_ [H _]]]; [intros k _; reflexivity|].
  destruct (H f1) as [w [Hw Hp]]; [left; reflexivity | reflexivity|].
  exists w. split; [exact Hw|]. destruct Hp as [_ [Hr _]]. exact Hr.
Defined.

(** X13: submitted feedback reaches the reviewee.  When [submitFeedback]
    announces that the feedback was submitted, the feedback page of the
    user named as reviewee, once loaded, lists it: with the new id, the
    rating chosen (a number from 1 to 5), the comment typed, the time of
    the submission, and the submitting user as reviewer. *)
Theorem submitted_feedback_reaches_reviewee (env env2 : Env) (uid : uuid)
  (db : Database) (st st2 : FeedbackPage.State) :
  let out := FeedbackPage.submitFeedback env uid db st in
  let form := FeedbackPage.feedbackForm st in
  In feedback_submitted (snd out) ->
  (forall k, k < 2 -> net env2 k = None) ->
  exists w n,
    In w (FeedbackPage.myFeedback
            (FeedbackPage.fetchMyFeedback env2
               (FeedbackPage.Form.revieweeId form) (fst (fst out)) st2))
    /\ FeedbackPage.FeedbackView.id w = fresh env 0
    /\ FeedbackPage.FeedbackView.rating w = n
    /\ Text.parseInt (FeedbackPage.Form.rating form) = Some n
    /\ (1 <= n <= 5)%Z
    /\ FeedbackPage.FeedbackView.comment w
       = Some (FeedbackPage.Form.comment form)
    /\ FeedbackPage.FeedbackView.created_at w = now env
    /\ Party.id (FeedbackPage.FeedbackView.reviewer w) = uid
    /\ Party.id (FeedbackPage.FeedbackView.reviewee w)
       = FeedbackPage.Form.revieweeId form.
Proof.
  intros out form Hok Honline.
  destruct (submitFeedback_success env uid db st Hok)
    as [n [Hn [Hrange [_ [_ [_ [_ [Hdb _]]]]]]]].
  fold out in Hdb. fold form in Hn, Hdb.
  set (row := Supabase.stored _ _ _ _) in Hdb.
  destruct (my_feedback_entries env2 (FeedbackPage.Form.revieweeId form)
              (fst (fst out)) st2 Honline) as [_ [_ Hshown]].
  destruct (Hshown row) as [w [Hw Hp]].
  { rewrite Hdb. cbn [feedback with_feedback].
    apply in_or_app. right. now left. }
  { reflexivity. }
  destruct Hp as [H1 [H2 [H3 [H4 [H5 H6]]]]].
  exists w, n. split; [exact Hw|].
  apply andb_true_iff in Hrange. destruct Hrange as [Hlo Hhi].
  apply Z.leb_le in Hlo, Hhi.
  repeat split; try assumption; try lia.
Qed.

Lemma submitted_feedback_reaches_reviewee_witness :
  exists w,
    In w (FeedbackPage.myFeedback
            (FeedbackPage.fetchMyFeedback Scenario.env Scenario.bob
               (fst (fst (FeedbackPage.submitFeedback Scenario.env
                            Scenario.alice (Scenario.db accepted [])
                            Scenario.reviewing)))
               FeedbackPage.initial))
    /\ FeedbackPage.FeedbackView.rating w = 5%Z.
Proof.
  destruct (submitted_feedback_reaches_reviewee Scenario.env Scenario.env
              Scenario.alice (Scenario.db accepted []) Scenario.reviewing
              FeedbackPage.initial)
    as [w [n [Hw [_ [Hr [Hn _]]]]]].
  - left. reflexivity.
  - intros k _. reflexivity.
  - exists w. split; [exact Hw|]. rewrite Hr.
    vm_compute in Hn. now inversion Hn.
Defined.

(** ** Skills: adding and removing *)

Local Ltac refused :=
  let H := fresh in intros H; simpl in H; discriminate H.

(** What has happened when [addSkill] announces that the skill was added. *)
Lemma addSkill_success (env : Env) (uid : uuid) (type : SkillType)
  (db : Database) (st : SkillsPage.State) :
  let out := SkillsPage.addSkill env uid type db st in
  let st' := snd (fst out) in
  let name := SkillsPage.newSkillName st in
  map title (snd out) = ["Skill added"] ->
  exists skill db1,
    ~ blank name
    /\ ((SkillsPage.findSkill st = Some skill /\ db1 = db
         /\ SkillsPage.allSkills st' = SkillsPage.allSkills st)
        \/ (SkillsPage.findSkill st = None
            /\ skill = SkillsPage.Skill.of_row (new_skill env name)
            /\ db1 = with_skills (skills db ++ [new_skill env name]) db
            /\ SkillsPage.allSkills st' = SkillsPage.allSkills st ++ [skill]))
    /\ fst (fst out)
       = with_user_skills
           (user_skills db
            ++ [new_link env uid (SkillsPage.Skill.id skill) type])
           db1
    /\ SkillsPage.userSkills st'
       = SkillsPage.userSkills st
         ++ [SkillsPage.formatted
               (new_link env uid (SkillsPage.Skill.id skill) type,
                Supabase.embed_skill uid db1
                  (new_link env uid (SkillsPage.Skill.id skill) type))]
    /\ SkillsPage.newSkillName st' = ""
    /\ SkillsPage.adding st' = false
    /\ In uid (auth_users db)
    /\ In (SkillsPage.Skill.id skill) (map Skills.id (skills db1)).
Proof.
  cbv zeta. unfold SkillsPage.addSkill.
  destruct (Text.truthy (Text.trim (SkillsPage.newSkillName st))) eqn:Hname;
    cbn [negb]; [|refused].
  assert (Hname' : ~ blank (SkillsPage.newSkillName st)).
  { intros Hb. apply truthy_trim_blank in Hb. congruence. }
  unfold SkillsPage.findOrCreateSkill.
  change (SkillsPage.findSkill (SkillsPage.setAdding true st))
    with (SkillsPage.findSkill st).
  destruct (SkillsPage.findSkill st) as [skill|] eqn:Hfind.
  - unfold Supabase.user_skills_insert.
    destruct (net env 1); [refused|].
    unfold Policy.user_skills_all. cbn [UserSkills.user_id].
    rewrite String.eqb_refl. cbn [negb].
    destruct (existsb _ (user_skills db)); [refused|].
    destruct (mem uid (auth_users db)) eqn:H1; cbn [negb]; [|refused].
    destruct (mem _ (map Skills.id (skills db))) eqn:H2; cbn [negb];
      [|refused].
    intros _. apply mem_In in H1, H2. exists skill, db.
    split; [assumption|]. split; [left; repeat split|].
    repeat split; assumption.
  - unfold Supabase.skills_insert.
    destruct (net env 0); [refused|].
    unfold Policy.skills_insert. cbn [negb].
    destruct (existsb _ (skills db)); [refused|].
    unfold Supabase.user_skills_insert.
    destruct (net env 1); [refused|].
    unfold Policy.user_skills_all. cbn [UserSkills.user_id].
    rewrite String.eqb_refl.
    cbn [negb user_skills auth_users skills with_skills].
    destruct (existsb _ (user_skills db)); [refused|].
    destruct (mem uid (auth_users db)) eqn:H1; cbn [negb]; [|refused].
    destruct (mem _ (map Skills.id _)) eqn:H2; cbn [negb]; [|refused].
    intros _. apply mem_In in H1, H2.
    exists (SkillsPage.Skill.of_row
              (new_skill env (SkillsPage.newSkillName st))),
      (with_skills
         (skills db ++ [new_skill env (SkillsPage.newSkillName st)]) db).
    split; [assumption|]. split; [right; repeat split|].
    repeat split; assumption.
Qed.

(** X14: [removeSkill] removes nothing but links of the signed-in user
    with the given id.  Whatever id it is given and whatever the backend
    answers, the rows of [user_skills] afterwards are rows that were
    there, every row of another user and every row with another id is
    still there, and all the other tables (the skills too) are as they
    were. *)
Theorem remove_skill_own_rows_only (env : Env) (uid userSkillId : uuid)
  (db : Database) (st : SkillsPage.State) :
  let db' := fst (fst (SkillsPage.removeSkill env uid userSkillId db st)) in
  (forall r,
     In r (user_skills db') ->
     In r (user_skills db))
  /\ (forall r,
        In r (user_skills db) ->
        UserSkills.user_id r <> uid \/ UserSkills.id r <> userSkillId ->
        In r (user_skills db'))
  /\ with_user_skills (user_skills db) db' = db.
Proof.
  cbv zeta. unfold SkillsPage.removeSkill, Supabase.user_skills_delete.
  destruct (net env 0); cbn [fst user_skills with_user_skills].
  - repeat split; auto. now destruct db.
  - split; [|split].
    + intros r Hr. apply filter_In in Hr. tauto.
    + intros r Hr Hne. apply filter_In. split; [assumption|].
      apply negb_true_iff. unfold Policy.user_skills_all.
      rewrite !andb_false_iff, !String.eqb_neq. intuition auto.
    + now destruct db.
Qed.

Lemma remove_last_link (uid x : uuid) (row : UserSkills.row)
  (rows : list UserSkills.row) :
  UserSkills.id row = x ->
  UserSkills.user_id row = uid ->
  ~ In x (map UserSkills.id rows) ->
  filter
    (fun r =>
       negb (String.eqb (UserSkills.id r) x
             && Policy.user_skills_select uid r
             && Policy.user_skills_all uid r))
    (rows ++ [row])
  = rows.
Proof.
  intros Hid Hu Hfresh. rewrite filter_app. cbn [filter].
  unfold Policy.user_skills_all, Policy.user_skills_select.
  rewrite Hid, Hu, !String.eqb_refl. cbn [andb negb].
  rewrite app_nil_r. apply filter_all. intros r Hr.
  apply negb_true_iff. rewrite !andb_false_iff, String.eqb_neq.
  left. left. intros E. apply Hfresh. rewrite <- E. now apply in_map.
Qed.

(** X15: a skill added and then removed.  When [addSkill] has announced
    that the skill was added, the entry it appended to the page carries the
    id of the new link; removing it (the backend answering, the id being
    one that no older link has) puts the [user_skills] table and the
    page's list back to what they were before the add.  The skill itself,
    created or not by the add, stays in [skills]. *)
Theorem add_then_remove_skill (env env2 : Env) (uid : uuid)
  (type : SkillType) (db : Database) (st : SkillsPage.State) :
  let added := SkillsPage.addSkill env uid type db st in
  let removed :=
    SkillsPage.removeSkill env2 uid (fresh env 1) (fst (fst added))
      (snd (fst added)) in
  map title (snd added) = ["Skill added"] ->
  net env2 0 = None ->
  ~ In (fresh env 1) (map UserSkills.id (user_skills db)) ->
  ~ In (fresh env 1)
      (map SkillsPage.UserSkill.id (SkillsPage.userSkills st)) ->
  map SkillsPage.UserSkill.id (SkillsPage.userSkills (snd (fst added)))
  = map SkillsPage.UserSkill.id (SkillsPage.userSkills st) ++ [fresh env 1]
  /\ user_skills (fst (fst removed)) = user_skills db
  /\ SkillsPage.userSkills (snd (fst removed)) = SkillsPage.userSkills st
  /\ skills (fst (fst removed)) = skills (fst (fst added))
  /\ (forall s, In s (skills db) -> In s (skills (fst (fst removed))))
  /\ map title (snd removed) = ["Skill removed"].
Proof.
  intros added removed Hok Hnet Hfresh Hfresh'.
  destruct (addSkill_success env uid type db st Hok)
    as [skill [db1 [_ [Hcase [Hdb [Hst _]]]]]].
  fold added in Hdb, Hst.
  assert (Hskills : forall s, In s (skills db) -> In s (skills db1)).
  { destruct Hcase as [[_ [-> _]] | [_ [_ [-> _]]]]; [auto|].
    intros s Hs. cbn [skills with_skills]. apply in_or_app. now left. }
  subst removed. unfold SkillsPage.removeSkill, Supabase.user_skills_delete.
  rewrite Hnet, Hdb, Hst.
  cbn [fst snd user_skills skills with_user_skills SkillsPage.userSkills
    SkillsPage.setUserSkills map].
  split; [now rewrite map_app|].
  split; [now apply remove_last_link|].
  split; [|split; [reflexivity | split; [assumption | reflexivity]]].
  rewrite filter_app. cbn [filter SkillsPage.formatted fst
    SkillsPage.UserSkill.id new_link UserSkills.id].
  rewrite String.eqb_refl. cbn [negb]. rewrite app_nil_r.
  apply filter_all. intros v Hv. apply negb_true_iff, String.eqb_neq.
  intros E. apply Hfresh'. rewrite <- E. now apply in_map.
Qed.

Lemma add_then_remove_skill_witness :
  let added :=
    SkillsPage.addSkill Scenario.env Scenario.alice wanted
      (Scenario.db pending []) (Scenario.entering Scenario.alice "Piano") in
  let removed :=
    SkillsPage.removeSkill Scenario.env Scenario.alice
      (fresh Scenario.env 1) (fst (fst added)) (snd (fst added)) in
  user_skills (fst (fst removed)) = user_skills (Scenario.db pending [])
  /\ map Skills.name (skills (fst (fst removed)))
     = ["Guitar"; "Spanish"; "Piano"].
Proof.
  intros added removed.
  destruct (add_then_remove_skill Scenario.env Scenario.env Scenario.alice
              wanted (Scenario.db pending [])
              (Scenario.entering Scenario.alice "Piano"))
    as [_ [H [_ [Hs _]]]].
  - reflexivity.
  - reflexivity.
  - simpl. intuition discriminate.
  - simpl. intuition discriminate.
  - split; [exact H|]. subst removed added. rewrite Hs. reflexivity.
Defined.

(** X16: the same skill is not added twice in the same direction.  When
    [addSkill] has announced that the skill was added and the same name is
    entered again for the same direction, the second attempt adds nothing,
    whatever the backend does: the database and the page's list of the
    user's skills stay as the first add left them, and one error
    notification is shown.  When the backend answers, the error is a
    uniqueness violation. *)
Theorem same_skill_twice_refused (env env2 : Env) (uid : uuid)
  (type : SkillType) (db : Database) (st : SkillsPage.State) :
  let first := SkillsPage.addSkill env uid type db st in
  let again :=
    SkillsPage.setNewSkillName (SkillsPage.newSkillName st)
      (snd (fst first)) in
  let second := SkillsPage.addSkill env2 uid type (fst (fst first)) again in
  map title (snd first) = ["Skill added"] ->
  fst (fst second) = fst (fst first)
  /\ SkillsPage.userSkills (snd (fst second))
     = SkillsPage.userSkills (snd (fst first))
  /\ exists e,
       snd second = [error_toast "Error adding skill" e]
       /\ (net env2 0 = None -> net env2 1 = None ->
           code e = unique_violation).
Proof.
  intros first again second Hok.
  destruct (addSkill_success env uid type db st Hok)
    as [skill [db1 [Hname [Hcase [Hdb [Hst [_ [_ [_ Hskill]]]]]]]]].
  fold first in Hcase, Hdb, Hst.
  set (db' := fst (fst first)) in *. set (st' := snd (fst first)) in *.
  assert (Htruthy : Text.truthy (Text.trim (SkillsPage.newSkillName st))
                    = true).
  { destruct (Text.truthy _) eqn:E; [reflexivity|].
    exfalso. now apply Hname, truthy_trim_blank. }
  (* the link is stored: a second one is refused *)
  assert (Hlink : forall id,
            Supabase.user_skills_insert (net env2 1) id uid uid
              (SkillsPage.Skill.id skill) type db'
            = (inl match net env2 1 with
                   | Some m => Supabase.fetch_error m
                   | None =>
                       Supabase.unique_error
                         "user_skills_user_id_skill_id_skill_type_key"
                   end, db')).
  { intros id. unfold Supabase.user_skills_insert.
    destruct (net env2 1); [reflexivity|].
    unfold Policy.user_skills_all. cbn [UserSkills.user_id].
    rewrite String.eqb_refl. cbn [negb]. rewrite Hdb.
    cbn [user_skills with_user_skills]. rewrite existsb_app.
    cbn [existsb new_link UserSkills.user_id UserSkills.skill_id
      UserSkills.skill_type].
    rewrite !String.eqb_refl.
    replace (SkillType_eqb type type) with true by (now destruct type).
    cbn [andb orb]. now rewrite orb_true_r. }
  assert (Hfound : SkillsPage.findSkill again = Some skill ->
            second
            = (db', SkillsPage.setAdding false
                      (SkillsPage.setAdding true again),
               [error_toast "Error adding skill"
                  match net env2 1 with
                  | Some m => Supabase.fetch_error m
                  | None =>
                      Supabase.unique_error
                        "user_skills_user_id_skill_id_skill_type_key"
                  end])).
  { intros Hfind. subst second. unfold SkillsPage.addSkill.
    change (SkillsPage.newSkillName again)
      with (SkillsPage.newSkillName st).
    rewrite Htruthy. cbn [negb]. unfold SkillsPage.findOrCreateSkill.
    change (SkillsPage.findSkill (SkillsPage.setAdding true again))
      with (SkillsPage.findSkill again).
    rewrite Hfind. now rewrite Hlink. }
  assert (Hdone : SkillsPage.findSkill again = Some skill ->
            fst (fst second) = db'
            /\ SkillsPage.userSkills (snd (fst second))
               = SkillsPage.userSkills st'
            /\ exists e,
                 snd second = [error_toast "Error adding skill" e]
                 /\ (net env2 0 = None -> net env2 1 = None ->
                     code e = unique_violation)).
  { intros Hfind. rewrite (Hfound Hfind). cbn [fst snd].
    split; [reflexivity|]. split; [reflexivity|].
    eexists. split; [reflexivity|]. intros _ ->. reflexivity. }
  destruct Hcase as [[Hfind [_ Hall]] | [Hfind [Hnew [Hdb1 Hall]]]].
  - apply Hdone. unfold SkillsPage.findSkill.
    change (SkillsPage.allSkills again) with (SkillsPage.allSkills st').
    rewrite Hall. exact Hfind.
  - destruct (String.eqb
                (Text.toLowerCase (SkillsPage.Skill.name skill))
                (Text.toLowerCase (SkillsPage.newSkillName st))) eqn:Hsame.
    + apply Hdone. unfold SkillsPage.findSkill.
      change (SkillsPage.allSkills again) with (SkillsPage.allSkills st').
      change (SkillsPage.newSkillName again)
        with (SkillsPage.newSkillName st).
      rewrite Hall, find_append. unfold SkillsPage.findSkill in Hfind.
      rewrite Hfind. cbn [find]. now rewrite Hsame.
    + assert (Hnone : SkillsPage.findSkill again = None).
      { unfold SkillsPage.findSkill.
        change (SkillsPage.allSkills again) with (SkillsPage.allSkills st').
        change (SkillsPage.newSkillName again)
          with (SkillsPage.newSkillName st).
        rewrite Hall, find_append. unfold SkillsPage.findSkill in Hfind.
        rewrite Hfind. cbn [find]. now rewrite Hsame. }
      subst second. unfold SkillsPage.addSkill.
      change (SkillsPage.newSkillName again)
        with (SkillsPage.newSkillName st).
      rewrite Htruthy. cbn [negb]. unfold SkillsPage.findOrCreateSkill.
      change (SkillsPage.findSkill (SkillsPage.setAdding true again))
        with (SkillsPage.findSkill again).
      rewrite Hnone.
      change (SkillsPage.newSkillName (SkillsPage.setAdding true again))
        with (SkillsPage.newSkillName st).
      unfold Supabase.skills_insert.
      destruct (net env2 0) as [m|].
      { cbn [fst snd]. split; [reflexivity|]. split; [reflexivity|].
        eexists. split; [reflexivity|]. discriminate. }
      unfold Policy.skills_insert. cbn [negb].
      assert (Hstored : existsb
                (fun s =>
                   String.eqb (Skills.name s)
                     (Text.trim (SkillsPage.newSkillName st)))
                (skills db') = true).
      { rewrite Hdb, Hdb1. cbn [skills with_user_skills with_skills].
        rewrite existsb_app. cbn [existsb new_skill Skills.name].
        rewrite String.eqb_refl. cbn [orb]. now rewrite orb_true_r. }
      rewrite Hstored. cbn [fst snd].
      split; [reflexivity|]. split; [reflexivity|].
      eexists. split; [reflexivity|]. reflexivity.
Qed.

Lemma same_skill_twice_refused_witness :
  let first :=
    SkillsPage.addSkill Scenario.env Scenario.alice wanted
      (Scenario.db pending []) (Scenario.entering Scenario.alice " Piano") in
  let second :=
    SkillsPage.addSkill Scenario.env Scenario.alice wanted (fst (fst first))
      (SkillsPage.setNewSkillName " Piano" (snd (fst first))) in
  fst (fst second) = fst (fst first)
  /\ map description (snd second)
     = ["duplicate key value violates unique constraint skills_name_key"].
Proof.
  intros first second.
  destruct (same_skill_twice_refused Scenario.env Scenario.env
              Scenario.alice wanted (Scenario.db pending [])
              (Scenario.entering Scenario.alice " Piano"))
    as [H _]; [reflexivity|].
  split; [exact H | reflexivity].
Defined.

(** ** Skills: the page and the database *)

(** What [fetchUserSkills] loads when its query is answered: the links of
    the user, in the order the backend returns them. *)
Lemma fetchUserSkills_online (env : Env) (uid : uuid) (db : Database)
  (st : SkillsPage.State) :
  net env 0 = None ->
  SkillsPage.userSkills (fst (SkillsPage.fetchUserSkills env uid db st))
  = map (fun r => SkillsPage.formatted (r, Supabase.embed_skill uid db r))
      (arrange env
         (filter (fun r => String.eqb (UserSkills.user_id r) uid)
            (user_skills db))).
Proof.
  intros Hnet.
  unfold SkillsPage.fetchUserSkills, Supabase.user_skills_of,
    Supabase.select.
  rewrite Hnet. cbn [fst SkillsPage.userSkills SkillsPage.setLoading
    SkillsPage.setUserSkills].
  now rewrite map_map.
Qed.

Lemma fetchUserSkills_links (env : Env) (uid : uuid) (db : Database)
  (st : SkillsPage.State) :
  net env 0 = None ->
  Permutation
    (SkillsPage.userSkills (fst (SkillsPage.fetchUserSkills env uid db st)))
    (map (fun r => SkillsPage.formatted (r, Supabase.embed_skill uid db r))
       (filter (fun r => String.eqb (UserSkills.user_id r) uid)
          (user_skills db))).
Proof.
  intros Hnet. rewrite (fetchUserSkills_online env uid db st Hnet).
  apply Permutation_map, arranged.
Qed.

Lemma filter_rearranged {A} (f : A -> bool) (l l' : list A) :
  Permutation l l' -> Permutation (filter f l) (filter f l').
Proof.
  induction 1 as [|x l l' _ IH|x y l|l l' l'' _ IH1 _ IH2]; simpl.
  - constructor.
  - destruct (f x); [now constructor | assumption].
  - destruct (f x), (f y); try reflexivity. apply perm_swap.
  - now transitivity (filter f l').
Qed.

(** A skill that is stored is still embedded once more skills are. *)
Lemma embed_skill_more (uid : uuid) (db : Database) (more : list Skills.row)
  (r : UserSkills.row) :
  In (UserSkills.skill_id r) (map Skills.id (skills db)) ->
  Supabase.embed_skill uid (with_skills (skills db ++ more) db) r
  = Supabase.embed_skill uid db r.
Proof.
  intros Hin. unfold Supabase.embed_skill. cbn [skills with_skills].
  rewrite find_append.
  destruct (find _ (skills db)) eqn:Hfind; [reflexivity|].
  exfalso. apply in_map_iff in Hin. destruct Hin as [s [Hs Hin]].
  apply (find_none _ _ Hfind) in Hin.
  rewrite Hs, String.eqb_refl in Hin. discriminate.
Qed.

Lemma removal_commutes (uid x : uuid)
  (F : UserSkills.row -> SkillsPage.UserSkill.t)
  (rows : list UserSkills.row) :
  (forall r, SkillsPage.UserSkill.id (F r) = UserSkills.id r) ->
  filter (fun s => negb (String.eqb (SkillsPage.UserSkill.id s) x))
    (map F (filter (fun r => String.eqb (UserSkills.user_id r) uid) rows))
  = map F
      (filter (fun r => String.eqb (UserSkills.user_id r) uid)
         (filter
            (fun r =>
               negb (String.eqb (UserSkills.id r) x
                     && Policy.user_skills_select uid r
                     && Policy.user_skills_all uid r))
            rows)).
Proof.
  intros HF. unfold Policy.user_skills_select, Policy.user_skills_all.
  induction rows as [|r rows IH]; [reflexivity|].
  cbn [filter].
  destruct (String.eqb (UserSkills.user_id r) uid) eqn:Hu.
  - apply String.eqb_eq in Hu. cbn [map filter]. rewrite HF, Hu.
    rewrite String.eqb_refl, andb_true_r, andb_true_r.
    destruct (String.eqb (UserSkills.id r) x); cbn [negb filter].
    + exact IH.
    + rewrite Hu, String.eqb_refl. cbn [map]. now rewrite IH.
  - assert (Hu' : String.eqb uid (UserSkills.user_id r) = false).
    { apply String.eqb_neq. apply String.eqb_neq in Hu. congruence. }
    rewrite Hu', andb_false_r. cbn [negb filter]. now rewrite Hu.
Qed.

(** X17: the skills page stays in step with the database.  Let the page
    list the user's skills that [fetchUserSkills] loads from the database
    (in any order: the query names none), every stored link referring to a
    stored skill.  After an [addSkill] that announces the skill as added,
    and after a [removeSkill] that the backend has answered, the page lists
    again the entries [fetchUserSkills] would load from the database as it
    is then, each as often: the local update and a reload agree but for
    the order. *)
Theorem skills_page_in_step (env0 env env' : Env) (uid : uuid)
  (db : Database) (st st0 st1 : SkillsPage.State) :
  net env0 0 = None ->
  net env' 0 = None ->
  (forall r, In r (user_skills db) ->
     In (UserSkills.skill_id r) (map Skills.id (skills db))) ->
  Permutation (SkillsPage.userSkills st)
    (SkillsPage.userSkills (fst (SkillsPage.fetchUserSkills env0 uid db st0)))
  ->
  (forall type,
     let added := SkillsPage.addSkill env uid type db st in
     map title (snd added) = ["Skill added"] ->
     Permutation (SkillsPage.userSkills (snd (fst added)))
       (SkillsPage.userSkills
          (fst (SkillsPage.fetchUserSkills env' uid (fst (fst added)) st1))))
  /\ (forall userSkillId,
        let removed := SkillsPage.removeSkill env uid userSkillId db st in
        net env 0 = None ->
        Permutation (SkillsPage.userSkills (snd (fst removed)))
          (SkillsPage.userSkills
             (fst (SkillsPage.fetchUserSkills env' uid (fst (fst removed))
                     st1)))).
Proof.
  intros Hnet0 Hnet' Hfk Hloaded.
  rewrite (fetchUserSkills_links env0 uid db st0 Hnet0) in Hloaded.
  split.
  - intros type added Hok.
    destruct (addSkill_success env uid type db st Hok)
      as [skill [db1 [_ [Hcase [Hdb [Hst _]]]]]].
    fold added in Hdb, Hst.
    rewrite (fetchUserSkills_links env' uid _ st1 Hnet'), Hst, Hdb.
    cbn [user_skills with_user_skills]. rewrite filter_app, map_app.
    cbn [filter new_link UserSkills.user_id]. rewrite String.eqb_refl.
    cbn [map]. apply Permutation_app; [|reflexivity].
    rewrite Hloaded.
    replace (map _ (filter _ (user_skills db)))
      with (map
              (fun r =>
                 SkillsPage.formatted
                   (r,
                    Supabase.embed_skill uid
                      (with_user_skills
                         (user_skills db
                          ++ [new_link env uid (SkillsPage.Skill.id skill)
                                type])
                         db1)
                      r))
              (filter (fun r => String.eqb (UserSkills.user_id r) uid)
                 (user_skills db))); [reflexivity|].
    apply map_ext_in. intros r Hr. apply filter_In in Hr.
    destruct Hr as [Hr _]. f_equal. f_equal.
    destruct Hcase as [[_ [-> _]] | [_ [_ [-> _]]]]; [reflexivity|].
    apply (embed_skill_more uid db _ r (Hfk r Hr)).
  - intros x removed Hnet.
    rewrite (fetchUserSkills_links env' uid _ st1 Hnet').
    subst removed.
    unfold SkillsPage.removeSkill, Supabase.user_skills_delete.
    rewrite Hnet. cbn [fst snd SkillsPage.userSkills SkillsPage.setUserSkills
      user_skills with_user_skills].
    rewrite (filter_rearranged _ _ _ Hloaded).
    now rewrite (removal_commutes uid x
                   (fun r =>
                      SkillsPage.formatted
                        (r, Supabase.embed_skill uid db r))).
Qed.

Lemma skills_page_in_step_witness :
  (* the backend returns the links in the reverse of their order in the
     table: the page and a reload list the same three entries *)
  let added :=
    SkillsPage.addSkill Scenario.env Scenario.bob offered
      (Scenario.db pending []) (Scenario.entering Scenario.bob "Guitar") in
  Permutation (SkillsPage.userSkills (snd (fst added)))
    (SkillsPage.userSkills
       (fst (SkillsPage.fetchUserSkills Scenario.backwards Scenario.bob
               (fst (fst added)) SkillsPage.initial)))
  /\ map SkillsPage.UserSkill.id (SkillsPage.userSkills (snd (fst added)))
     = ["us2"; "us3"; "new-1"]
  /\ map SkillsPage.UserSkill.id
       (SkillsPage.userSkills
          (fst (SkillsPage.fetchUserSkills Scenario.backwards Scenario.bob
                  (fst (fst added)) SkillsPage.initial)))
     = ["new-1"; "us3"; "us2"].
Proof.
  intros added.
  destruct (skills_page_in_step Scenario.env Scenario.env Scenario.backwards
              Scenario.bob (Scenario.db pending [])
              (Scenario.entering Scenario.bob "Guitar") SkillsPage.initial
              SkillsPage.initial)
    as [H _].
  - reflexivity.
  - reflexivity.
  - intros r Hr. simpl in Hr.
    destruct Hr as [<- | [<- | [<- | [<- | []]]]]; simpl; tauto.
  - reflexivity.
  - split; [exact (H offered eq_refl) | split; reflexivity].
Defined.

(** ** Profile: saving, signing up *)

Local Abbreviation saved env uid st :=
  (Supabase.upserted (fresh env 0)
     (ProfilePage.profileData uid (ProfilePage.profile st))).

Lemma own_profile_row (uid : uuid) (row : Profiles.row)
  (rows : list Profiles.row) (db : Database) :
  profiles db = rows ++ [row] ->
  Profiles.user_id row = uid ->
  ~ In uid (map Profiles.user_id rows) ->
  Supabase.profiles_maybe_single None uid db = inr (Some row).
Proof.
  intros Hdb Hu Hnone.
  unfold Supabase.profiles_maybe_single, Supabase.select.
  rewrite Hdb, filter_app, (filter_none _ rows).
  - cbn [filter app]. unfold Policy.profiles_select.
    rewrite Hu, String.eqb_refl, orb_true_r. reflexivity.
  - intros p Hp. apply andb_false_iff. right. apply String.eqb_neq.
    intros E. apply Hnone. rewrite <- E. now apply in_map.
Qed.

Lemma find_absent {A} (key : A -> string) (k : string) (l : list A) :
  ~ In k (map key l) -> find (fun a => String.eqb (key a) k) l = None.
Proof.
  intros Hk. destruct (find _ l) as [a|] eqn:Hfind; [|reflexivity].
  apply find_some in Hfind. destruct Hfind as [Ha Hkey].
  apply String.eqb_eq in Hkey. exfalso. apply Hk. rewrite <- Hkey.
  now apply in_map.
Qed.

Lemma existsb_key {A} (key : A -> string) (k : string) (l : list A) :
  existsb (fun a => String.eqb (key a) k) l = true <-> In k (map key l).
Proof.
  rewrite existsb_exists, in_map_iff. split.
  - intros [a [Ha E]]. apply String.eqb_eq in E. eauto.
  - intros [a [E Ha]]. exists a. split; [assumption|].
    now apply String.eqb_eq.
Qed.

(** [upsert] of the form of [handleSubmit], the id drawn being new. *)
Lemma profiles_upsert_fresh (env : Env) (uid : uuid) (db : Database)
  (st : ProfilePage.State) :
  net env 0 = None ->
  ~ In (fresh env 0) (map Profiles.id (profiles db)) ->
  Supabase.profiles_upsert (net env 0) (fresh env 0) uid
    (ProfilePage.profileData uid (ProfilePage.profile st)) db
  = if existsb (fun p => String.eqb (Profiles.user_id p) uid) (profiles db)
    then (Some (Supabase.unique_error "profiles_user_id_key"), db)
    else if negb (mem uid (auth_users db))
    then (Some (Supabase.fkey_error "profiles_user_id_fkey"), db)
    else (None, with_profiles (profiles db ++ [saved env uid st]) db).
Proof.
  intros Hnet Hfresh. unfold Supabase.profiles_upsert. rewrite Hnet.
  unfold Policy.profiles_insert.
  cbn [Supabase.upserted Profiles.user_id ProfilePage.profileData
    Supabase.user_id].
  rewrite String.eqb_refl. cbn [negb].
  now rewrite (find_absent Profiles.id _ _ Hfresh).
Qed.

(** X18: saving the profile works once.  [handleSubmit] hands the form to
    [upsert] without the id of the row and without naming [user_id] as the
    conflict target, so the backend takes it for a new row.  When the
    backend answers and the id it draws is not in use: if the user has no
    profile row yet (and is registered), the row is stored, the success is
    announced, and [fetchProfile] then loads what was saved; if the user
    has a profile row, the save is refused with the uniqueness error of
    [user_id], nothing is stored and the error is shown. *)
Theorem profile_saved_once (env env2 : Env) (uid : uuid) (db : Database)
  (st st2 : ProfilePage.State) :
  net env 0 = None ->
  net env2 0 = None ->
  ~ In (fresh env 0) (map Profiles.id (profiles db)) ->
  let out := ProfilePage.handleSubmit env uid db st in
  (In uid (map Profiles.user_id (profiles db)) ->
   out
   = (db, ProfilePage.setSaving false st,
      [error_toast "Error updating profile"
         (Supabase.unique_error "profiles_user_id_key")]))
  /\ (~ In uid (map Profiles.user_id (profiles db)) ->
      In uid (auth_users db) ->
      out
      = (with_profiles (profiles db ++ [saved env uid st]) db,
         ProfilePage.setSaving false st,
         [{| title := "Profile updated";
             description := "Your profile has been saved successfully.";
             variant := default |}])
      /\ ProfilePage.fetchProfile env2 uid (fst (fst out)) st2
         = (ProfilePage.setLoading false
              (ProfilePage.setProfile
                 {| ProfilePage.Profile.id := fresh env 0;
                    ProfilePage.Profile.display_name :=
                      ProfilePage.Profile.display_name
                        (ProfilePage.profile st);
                    ProfilePage.Profile.location :=
                      ProfilePage.Profile.location (ProfilePage.profile st);
                    ProfilePage.Profile.availability :=
                      ProfilePage.Profile.availability
                        (ProfilePage.profile st);
                    ProfilePage.Profile.is_public :=
                      ProfilePage.Profile.is_public (ProfilePage.profile st);
                    ProfilePage.Profile.avatar_url :=
                      ProfilePage.Profile.avatar_url
                        (ProfilePage.profile st) |}
                 st2),
            [])).
Proof.
  intros Hnet Hnet2 Hfresh out.
  subst out. unfold ProfilePage.handleSubmit.
  rewrite (profiles_upsert_fresh env uid db st Hnet Hfresh). split.
  - intros Hhas. apply (existsb_key Profiles.user_id) in Hhas.
    now rewrite Hhas.
  - intros Hnone Hreg.
    assert (Hex : existsb (fun p => String.eqb (Profiles.user_id p) uid)
                    (profiles db) = false).
    { destruct (existsb _ _) eqn:E; [|reflexivity].
      apply (existsb_key Profiles.user_id) in E. contradiction. }
    apply mem_In in Hreg. rewrite Hex, Hreg. cbn [negb fst snd].
    split; [reflexivity|].
    unfold ProfilePage.fetchProfile. rewrite Hnet2.
    rewrite (own_profile_row uid (saved env uid st) (profiles db));
      [reflexivity | reflexivity | reflexivity | assumption].
Qed.

Lemma profile_saved_once_witness :
  map description
    (snd (ProfilePage.handleSubmit Scenario.env Scenario.alice
            (Scenario.db pending [])
            (fst (ProfilePage.fetchProfile Scenario.env Scenario.alice
                    (Scenario.db pending []) ProfilePage.initial))))
  = ["duplicate key value violates unique constraint profiles_user_id_key"]
  /\ map title
       (snd (ProfilePage.handleSubmit Scenario.env Scenario.alice
               (with_profiles [] (Scenario.db pending []))
               ProfilePage.initial))
     = ["Profile updated"].
Proof.
  split.
  - destruct (profile_saved_once Scenario.env Scenario.env Scenario.alice
                (Scenario.db pending [])
                (fst (ProfilePage.fetchProfile Scenario.env Scenario.alice
                        (Scenario.db pending []) ProfilePage.initial))
                ProfilePage.initial) as [H _].
    + reflexivity.
    + reflexivity.
    + simpl. intuition discriminate.
    + rewrite H; [reflexivity | simpl; tauto].
  - destruct (profile_saved_once Scenario.env Scenario.env Scenario.alice
                (with_profiles [] (Scenario.db pending []))
                ProfilePage.initial ProfilePage.initial) as [_ H].
    + reflexivity.
    + reflexivity.
    + simpl. tauto.
    + destruct H as [H _]; [simpl; tauto | simpl; tauto |].
      rewrite H. reflexivity.
Defined.

(** X19: the profile made at sign-up.  When a user is created, the trigger
    [on_auth_user_created] stores a profile for them with the display name
    of the sign-up data, public, every other field empty.  [fetchProfile]
    loads exactly that; every user can read the row; and the user's first
    save on the profile page, whatever the form holds, is refused with the
    uniqueness error of [user_id] and stores nothing (the backend
    answering, the id it draws being new). *)
Theorem signed_up_profile (env env2 : Env) (profile_id user : uuid)
  (display_name : option string) (db db' : Database)
  (st st2 : ProfilePage.State) :
  Supabase.on_auth_user_created profile_id user display_name db = Some db' ->
  net env 0 = None ->
  net env2 0 = None ->
  fresh env2 0 <> profile_id ->
  ~ In (fresh env2 0) (map Profiles.id (profiles db)) ->
  ProfilePage.fetchProfile env user db' st
  = (ProfilePage.setLoading false
       (ProfilePage.setProfile
          {| ProfilePage.Profile.id := profile_id;
             ProfilePage.Profile.display_name := display_name;
             ProfilePage.Profile.location := None;
             ProfilePage.Profile.availability := None;
             ProfilePage.Profile.is_public := Some true;
             ProfilePage.Profile.avatar_url := None |}
          st),
     [])
  /\ (forall viewer,
        exists row,
          Supabase.profiles_in None viewer [user] db' = inr [row]
          /\ Profiles.id row = profile_id)
  /\ ProfilePage.handleSubmit env2 user db' st2
     = (db', ProfilePage.setSaving false st2,
        [error_toast "Error updating profile"
           (Supabase.unique_error "profiles_user_id_key")]).
Proof.
  intros Hcreated Hnet Hnet2 Hne Hfresh.
  unfold Supabase.on_auth_user_created in Hcreated.
  destruct (mem user (auth_users db) || _ || _) eqn:Hused; [discriminate|].
  apply orb_false_iff in Hused. destruct Hused as [Hused Hnone].
  assert (Hnone' : ~ In user (map Profiles.user_id (profiles db))).
  { intros H. apply mem_In in H. congruence. }
  inversion Hcreated as [Hdb']. clear Hcreated.
  set (row := {| Profiles.id := profile_id; Profiles.user_id := user;
                 Profiles.display_name := display_name;
                 Profiles.location := None; Profiles.avatar_url := None;
                 Profiles.availability := None;
                 Profiles.is_public := Some true |}) in *.
  set (db1 := Build_Database _ _ _ _ _ _) in *.
  assert (Hprofiles : profiles db1 = profiles db ++ [row]) by reflexivity.
  split; [|split].
  - unfold ProfilePage.fetchProfile. rewrite Hnet.
    now rewrite (own_profile_row user row (profiles db) db1 Hprofiles
                   eq_refl Hnone').
  - intros viewer. exists row. split; [|reflexivity].
    unfold Supabase.profiles_in, Supabase.select.
    rewrite Hprofiles, filter_app, (filter_none _ (profiles db)).
    + cbn [filter app mem existsb]. unfold Policy.profiles_select.
      cbn [row Profiles.is_public Profiles.user_id].
      now rewrite String.eqb_refl.
    + intros p Hp. apply andb_false_iff. right. unfold mem.
      cbn [existsb]. rewrite orb_false_r. apply String.eqb_neq.
      intros E. apply Hnone'. rewrite <- E. now apply in_map.
  - unfold ProfilePage.handleSubmit.
    rewrite (profiles_upsert_fresh env2 user db1 st2 Hnet2).
    + assert (Hhas : existsb
                       (fun p => String.eqb (Profiles.user_id p) user)
                       (profiles db1) = true).
      { rewrite Hprofiles, existsb_app. cbn [existsb row Profiles.user_id].
        rewrite String.eqb_refl. cbn [orb]. now rewrite orb_true_r. }
      now rewrite Hhas.
    + rewrite Hprofiles, map_app. cbn [map row Profiles.id].
      intros H. apply in_app_or in H.
      destruct H as [H | [H | []]]; [now apply Hfresh | congruence].
Qed.

Lemma signed_up_profile_witness :
  map description
    (snd (ProfilePage.handleSubmit Scenario.env Scenario.erin
            Scenario.with_erin
            (fst (ProfilePage.fetchProfile Scenario.env Scenario.erin
                    Scenario.with_erin ProfilePage.initial))))
  = ["duplicate key value violates unique constraint profiles_user_id_key"].
Proof.
  destruct (signed_up_profile Scenario.env Scenario.env "p-erin"
              Scenario.erin (Some "Erin") (Scenario.db pending [])
              Scenario.with_erin ProfilePage.initial
              (fst (ProfilePage.fetchProfile Scenario.env Scenario.erin
                      Scenario.with_erin ProfilePage.initial)))
    as [_ [_ H]].
  - reflexivity.
  - reflexivity.
  - reflexivity.
  - discriminate.
  - simpl. intuition discriminate.
  - rewrite H. reflexivity.
Defined.

(** ** Avatars: the path of an upload *)

Lemma split_nonempty (sep : ascii) (s : string) : Text.split sep s <> [].
Proof.
  destruct s as [|c s]; simpl; [discriminate|].
  destruct (Ascii.eqb c sep); [discriminate|].
  destruct (Text.split sep s); discriminate.
Qed.

(** The pieces of [a], then those of [b]. *)
Lemma split_append (sep : ascii) (a b : string) :
  Text.split sep (a +++ String sep b) = Text.split sep a ++ Text.split sep b.
Proof.
  induction a as [|c a IH]; simpl.
  - now rewrite Ascii.eqb_refl.
  - destruct (Ascii.eqb c sep); [now rewrite IH|].
    rewrite IH. pose proof (split_nonempty sep a) as Hne.
    destruct (Text.split sep a) eqn:E; [congruence | reflexivity].
Qed.

Lemma split_free (sep : ascii) (s : string) :
  free_of sep s = true -> Text.split sep s = [s].
Proof.
  induction s as [|c s IH]; simpl; [reflexivity|].
  intros H. apply andb_true_iff in H. destruct H as [Hc Hs].
  apply negb_true_iff in Hc. now rewrite Hc, (IH Hs).
Qed.

Lemma last_append {A} (l l' : list A) (d : A) :
  l' <> [] -> last (l ++ l') d = last l' d.
Proof.
  intros Hne. induction l as [|a l IH]; [reflexivity|].
  cbn [app]. destruct (l ++ l') eqn:E; [|now rewrite <- IH].
  apply app_eq_nil in E. tauto.
Qed.

(** The folder of the path [handleFileUpload] builds is the user's id. *)
Lemma avatar_folder (uid : uuid) (file : ProfilePage.File) :
  free_of "/" uid = true ->
  exists more,
    Storage.foldername (ProfilePage.fileName uid file) = uid :: more.
Proof.
  intros Hfree. unfold Storage.foldername, ProfilePage.fileName.
  change (uid +++ "/avatar." +++ ProfilePage.fileExt file)
    with (uid +++ String "/" ("avatar." +++ ProfilePage.fileExt file)).
  assert (Harray : Text.string_to_array
                     (uid +++ String "/"
                        ("avatar." +++ ProfilePage.fileExt file)) "/"
                   = Text.split "/"
                       (uid +++ String "/"
                          ("avatar." +++ ProfilePage.fileExt file))).
  { destruct uid; reflexivity. }
  rewrite Harray, split_append, (split_free "/" uid Hfree). clear Harray.
  cbn [app]. pose proof (split_nonempty "/"
                           ("avatar." +++ ProfilePage.fileExt file)) as Hne.
  destruct (Text.split "/" ("avatar." +++ ProfilePage.fileExt file))
    as [|p ps]; [congruence|].
  eexists. reflexivity.
Qed.

(** X20: avatars go to the user's own folder.  For a user whose id has no
    slash, the path [handleFileUpload] builds passes the upload policy for
    that user and for no other.  So an answered upload of a picked file
    always succeeds: the file is stored at the path (replacing what was
    there), the other objects are kept, the form's avatar URL becomes the
    public URL of the path and the success is announced; and an upload to
    that path by any other user is refused. *)
Theorem avatar_upload_own_folder (env : Env) (supabaseUrl : string)
  (uid : uuid) (file : ProfilePage.File) (objects : list Storage.object)
  (st : ProfilePage.State) :
  free_of "/" uid = true ->
  net env 0 = None ->
  let path := ProfilePage.fileName uid file in
  let o :=
    {| Storage.bucket_id := "avatars"; Storage.name := path;
       Storage.body := ProfilePage.content file |} in
  let out :=
    ProfilePage.handleFileUpload env supabaseUrl uid (Some file) objects st
  in
  (forall other, Storage.owner_policy other o = true <-> other = uid)
  /\ In o (fst (fst out))
  /\ (forall x, In x (fst (fst out)) ->
        x = o
        \/ In x objects
           /\ ~ (Storage.bucket_id x = "avatars" /\ Storage.name x = path))
  /\ (forall x, In x objects ->
        ~ (Storage.bucket_id x = "avatars" /\ Storage.name x = path) ->
        In x (fst (fst out)))
  /\ ProfilePage.Profile.avatar_url (ProfilePage.profile (snd (fst out)))
     = Some (supabaseUrl +++ "/storage/v1/object/public/avatars/" +++ path)
  /\ map title (snd out) = ["Avatar uploaded"]
  /\ (forall other content stored,
        other <> uid ->
        Storage.upload None other "avatars" path content stored
        = (Some (Supabase.rls_error "objects"), stored)).
Proof.
  intros Hfree Hnet path o out.
  destruct (avatar_folder uid file Hfree) as [more Hfolder].
  assert (Hpolicy : forall other content,
            Storage.owner_policy other
              {| Storage.bucket_id := "avatars"; Storage.name := path;
                 Storage.body := content |}
            = String.eqb other uid).
  { intros other content. unfold Storage.owner_policy.
    cbn [Storage.bucket_id Storage.name]. subst path. now rewrite Hfolder. }
  assert (Hthere : forall x,
            String.eqb (Storage.bucket_id x) "avatars"
            && String.eqb (Storage.name x) path = true
            <-> Storage.bucket_id x = "avatars" /\ Storage.name x = path).
  { intros x. now rewrite andb_true_iff, !String.eqb_eq. }
  split; [intros other; subst o; now rewrite Hpolicy, String.eqb_eq|].
  assert (Hout : out
                 = (if existsb
                         (fun x =>
                            String.eqb (Storage.bucket_id x) "avatars"
                            && String.eqb (Storage.name x) path)
                         objects
                    then
                      map (fun x =>
                             if String.eqb (Storage.bucket_id x) "avatars"
                                && String.eqb (Storage.name x) path
                             then o else x)
                        objects
                    else objects ++ [o],
                    ProfilePage.setUploading false
                      (ProfilePage.setProfile
                         (ProfilePage.Profile.with_avatar_url
                            (Storage.getPublicUrl supabaseUrl "avatars" path)
                            (ProfilePage.profile st))
                         st),
                    [{| title := "Avatar uploaded";
                        description :=
                          "Your profile picture has been updated.";
                        variant := default |}])).
  { subst out. unfold ProfilePage.handleFileUpload, Storage.upload.
    rewrite Hnet. fold path. rewrite Hpolicy, String.eqb_refl. cbn [negb].
    destruct (existsb _ objects); reflexivity. }
  rewrite Hout. cbn [fst snd]. clear Hout.
  split; [|split; [|split; [|split; [|split]]]].
  - destruct (existsb _ objects) eqn:Hex.
    + apply existsb_exists in Hex. destruct Hex as [x [Hx Hxt]].
      apply in_map_iff. exists x. split; [|assumption]. now rewrite Hxt.
    + apply in_or_app. right. now left.
  - intros x Hx. destruct (existsb _ objects) eqn:Hex.
    + apply in_map_iff in Hx. destruct Hx as [y [Hy Hin]].
      destruct (String.eqb (Storage.bucket_id y) "avatars"
                && String.eqb (Storage.name y) path) eqn:E.
      * left. now symmetry.
      * right. subst y. split; [assumption|]. rewrite <- Hthere.
        congruence.
    + apply in_app_or in Hx. destruct Hx as [Hx | [Hx | []]].
      * right. split; [assumption|]. rewrite <- Hthere.
        rewrite <- not_true_iff_false, existsb_exists in Hex.
        intros E. apply Hex. now exists x.
      * left. now symmetry.
  - intros x Hx Hnot. destruct (existsb _ objects).
    + apply in_map_iff. exists x. split; [|assumption].
      destruct (String.eqb (Storage.bucket_id x) "avatars"
                && String.eqb (Storage.name x) path) eqn:E;
        [|reflexivity].
      exfalso. now apply Hnot, Hthere.
    + apply in_or_app. now left.
  - reflexivity.
  - reflexivity.
  - intros other content stored Hother. unfold Storage.upload.
    rewrite Hpolicy. apply String.eqb_neq in Hother. now rewrite Hother.
Qed.

Lemma avatar_upload_own_folder_witness :
  In {| Storage.bucket_id := "avatars"; Storage.name := "alice/avatar.png";
        Storage.body := "PNG" |}
    (fst (fst (ProfilePage.handleFileUpload Scenario.env
                 "https://project.supabase.co" Scenario.alice
                 (Some {| ProfilePage.name := "me.at.home.png";
                          ProfilePage.content := "PNG" |})
                 [] ProfilePage.initial))).
Proof.
  exact (proj1 (proj2 (avatar_upload_own_folder Scenario.env
                         "https://project.supabase.co" Scenario.alice
                         {| ProfilePage.name := "me.at.home.png";
                            ProfilePage.content := "PNG" |}
                         [] ProfilePage.initial eq_refl eq_refl))).
Defined.

(** X21: the avatar path keeps only the extension of the file name.  For
    a file named [base.ext], [ext] having no dot, the path is
    [uid/avatar.ext] whatever [base] is (dots included); for a name
    without any dot the whole name takes the place of the extension. *)
Theorem avatar_path_extension (uid : uuid) (base ext content : string) :
  free_of "." ext = true ->
  ProfilePage.fileName uid
    {| ProfilePage.name := base +++ "." +++ ext;
       ProfilePage.content := content |}
  = uid +++ "/avatar." +++ ext
  /\ ProfilePage.fileName uid
       {| ProfilePage.name := ext; ProfilePage.content := content |}
     = uid +++ "/avatar." +++ ext.
Proof.
  intros Hfree. unfold ProfilePage.fileName, ProfilePage.fileExt.
  cbn [ProfilePage.name].
  change (base +++ "." +++ ext) with (base +++ String "." ext).
  rewrite split_append, (split_free "." ext Hfree).
  rewrite last_append by discriminate. split; reflexivity.
Qed.

Lemma avatar_path_extension_witness :
  ProfilePage.fileName Scenario.alice
    {| ProfilePage.name := "me.at.home.png"; ProfilePage.content := "PNG" |}
  = "alice/avatar.png"
  /\ ProfilePage.fileName Scenario.alice
       {| ProfilePage.name := "README"; ProfilePage.content := "text" |}
     = "alice/avatar.README".
Proof.
  split.
  - exact (proj1 (avatar_path_extension Scenario.alice "me.at.home" "png"
                    "PNG" eq_refl)).
  - exact (proj2 (avatar_path_extension Scenario.alice "" "README" "text"
                    eq_refl)).
Defined.

(** ** Stars *)

(** X22: [renderStars] draws five stars, the filled ones first; their
    number is the rating, cut to the range from 0 to 5. *)
Theorem stars_filled_first (rating : Z) :
  let filled := Z.to_nat (Z.min 5 (Z.max 0 rating)) in
  FeedbackPage.renderStars rating
  = repeat true filled ++ repeat false (5 - filled).
Proof.
  cbv zeta. unfold FeedbackPage.renderStars. cbn [seq map].
  assert (Hcases : (rating <= 0 \/ rating = 1 \/ rating = 2 \/ rating = 3
                    \/ rating = 4 \/ 5 <= rating)%Z) by lia.
  destruct Hcases as [H | [-> | [-> | [-> | [-> | H]]]]];
    try reflexivity.
  - replace (Z.to_nat (Z.min 5 (Z.max 0 rating))) with 0 by lia.
    repeat match goal with
           | |- context [(?a <? rating)%Z] =>
               destruct (Z.ltb_spec a rating); [lia|]
           end.
    reflexivity.
  - replace (Z.to_nat (Z.min 5 (Z.max 0 rating))) with 5 by lia.
    repeat match goal with
           | |- context [(?a <? rating)%Z] =>
               destruct (Z.ltb_spec a rating); [|lia]
           end.
    reflexivity.
Qed.

(** ** Skills: what the page lists *)

Lemma SkillType_eqb_eq (a b : SkillType) : SkillType_eqb a b = true <-> a = b.
Proof. destruct a, b; simpl; split; congruence. Qed.

Lemma insert_by_name_In (x y : Skills.row) (l : list Skills.row) :
  In y (Supabase.insert_by_name x l) <-> y = x \/ In y l.
Proof.
  induction l as [|z l IH]; simpl; [intuition auto|].
  destruct (String.ltb _ _); simpl; [intuition auto|].
  rewrite IH. intuition auto.
Qed.

Lemma by_name_In (y : Skills.row) (l : list Skills.row) :
  In y (fold_right Supabase.insert_by_name [] l) <-> In y l.
Proof.
  induction l as [|x l IH]; simpl; [reflexivity|].
  rewrite insert_by_name_In, IH. intuition auto.
Qed.

(** X23: what the skills page lists.  When the queries are answered, the
    column of offered skills shows exactly the user's stored links of type
    offered and the column of wanted skills those of type wanted, each
    with the skill it refers to; every link of the user is in one of the
    two columns; and the list the page looks skill names up in holds
    exactly the stored skills that are approved. *)
Theorem skills_page_lists (env : Env) (uid : uuid) (db : Database)
  (st : SkillsPage.State) :
  net env 0 = None ->
  let st' := fst (SkillsPage.fetchUserSkills env uid db st) in
  let entry r :=
    SkillsPage.formatted (r, Supabase.embed_skill uid db r) in
  (forall type v,
     In v (match type with
           | offered => SkillsPage.offeredSkills st'
           | wanted => SkillsPage.wantedSkills st'
           end)
     <-> exists r,
           In r (user_skills db) /\ UserSkills.user_id r = uid
           /\ UserSkills.skill_type r = type /\ v = entry r)
  /\ List.length (SkillsPage.userSkills st')
     = List.length (SkillsPage.offeredSkills st')
       + List.length (SkillsPage.wantedSkills st')
  /\ (forall s,
        In s (SkillsPage.allSkills (SkillsPage.fetchAllSkills env uid db st))
        <-> exists row,
              In row (skills db) /\ Skills.is_approved row = Some true
              /\ s = SkillsPage.Skill.of_row row).
Proof.
  intros Hnet st' entry.
  assert (Hloaded : forall v,
            In v (SkillsPage.userSkills st')
            <-> In v (map entry
                        (filter
                           (fun r => String.eqb (UserSkills.user_id r) uid)
                           (user_skills db)))).
  { intros v. subst st'.
    pose proof (fetchUserSkills_links env uid db st Hnet) as Hperm.
    split; apply Permutation_in; [exact Hperm | now symmetry]. }
  split; [|split].
  - intros type v.
    assert (Hcol : (match type with
                    | offered => SkillsPage.offeredSkills st'
                    | wanted => SkillsPage.wantedSkills st'
                    end)
                   = filter
                       (fun skill =>
                          SkillType_eqb (SkillsPage.UserSkill.skill_type skill)
                            type)
                       (SkillsPage.userSkills st')).
    { destruct type; reflexivity. }
    rewrite Hcol, filter_In, Hloaded, in_map_iff. split.
    + intros [[r [<- Hr]] Ht]. apply filter_In in Hr.
      destruct Hr as [Hr Hu]. apply String.eqb_eq in Hu.
      apply SkillType_eqb_eq in Ht. exists r. auto.
    + intros [r [Hr [Hu [Ht ->]]]]. split.
      * exists r. split; [reflexivity|]. apply filter_In.
        split; [assumption|]. now apply String.eqb_eq.
      * apply SkillType_eqb_eq. exact Ht.
  - unfold SkillsPage.offeredSkills, SkillsPage.wantedSkills.
    clear Hloaded.
    induction (SkillsPage.userSkills st') as [|v l IH]; [reflexivity|].
    cbn [filter List.length].
    destruct (SkillsPage.UserSkill.skill_type v); cbn [SkillType_eqb];
      cbn [List.length]; lia.
  - intros s. unfold SkillsPage.fetchAllSkills, Supabase.skills_approved,
      Supabase.select. rewrite Hnet.
    cbn [SkillsPage.allSkills SkillsPage.setAllSkills].
    rewrite in_map_iff. split.
    + intros [row [<- Hrow]]. apply by_name_In, filter_In in Hrow.
      destruct Hrow as [Hrow Happ]. exists row. split; [assumption|].
      split; [|reflexivity]. unfold Policy.skills_select in Happ.
      destruct (Skills.is_approved row) as [[|]|]; try discriminate.
      reflexivity.
    + intros [row [Hrow [Happ ->]]]. exists row. split; [reflexivity|].
      apply by_name_In, filter_In. split; [assumption|]. now rewrite Happ.
Qed.

Lemma skills_page_lists_witness :
  map SkillsPage.UserSkill.id
    (SkillsPage.wantedSkills
       (fst (SkillsPage.fetchUserSkills Scenario.env Scenario.bob
               (Scenario.db pending []) SkillsPage.initial)))
  = ["us3"]
  /\ exists v,
       In v (SkillsPage.offeredSkills
               (fst (SkillsPage.fetchUserSkills Scenario.env Scenario.bob
                       (Scenario.db pending []) SkillsPage.initial)))
       /\ option_map SkillsPage.Skill.name (SkillsPage.UserSkill.skill v)
          = Some "Spanish".
Proof.
  split; [reflexivity|].
  destruct (skills_page_lists Scenario.env Scenario.bob
              (Scenario.db pending []) SkillsPage.initial eq_refl)
    as [H _].
  eexists. split.
  - apply (H offered). exists (Scenario.user_skill "us2" Scenario.bob
                                 "s-spanish" offered).
    split; [simpl; tauto|]. split; [reflexivity|].
    split; reflexivity.
  - reflexivity.
Defined.

(** ** From a search result to a stored request *)

(** Who is behind a record of a search result. *)
Lemma found_user (env : Env) (uid : uuid) (db : Database)
  (st : SearchPage.State) (u : SearchPage.UserProfile.t) :
  ~ blank (SearchPage.searchTerm st) ->
  (forall k, k < 4 -> net env k = None) ->
  In u (SearchPage.users (fst (SearchPage.searchUsers env uid db st))) ->
  SearchPage.UserProfile.user_id u <> uid
  /\ (exists p,
        In p (profiles db)
        /\ Profiles.user_id p = SearchPage.UserProfile.user_id u
        /\ Profiles.is_public p = Some true)
  /\ (forall e,
        In e (SearchPage.UserProfile.offeredSkills u) ->
        exists s, In s (skills db) /\ e = SkillRef.of_row s).
Proof.
  intros Hterm Honline Hu.
  destruct (searchUsers_assembled env uid db st Hterm Honline)
    as [matching [userSkills [data [all [_ [_ [Hd [Ha Hsearch]]]]]]]].
  rewrite Hsearch in Hu. cbn [fst SearchPage.users SearchPage.setLoading
    SearchPage.setUsers] in Hu.
  assert (Hdata : In (SearchPage.UserProfile.user_id u)
                    (map Profiles.user_id data)).
  { apply (assemble_user_ids data all). now apply in_map. }
  apply in_map_iff in Hdata. destruct Hdata as [p [Hk Hp]].
  unfold Supabase.profiles_public_others_in, Supabase.select in Hd.
  inversion Hd as [Hd']. clear Hd. rewrite <- Hd' in Hp.
  apply filter_In in Hp. destruct Hp as [Hp Hc].
  rewrite !andb_true_iff, negb_true_iff, String.eqb_neq in Hc.
  destruct Hc as [_ [[Hpub Hne] _]].
  split; [congruence|]. split.
  - exists p. repeat split; auto.
    destruct (Profiles.is_public p) as [[|]|]; congruence.
  - unfold SearchPage.assemble in Hu.
    refine (JsMap_values_all
              (fun u => forall e,
                 In e (SearchPage.UserProfile.offeredSkills u) ->
                 exists s, In s (skills db) /\ e = SkillRef.of_row s)
              _ u _ Hu).
    apply addOfferedSkill_entries.
    + apply (addProfile_all
               (fun u => forall e,
                  In e (SearchPage.UserProfile.offeredSkills u) ->
                  exists s, In s (skills db) /\ e = SkillRef.of_row s)
               data);
        [intros profile _ e [] | apply incl_refl | constructor].
    + intros r s Hin.
      unfold Supabase.user_skills_offered_by, Supabase.select in Ha.
      inversion Ha as [Ha']. rewrite <- Ha' in Hin.
      apply in_map_iff in Hin. destruct Hin as [r' [E _]].
      inversion E as [[Er Es]]. unfold Supabase.embed_skill in Es.
      apply find_some in Es. exists s. tauto.
Qed.

Lemma formattedSkills_In
  (data : list (UserSkills.row * option Skills.row))
  (l : list SearchPage.MySkill.t) (o : SearchPage.MySkill.t) :
  SearchPage.formattedSkills data = Some l ->
  In o l ->
  exists r s,
    In (r, Some s) data
    /\ o = {| SearchPage.MySkill.id := Skills.id s;
              SearchPage.MySkill.name := Skills.name s;
              SearchPage.MySkill.skill_type := UserSkills.skill_type r |}.
Proof.
  revert l. induction data as [|[r [s|]] data IH]; simpl; intros l Hl Ho.
  - inversion Hl. subst l. contradiction.
  - destruct (SearchPage.formattedSkills data) as [l'|]; [|discriminate].
    inversion Hl. subst l. destruct Ho as [<- | Ho].
    + exists r, s. split; [now left | reflexivity].
    + destruct (IH l' eq_refl Ho) as [r' [s' [Hin E]]].
      exists r', s'. split; [now right | assumption].
  - discriminate.
Qed.

(** The skills the dialog lets the user offer are skills the user offers. *)
Lemma my_offered_skill (env : Env) (uid : uuid) (db : Database)
  (o : SearchPage.MySkill.t) :
  In o (SearchPage.myOfferedSkills
          (SearchPage.fetchMySkills env uid db SearchPage.closed)) ->
  exists r s,
    In r (user_skills db) /\ UserSkills.user_id r = uid
    /\ UserSkills.skill_type r = offered
    /\ In s (skills db) /\ Skills.id s = UserSkills.skill_id r
    /\ SearchPage.MySkill.id o = Skills.id s
    /\ SearchPage.MySkill.name o = Skills.name s.
Proof.
  unfold SearchPage.myOfferedSkills, SearchPage.fetchMySkills.
  intros Ho. apply filter_In in Ho. destruct Ho as [Ho Ht].
  apply SkillType_eqb_eq in Ht.
  destruct (Supabase.user_skills_of _ _ _ _) as [e|data] eqn:Hdata;
    [destruct Ho|].
  destruct (SearchPage.formattedSkills data) as [l|] eqn:Hl;
    [|destruct Ho].
  cbn [SearchPage.mySkills SearchPage.setMySkills] in Ho.
  destruct (formattedSkills_In data l o Hl Ho) as [r [s [Hin ->]]].
  unfold Supabase.user_skills_of, Supabase.select in Hdata.
  destruct (net env 0); [discriminate|]. inversion Hdata as [Hd].
  rewrite <- Hd in Hin. apply in_map_iff in Hin.
  destruct Hin as [r' [E Hr]]. inversion E as [[Er Es]]. subst r'.
  apply (Permutation_in _ (arranged env _)) in Hr.
  apply filter_In in Hr. destruct Hr as [Hr Hu].
  cbn [Policy.user_skills_select andb] in Hu. apply String.eqb_eq in Hu.
  unfold Supabase.embed_skill in Es. apply find_some in Es.
  destruct Es as [Hs Hid]. rewrite andb_true_r in Hid.
  apply String.eqb_eq in Hid.
  exists r, s. repeat split; auto.
Qed.

(** X24: a request composed in the dialog is accepted.  After a search
    that ran to its end, let the user open the dialog of a found user,
    choose one of the skills the dialog lists as their own and one of the
    skills the found user's record lists, and send.  If the backend
    answers (the stored profiles being profiles of registered users, the
    user being registered, identifiers not being empty), the request is
    stored and announced: pending, from the user to the found user, who is
    another user with a public profile, offering a skill the user does
    offer for a stored skill. *)
Theorem dialog_request_is_stored (envS envM env : Env) (uid : uuid)
  (db : Database) (st : SearchPage.State) (u : SearchPage.UserProfile.t)
  (o : SearchPage.MySkill.t) (w : SkillRef.t) (message : string) :
  ~ blank (SearchPage.searchTerm st) ->
  (forall k, k < 4 -> net envS k = None) ->
  net env 0 = None ->
  In uid (auth_users db) ->
  (forall p, In p (profiles db) -> In (Profiles.user_id p) (auth_users db)) ->
  (forall s, In s (skills db) -> Skills.id s <> "") ->
  In u (SearchPage.users (fst (SearchPage.searchUsers envS uid db st))) ->
  In o (SearchPage.myOfferedSkills
          (SearchPage.fetchMySkills envM uid db SearchPage.closed)) ->
  In w (SearchPage.UserProfile.offeredSkills u) ->
  let d :=
    SearchPage.setSwapRequest
      {| SearchPage.SwapRequest.offeredSkillId := SearchPage.MySkill.id o;
         SearchPage.SwapRequest.wantedSkillId := SkillRef.id w;
         SearchPage.SwapRequest.message := message |}
      (SearchPage.setSelectedUser (Some u)
         (SearchPage.fetchMySkills envM uid db SearchPage.closed)) in
  let out := SearchPage.sendSwapRequest env uid db d in
  map title (snd out) = ["Swap request sent!"]
  /\ swap_requests (fst (fst out))
     = swap_requests db
       ++ [{| SwapRequests.id := fresh env 0;
              SwapRequests.requester_id := uid;
              SwapRequests.recipient_id := SearchPage.UserProfile.user_id u;
              SwapRequests.offered_skill_id := SearchPage.MySkill.id o;
              SwapRequests.wanted_skill_id := SkillRef.id w;
              SwapRequests.message := Some message;
              SwapRequests.status := pending;
              SwapRequests.created_at := now env;
              SwapRequests.updated_at := now env |}]
  /\ SearchPage.UserProfile.user_id u <> uid
  /\ (exists p,
        In p (profiles db)
        /\ Profiles.user_id p = SearchPage.UserProfile.user_id u
        /\ Profiles.is_public p = Some true)
  /\ (exists r,
        In r (user_skills db) /\ UserSkills.user_id r = uid
        /\ UserSkills.skill_type r = offered
        /\ UserSkills.skill_id r = SearchPage.MySkill.id o)
  /\ In (SkillRef.id w) (map Skills.id (skills db)).
Proof.
  intros Hterm HonS Hnet Hreg Hfk Hids Hu Ho Hw d out.
  destruct (found_user envS uid db st u Hterm HonS Hu)
    as [Hne [[p [Hp [Hpu Hpub]]] Hskills]].
  destruct (Hskills w Hw) as [sw [Hsw Ew]].
  destruct (my_offered_skill envM uid db o Ho)
    as [r [so [Hr [Hru [Hrt [Hso [Hsr [Hoid _]]]]]]]].
  assert (Hoffered : In (SearchPage.MySkill.id o) (map Skills.id (skills db))).
  { rewrite Hoid. now apply in_map. }
  assert (Hwanted : In (SkillRef.id w) (map Skills.id (skills db))).
  { rewrite Ew. cbn [SkillRef.of_row SkillRef.id]. now apply in_map. }
  assert (Hrecipient : In (SearchPage.UserProfile.user_id u) (auth_users db)).
  { rewrite <- Hpu. now apply Hfk. }
  assert (Hout : out
                 = (with_swap_requests
                      (swap_requests db
                       ++ [Supabase.requested (now env) (fresh env 0)
                             (SearchPage.proposed uid d)
                             (SearchPage.UserProfile.user_id u)])
                      db,
                    SearchPage.setSending false
                      (SearchPage.setSwapRequest SearchPage.SwapRequest.empty
                         (SearchPage.setSelectedUser None d)),
                    [{| title := "Swap request sent!";
                        description :=
                          "Your request has been sent successfully.";
                        variant := default |}])).
  { subst out. unfold SearchPage.sendSwapRequest.
    cbn [d SearchPage.swapRequest SearchPage.setSwapRequest
      SearchPage.SwapRequest.offeredSkillId
      SearchPage.SwapRequest.wantedSkillId].
    rewrite (truthy_nonempty (SearchPage.MySkill.id o)),
      (truthy_nonempty (SkillRef.id w)).
    - cbn [negb orb]. rewrite Hnet.
      now rewrite (swap_requests_insert_ok (now env) (fresh env 0) uid
                     (SearchPage.UserProfile.user_id u)
                     (SearchPage.proposed uid d) db).
    - rewrite Ew. apply Hids, Hsw.
    - rewrite Hoid. apply Hids, Hso. }
  rewrite Hout. cbn [fst snd].
  split; [reflexivity|]. split; [reflexivity|]. split; [assumption|].
  split; [exists p; auto|]. split; [|assumption].
  exists r. repeat split; auto. congruence.
Qed.

Lemma dialog_request_is_stored_witness :
  map SwapRequests.recipient_id
    (swap_requests
       (fst (fst (SearchPage.sendSwapRequest Scenario.env Scenario.bob
                    (Scenario.db pending []) Scenario.proposing))))
  = [Scenario.alice; Scenario.alice].
Proof.
  destruct (dialog_request_is_stored Scenario.env Scenario.env Scenario.env
              Scenario.bob (Scenario.db pending [])
              (Scenario.searching "guitar")
              (SearchPage.UserProfile.push
                 {| SkillRef.id := "s-guitar"; SkillRef.name := "Guitar" |}
                 (SearchPage.UserProfile.of_row
                    (Scenario.profile "p-alice" Scenario.alice "Alice"
                       true)))
              {| SearchPage.MySkill.id := "s-spanish";
                 SearchPage.MySkill.name := "Spanish";
                 SearchPage.MySkill.skill_type := offered |}
              {| SkillRef.id := "s-guitar"; SkillRef.name := "Guitar" |}
              "Hola Alice")
    as [_ [H _]].
  - discriminate.
  - intros k _. reflexivity.
  - reflexivity.
  - simpl. tauto.
  - intros p Hp. simpl in Hp.
    destruct Hp as [<- | [<- | [<- | [<- | []]]]]; simpl; tauto.
  - intros s Hs. simpl in Hs.
    destruct Hs as [<- | [<- | []]]; discriminate.
  - left. reflexivity.
  - left. reflexivity.
  - left. reflexivity.
  - change (SearchPage.sendSwapRequest Scenario.env Scenario.bob
              (Scenario.db pending []) Scenario.proposing)
      with (SearchPage.sendSwapRequest Scenario.env Scenario.bob
              (Scenario.db pending [])
              (SearchPage.setSwapRequest
                 {| SearchPage.SwapRequest.offeredSkillId := "s-spanish";
                    SearchPage.SwapRequest.wantedSkillId := "s-guitar";
                    SearchPage.SwapRequest.message := "Hola Alice" |}
                 (SearchPage.setSelectedUser
                    (Some
                       (SearchPage.UserProfile.push
                          {| SkillRef.id := "s-guitar";
                             SkillRef.name := "Guitar" |}
                          (SearchPage.UserProfile.of_row
                             (Scenario.profile "p-alice" Scenario.alice
                                "Alice" true))))
                    (SearchPage.fetchMySkills Scenario.env Scenario.bob
                       (Scenario.db pending []) SearchPage.closed)))).
    cbv zeta in H. cbn [SearchPage.MySkill.id SkillRef.id] in H.
    rewrite H. reflexivity.
Defined.

(** ** The constraints of the schema are kept *)

Section Constraints.

Variable db : Database.
Hypothesis consistent : constraints_hold db.

Lemma update_status_keeps (net : option string) (now : timestamp)
  (uid requestId : uuid) (s : Status) :
  constraints_hold
    (snd (Supabase.swap_requests_update_status net now uid requestId s db)).
Proof.
  unfold Supabase.swap_requests_update_status.
  destruct net; [exact consistent|].
  destruct (forallb _ _); [|exact consistent]. cbn [snd].
  destruct consistent as [[Hp [Hus [Hsr Hf]]] [Hnd Hrt]].
  split; [|split; [exact Hnd | exact Hrt]].
  split; [exact Hp|]. split; [exact Hus|]. split.
  - intros r Hr. cbn [swap_requests with_swap_requests] in Hr.
    apply in_map_iff in Hr. destruct Hr as [r0 [<- Hr0]].
    destruct (Supabase.update_target uid requestId r0); apply (Hsr r0 Hr0).
  - intros f Hin. cbn [feedback swap_requests with_swap_requests] in *.
    rewrite map_map.
    replace (map _ (swap_requests db))
      with (map SwapRequests.id (swap_requests db)); [now apply Hf|].
    apply map_ext. intros r.
    now destruct (Supabase.update_target uid requestId r).
Qed.

Lemma delete_request_keeps (net : option string) (uid requestId : uuid) :
  constraints_hold (snd (Supabase.swap_requests_delete net uid requestId db)).
Proof.
  unfold Supabase.swap_requests_delete.
  destruct net; [exact consistent|]. cbn [snd].
  destruct consistent as [[Hp [Hus [Hsr Hf]]] [[N1 [N2 [N3 N4]]] Hrt]].
  split; [|split].
  - split; [exact Hp|]. split; [exact Hus|]. split.
    + intros r Hr. cbn [swap_requests with_swap_requests with_feedback] in Hr.
      apply filter_In in Hr. apply Hsr. tauto.
    + intros f Hin.
      cbn [feedback swap_requests with_swap_requests with_feedback
        auth_users] in *.
      apply filter_In in Hin. destruct Hin as [Hin Hkept].
      destruct (Hf f Hin) as [Hswap Hrest]. split; [|exact Hrest].
      apply in_map_iff in Hswap. destruct Hswap as [r [Hid Hr]].
      apply in_map_iff. exists r. split; [assumption|].
      apply filter_In. split; [assumption|].
      destruct (Supabase.delete_target uid requestId r) eqn:Hhit;
        [|reflexivity].
      exfalso. apply negb_true_iff in Hkept.
      rewrite <- not_true_iff_false, mem_In in Hkept. apply Hkept.
      rewrite <- Hid. apply in_map. apply filter_In. now split.
  - repeat split; try assumption.
    cbn [feedback with_feedback]. now apply NoDup_map_filter.
  - intros f Hin. cbn [feedback with_feedback] in Hin.
    apply filter_In in Hin. apply Hrt. tauto.
Qed.

Lemma insert_request_keeps (net : option string) (now : timestamp)
  (new_id uid : uuid) (v : Supabase.NewSwapRequest) :
  constraints_hold
    (snd (Supabase.swap_requests_insert net now new_id uid v db)).
Proof.
  unfold Supabase.swap_requests_insert.
  destruct net; [exact consistent|].
  destruct (negb (String.eqb _ _)); [exact consistent|].
  destruct (Supabase.recipient_id v) as [recipient|]; [|exact consistent].
  destruct (mem (Supabase.requester_id v) _) eqn:H1; cbn [negb];
    [|exact consistent].
  destruct (mem recipient _) eqn:H2; cbn [negb]; [|exact consistent].
  destruct (mem (Supabase.offered_skill_id v) _) eqn:H3; cbn [negb];
    [|exact consistent].
  destruct (mem (Supabase.wanted_skill_id v) _) eqn:H4; cbn [negb];
    [|exact consistent].
  apply mem_In in H1, H2, H3, H4. cbn [snd].
  destruct consistent as [[Hp [Hus [Hsr Hf]]] [Hnd Hrt]].
  split; [|split; [exact Hnd | exact Hrt]].
  split; [exact Hp|]. split; [exact Hus|]. split.
  - intros r Hr. cbn [swap_requests with_swap_requests] in Hr.
    apply in_app_or in Hr. destruct Hr as [Hr | [<- | []]];
      [now apply Hsr|]. repeat split; assumption.
  - intros f Hin. cbn [feedback swap_requests with_swap_requests] in *.
    destruct (Hf f Hin) as [Hswap Hrest]. split; [|exact Hrest].
    rewrite map_app. apply in_or_app. now left.
Qed.

Lemma same_pair_key (swap reviewer : uuid) (rows : list Feedback.row) :
  existsb (Supabase.same_pair swap reviewer) rows = false ->
  ~ In (swap, reviewer) (map feedback_key rows).
Proof.
  intros Hnone Hin. apply in_map_iff in Hin. destruct Hin as [f [E Hf]].
  inversion E as [[E1 E2]].
  rewrite <- not_true_iff_false, existsb_exists in Hnone. apply Hnone.
  exists f. split; [assumption|]. unfold Supabase.same_pair.
  now rewrite E1, E2, !String.eqb_refl.
Qed.

Lemma insert_feedback_keeps (net : option string) (now : timestamp)
  (new_id uid : uuid) (v : Supabase.NewFeedback) :
  constraints_hold (snd (Supabase.feedback_insert net now new_id uid v db)).
Proof.
  unfold Supabase.feedback_insert.
  destruct net; [exact consistent|].
  destruct (Supabase.rating v) as [n|];
    [|destruct (negb _); exact consistent].
  destruct (negb (Policy.feedback_insert _ _)); [exact consistent|].
  destruct ((1 <=? n)%Z && (n <=? 5)%Z) eqn:Hrange; cbn [negb];
    [|exact consistent].
  destruct (existsb _ (feedback db)) eqn:Hpair; [exact consistent|].
  destruct (mem (Supabase.swap_request_id v) _) eqn:H1; cbn [negb];
    [|exact consistent].
  destruct (mem (Supabase.reviewer_id v) _) eqn:H2; cbn [negb];
    [|exact consistent].
  destruct (mem (Supabase.reviewee_id v) _) eqn:H3; cbn [negb];
    [|exact consistent].
  apply mem_In in H1, H2, H3. cbn [snd].
  destruct consistent as [[Hp [Hus [Hsr Hf]]] [[N1 [N2 [N3 N4]]] Hrt]].
  split; [|split].
  - split; [exact Hp|]. split; [exact Hus|]. split; [exact Hsr|].
    intros f Hin. cbn [feedback with_feedback swap_requests auth_users] in *.
    apply in_app_or in Hin. destruct Hin as [Hin | [<- | []]];
      [now apply Hf|]. repeat split; assumption.
  - repeat split; try assumption. cbn [feedback with_feedback].
    rewrite map_app. apply NoDup_snoc; [assumption|].
    now apply same_pair_key.
  - intros f Hin. cbn [feedback with_feedback] in Hin.
    apply in_app_or in Hin. destruct Hin as [Hin | [<- | []]];
      [now apply Hrt|]. cbn [Supabase.stored Feedback.rating].
    apply andb_true_iff in Hrange. lia.
Qed.

Lemma insert_skill_keeps (net : option string) (new_id uid : uuid)
  (name : string) :
  constraints_hold (snd (Supabase.skills_insert net new_id uid name db)).
Proof.
  unfold Supabase.skills_insert.
  destruct net; [exact consistent|].
  destruct (negb _); [exact consistent|].
  destruct (existsb _ (skills db)) eqn:Hname; [exact consistent|].
  cbn [snd].
  destruct consistent as [[Hp [Hus [Hsr Hf]]] [[N1 [N2 [N3 N4]]] Hrt]].
  assert (Hmore : forall x,
            In x (map Skills.id (skills db)) ->
            In x (map Skills.id
                    (skills db
                     ++ [{| Skills.id := new_id; Skills.name := name;
                            Skills.category := None;
                            Skills.is_approved := Some true |}]))).
  { intros x Hx. rewrite map_app. apply in_or_app. now left. }
  split; [|split; [|exact Hrt]].
  - split; [exact Hp|]. split; [|split; [|exact Hf]].
    + intros r Hr. destruct (Hus r Hr). split; [assumption|].
      now apply Hmore.
    + intros r Hr. destruct (Hsr r Hr) as [H1 [H2 [H3 H4]]].
      repeat split; try assumption; now apply Hmore.
  - repeat split; try assumption. cbn [skills with_skills].
    rewrite map_app. apply NoDup_snoc; [assumption|].
    cbn [map Skills.name]. intros Hin.
    apply (existsb_key Skills.name) in Hin. congruence.
Qed.

Lemma insert_link_keeps (net : option string) (new_id uid user skill : uuid)
  (type : SkillType) :
  constraints_hold
    (snd (Supabase.user_skills_insert net new_id uid user skill type db)).
Proof.
  unfold Supabase.user_skills_insert.
  destruct net; [exact consistent|].
  destruct (negb _); [exact consistent|].
  destruct (existsb _ (user_skills db)) eqn:Hkey; [exact consistent|].
  destruct (mem user _) eqn:H1; cbn [negb]; [|exact consistent].
  destruct (mem skill _) eqn:H2; cbn [negb]; [|exact consistent].
  apply mem_In in H1, H2. cbn [snd].
  destruct consistent as [[Hp [Hus [Hsr Hf]]] [[N1 [N2 [N3 N4]]] Hrt]].
  split; [|split; [|exact Hrt]].
  - split; [exact Hp|]. split; [|split; [exact Hsr | exact Hf]].
    intros r Hr. cbn [user_skills with_user_skills] in Hr.
    apply in_app_or in Hr. destruct Hr as [Hr | [<- | []]];
      [now apply Hus|]. split; assumption.
  - repeat split; try assumption. cbn [user_skills with_user_skills].
    rewrite map_app. apply NoDup_snoc; [assumption|].
    cbn [map link_key UserSkills.user_id UserSkills.skill_id
      UserSkills.skill_type]. intros Hin.
    apply in_map_iff in Hin. destruct Hin as [r [E Hr]].
    inversion E as [[E1 E2 E3]].
    rewrite <- not_true_iff_false, existsb_exists in Hkey. apply Hkey.
    exists r. split; [assumption|].
    rewrite E1, E2, E3, !String.eqb_refl. now destruct type.
Qed.

Lemma delete_link_keeps (net : option string) (uid userSkillId : uuid) :
  constraints_hold (snd (Supabase.user_skills_delete net uid userSkillId db)).
Proof.
  unfold Supabase.user_skills_delete.
  destruct net; [exact consistent|]. cbn [snd].
  destruct consistent as [[Hp [Hus [Hsr Hf]]] [[N1 [N2 [N3 N4]]] Hrt]].
  split; [|split; [|exact Hrt]].
  - split; [exact Hp|]. split; [|split; [exact Hsr | exact Hf]].
    intros r Hr. cbn [user_skills with_user_skills] in Hr.
    apply filter_In in Hr. apply Hus. tauto.
  - repeat split; try assumption. cbn [user_skills with_user_skills].
    now apply NoDup_map_filter.
Qed.

Lemma upsert_profile_keeps (net : option string) (new_id uid : uuid)
  (v : Supabase.ProfileData) :
  ~ In new_id (map Profiles.id (profiles db)) ->
  constraints_hold (snd (Supabase.profiles_upsert net new_id uid v db)).
Proof.
  intros Hfresh. unfold Supabase.profiles_upsert.
  destruct net; [exact consistent|].
  destruct (negb _); [exact consistent|].
  rewrite (find_absent Profiles.id _ _ Hfresh).
  destruct (existsb _ (profiles db)) eqn:Hkey; [exact consistent|].
  destruct (mem _ (auth_users db)) eqn:H1; cbn [negb]; [|exact consistent].
  apply mem_In in H1. cbn [snd].
  destruct consistent as [[Hp [Hus [Hsr Hf]]] [[N1 [N2 [N3 N4]]] Hrt]].
  split; [|split; [|exact Hrt]].
  - split; [|split; [exact Hus | split; [exact Hsr | exact Hf]]].
    intros p Hin. cbn [profiles with_profiles] in Hin.
    apply in_app_or in Hin. destruct Hin as [Hin | [<- | []]];
      [now apply Hp | assumption].
  - repeat split; try assumption. cbn [profiles with_profiles].
    rewrite map_app. apply NoDup_snoc; [assumption|].
    cbn [map Supabase.upserted Profiles.user_id]. intros Hin.
    apply (existsb_key Profiles.user_id) in Hin. congruence.
Qed.

End Constraints.

(** X25: the constraints of the schema are kept.  If the foreign keys, the
    UNIQUE constraints and the CHECK of the rating hold of the database,
    they hold of the database every handler of the pages leaves behind,
    whatever the page state, the arguments and the answers of the backend:
    accepting or declining a request, deleting one (the feedback on it
    goes with it), sending one, submitting feedback, adding and removing a
    skill, saving the profile (the id drawn being new), and of the database
    after a sign-up. *)
Theorem handlers_keep_constraints (env : Env) (uid : uuid) (db : Database) :
  constraints_hold db ->
  (forall requestId decision st,
     constraints_hold
       (fst (fst (SwapRequestsPage.updateRequestStatus env uid requestId
                    decision db st))))
  /\ (forall requestId st,
        constraints_hold
          (fst (fst (SwapRequestsPage.deleteRequest env uid requestId db
                       st))))
  /\ (forall d,
        constraints_hold (fst (fst (SearchPage.sendSwapRequest env uid db d))))
  /\ (forall st,
        constraints_hold (fst (fst (FeedbackPage.submitFeedback env uid db
                                      st))))
  /\ (forall type st,
        constraints_hold (fst (fst (SkillsPage.addSkill env uid type db st))))
  /\ (forall userSkillId st,
        constraints_hold
          (fst (fst (SkillsPage.removeSkill env uid userSkillId db st))))
  /\ (forall st,
        ~ In (fresh env 0) (map Profiles.id (profiles db)) ->
        constraints_hold (fst (fst (ProfilePage.handleSubmit env uid db st))))
  /\ (forall profile_id user name db',
        Supabase.on_auth_user_created profile_id user name db = Some db' ->
        constraints_hold db').
Proof.
  intros Hdb.
  refine (conj _ (conj _ (conj _ (conj _ (conj _ (conj _ (conj _ _))))))).
  - intros requestId decision st.
    pose proof (update_status_keeps db Hdb (net env 0) (now env) uid
                  requestId (SwapRequestsPage.decided decision)) as H.
    unfold SwapRequestsPage.updateRequestStatus.
    destruct (Supabase.swap_requests_update_status _ _ _ _ _ _) as [[e|] d];
      exact H.
  - intros requestId st.
    pose proof (delete_request_keeps db Hdb (net env 0) uid requestId) as H.
    unfold SwapRequestsPage.deleteRequest.
    destruct (Supabase.swap_requests_delete _ _ _ _) as [[e|] d]; exact H.
  - intros d. unfold SearchPage.sendSwapRequest.
    destruct (negb _ || negb _); [exact Hdb|].
    pose proof (insert_request_keeps db Hdb (net env 0) (now env)
                  (fresh env 0) uid (SearchPage.proposed uid d)) as H.
    destruct (Supabase.swap_requests_insert _ _ _ _ _ _) as [[e|] d'];
      exact H.
  - intros st. unfold FeedbackPage.submitFeedback.
    destruct (negb _ || negb _); [exact Hdb|].
    pose proof (insert_feedback_keeps db Hdb (net env 0) (now env)
                  (fresh env 0) uid
                  (FeedbackPage.submitted uid (FeedbackPage.feedbackForm st)))
      as H.
    destruct (Supabase.feedback_insert _ _ _ _ _ _) as [[e|] d'];
      [exact H|].
    destruct (FeedbackPage.fetchAcceptedSwaps _ _ _ _). exact H.
  - intros type st. unfold SkillsPage.addSkill.
    destruct (negb _); [exact Hdb|].
    unfold SkillsPage.findOrCreateSkill.
    destruct (SkillsPage.findSkill _) as [skill|].
    + pose proof (insert_link_keeps db Hdb (net env 1) (fresh env 1) uid uid
                    (SkillsPage.Skill.id skill) type) as H.
      destruct (Supabase.user_skills_insert _ _ _ _ _ _ _) as [[e|[r s]] d'];
        exact H.
    + pose proof (insert_skill_keeps db Hdb (net env 0) (fresh env 0) uid
                    (Text.trim
                       (SkillsPage.newSkillName
                          (SkillsPage.setAdding true st)))) as H.
      destruct (Supabase.skills_insert _ _ _ _ _) as [[e|row] d1];
        [exact H|]. cbn [snd] in H.
      pose proof (insert_link_keeps d1 H (net env 1) (fresh env 1) uid uid
                    (SkillsPage.Skill.id (SkillsPage.Skill.of_row row)) type)
        as H'.
      destruct (Supabase.user_skills_insert _ _ _ _ _ _ _) as [[e|[r s]] d'];
        exact H'.
  - intros userSkillId st.
    pose proof (delete_link_keeps db Hdb (net env 0) uid userSkillId) as H.
    unfold SkillsPage.removeSkill.
    destruct (Supabase.user_skills_delete _ _ _ _) as [[e|] d]; exact H.
  - intros st Hfresh.
    pose proof (upsert_profile_keeps db Hdb (net env 0) (fresh env 0) uid
                  (ProfilePage.profileData uid (ProfilePage.profile st))
                  Hfresh) as H.
    unfold ProfilePage.handleSubmit.
    destruct (Supabase.profiles_upsert _ _ _ _ _) as [[e|] d]; exact H.
  - intros profile_id user name db' Hcreated.
    unfold Supabase.on_auth_user_created in Hcreated.
    destruct (mem user (auth_users db) || _ || _) eqn:Hused;
      [discriminate|].
    apply orb_false_iff in Hused. destruct Hused as [_ Hnone].
    inversion Hcreated as [Hdb']. clear Hcreated.
    destruct Hdb as [[Hp [Hus [Hsr Hf]]] [[N1 [N2 [N3 N4]]] Hrt]].
    assert (Hmore : forall x, In x (auth_users db) ->
                      In x (auth_users db ++ [user])).
    { intros x Hx. apply in_or_app. now left. }
    split; [|split; [|exact Hrt]].
    + split; [|split; [|split]].
      * intros p Hin. cbn [profiles auth_users] in *.
        apply in_app_or in Hin. destruct Hin as [Hin | [<- | []]].
        -- now apply Hmore, Hp.
        -- apply in_or_app. right. now left.
      * intros r Hr. destruct (Hus r Hr). split; [now apply Hmore|].
        assumption.
      * intros r Hr. destruct (Hsr r Hr) as [H1 [H2 [H3 H4]]].
        repeat split; try assumption; now apply Hmore.
      * intros f Hin. destruct (Hf f Hin) as [H1 [H2 H3]].
        repeat split; try assumption; now apply Hmore.
    + repeat split; try assumption. cbn [profiles].
      rewrite map_app. apply NoDup_snoc; [assumption|].
      cbn [map Profiles.user_id]. intros Hin. apply mem_In in Hin.
      congruence.
Qed.

Lemma handlers_keep_constraints_witness :
  constraints_hold
    (fst (fst (SearchPage.sendSwapRequest Scenario.env Scenario.bob
                 (Scenario.db pending []) Scenario.proposing)))
  /\ constraints_hold
       (fst (fst (SkillsPage.addSkill Scenario.env Scenario.alice wanted
                    (Scenario.db pending [])
                    (Scenario.entering Scenario.alice "Piano")))).
Proof.
  assert (H : constraints_hold (Scenario.db pending [])).
  { split; [|split].
    - split; [|split; [|split]].
      + intros p Hp. simpl in Hp.
        destruct Hp as [<- | [<- | [<- | [<- | []]]]]; simpl; tauto.
      + intros r Hr. simpl in Hr.
        destruct Hr as [<- | [<- | [<- | [<- | []]]]]; simpl; tauto.
      + intros r Hr. simpl in Hr.
        destruct Hr as [<- | []]; simpl; tauto.
      + intros f [].
    - split; [|split; [|split]]; simpl;
        repeat (constructor; [simpl; intuition discriminate|]);
        constructor.
    - intros f []. }
  destruct (handlers_keep_constraints Scenario.env Scenario.bob
              (Scenario.db pending []) H) as [_ [_ [Hsend _]]].
  destruct (handlers_keep_constraints Scenario.env Scenario.alice
              (Scenario.db pending []) H) as [_ [_ [_ [_ [Hadd _]]]]].
  split; [apply Hsend | apply Hadd].
Defined.

(** ** Feedback: queries that fail without a word *)

(** X26: when the query for the feedback already given fails, nobody is
    told and every accepted swap is listed as awaiting feedback.  With the
    first three queries of [fetchAcceptedSwaps] answered and the fourth
    failing, no notification is shown, the loading indicator stops, and
    the pending-feedback list is the whole list of accepted swaps: it has
    an entry for every stored accepted request of the user, reviewed or
    not.  [fetchMyFeedback] whose first query fails changes nothing. *)
Theorem feedback_status_query_fails_silently (env : Env) (U : uuid)
  (db : Database) (st : FeedbackPage.State) (m : string) :
  (forall k, k < 3 -> net env k = None) ->
  net env 3 = Some m ->
  let out := FeedbackPage.fetchAcceptedSwaps env U db st in
  snd out = []
  /\ FeedbackPage.loading (fst out) = false
  /\ FeedbackPage.pendingFeedback (fst out)
     = FeedbackPage.acceptedSwaps (fst out)
  /\ (forall r,
        In r (swap_requests db) ->
        SwapRequests.status r = accepted ->
        SwapRequests.requester_id r = U \/ SwapRequests.recipient_id r = U ->
        exists v,
          In v (FeedbackPage.pendingFeedback (fst out)) /\ shows v r)
  /\ (forall env' st',
        net env' 0 = Some m ->
        FeedbackPage.fetchMyFeedback env' U db st' = st').
Proof.
  intros Honline Hfail out.
  destruct (requests_data U (Some accepted) db) as [data [Hdata [_ Hin]]].
  assert (Hout : exists pm sm,
            out
            = (FeedbackPage.setLoading false
                 (FeedbackPage.setAcceptedSwaps
                    (map (FeedbackPage.withFeedbackStatus pm sm
                            (JsSet.of_list []))
                       data)
                    st),
               [])).
  { subst out. unfold FeedbackPage.fetchAcceptedSwaps.
    rewrite (Honline 0), (Honline 1), (Honline 2), Hfail, Hdata by lia.
    unfold Supabase.profiles_in, Supabase.skills_in,
      Supabase.feedback_by_reviewer_in, Supabase.select.
    do 2 eexists. reflexivity. }
  destruct Hout as [pm [sm Hout]]. rewrite Hout. cbn [fst snd].
  split; [reflexivity|]. split; [reflexivity|].
  assert (Hall : FeedbackPage.pendingFeedback
                   (FeedbackPage.setLoading false
                      (FeedbackPage.setAcceptedSwaps
                         (map (FeedbackPage.withFeedbackStatus pm sm
                                 (JsSet.of_list []))
                            data)
                         st))
                 = map (FeedbackPage.withFeedbackStatus pm sm
                          (JsSet.of_list []))
                     data).
  { unfold FeedbackPage.pendingFeedback.
    cbn [FeedbackPage.acceptedSwaps FeedbackPage.setLoading
      FeedbackPage.setAcceptedSwaps].
    apply filter_all. intros v Hv. apply in_map_iff in Hv.
    destruct Hv as [r [<- _]]. reflexivity. }
  rewrite Hall. split; [reflexivity|]. split.
  - intros r Hr Hs Hp.
    exists (FeedbackPage.withFeedbackStatus pm sm (JsSet.of_list []) r).
    split; [|repeat split]. apply in_map. apply Hin.
    split; [assumption|]. split; [|assumption]. congruence.
  - intros env' st' Hfail'. unfold FeedbackPage.fetchMyFeedback,
      Supabase.feedback_about, Supabase.select. now rewrite Hfail'.
Qed.

Lemma feedback_status_query_fails_silently_witness :
  let f1 :=
    {| Feedback.id := "f1"; Feedback.swap_request_id := "r1";
       Feedback.reviewer_id := Scenario.bob;
       Feedback.reviewee_id := Scenario.alice; Feedback.rating := 4%Z;
       Feedback.comment := None; Feedback.created_at := 15 |} in
  map FeedbackPage.AcceptedSwapRequest.id
    (FeedbackPage.pendingFeedback
       (fst (FeedbackPage.fetchAcceptedSwaps (Scenario.offline_at 3)
               Scenario.bob (Scenario.db accepted [f1])
               FeedbackPage.initial)))
  = ["r1"]
  /\ snd (FeedbackPage.fetchAcceptedSwaps (Scenario.offline_at 3)
            Scenario.bob (Scenario.db accepted [f1]) FeedbackPage.initial)
     = [].
Proof.
  intros f1.
  destruct (feedback_status_query_fails_silently (Scenario.offline_at 3)
              Scenario.bob (Scenario.db accepted [f1]) FeedbackPage.initial
              "Failed to fetch") as [H _].
  - intros k Hk. unfold Scenario.offline_at. cbn [net].
    destruct k as [|[|[|k]]]; [reflexivity | reflexivity | reflexivity | lia].
  - reflexivity.
  - split; [reflexivity | exact H].
Defined.

(** ** The card of a sent request *)

(** X27: the card of a sent request.  For a stored request [r] of the
    user, whose recipient has the profile [p] and whose skills are [so]
    (offered) and [sw] (wanted), the sent list has an entry showing [r].
    If the user may not read [p] or [p] has no display name, rendering the
    card throws.  Otherwise the card carries the recipient's name, shows
    the offered skill under "You offer:" and the wanted skill under "You
    want:", the status capitalised on a badge of the colour of the status
    (yellow, green or red), the message if it is not empty, Delete exactly
    when the request is pending, and never Accept or Decline. *)
Theorem sent_card (env : Env) (uid : uuid) (db : Database)
  (st : SwapRequestsPage.State) (r : SwapRequests.row) (p : Profiles.row)
  (so sw : Skills.row) :
  (forall k, k < 3 -> net env k = None) ->
  NoDup (map Profiles.user_id (profiles db)) ->
  NoDup (map Skills.id (skills db)) ->
  In r (swap_requests db) ->
  SwapRequests.requester_id r = uid ->
  In p (profiles db) ->
  Profiles.user_id p = SwapRequests.recipient_id r ->
  In so (skills db) ->
  Skills.id so = SwapRequests.offered_skill_id r ->
  In sw (skills db) ->
  Skills.id sw = SwapRequests.wanted_skill_id r ->
  exists v,
    In v (SwapRequestsPage.sentRequests
            (fst (SwapRequestsPage.fetchSwapRequests env uid db st)))
    /\ lists v r
    /\ match
         (if Policy.profiles_select uid p then Profiles.display_name p
          else None)
       with
       | None => SwapRequestsPage.RequestCard SwapRequestsPage.sent v = None
       | Some name =>
           exists card,
             SwapRequestsPage.RequestCard SwapRequestsPage.sent v
             = Some card
             /\ SwapRequestsPage.Card.name card = name
             /\ SwapRequestsPage.Card.offeredLabel card = "You offer:"
             /\ SwapRequestsPage.Card.offered card = Skills.name so
             /\ SwapRequestsPage.Card.wantedLabel card = "You want:"
             /\ SwapRequestsPage.Card.wanted card = Skills.name sw
             /\ SwapRequestsPage.Card.badge card
                = match SwapRequests.status r with
                  | pending => "Pending"
                  | accepted => "Accepted"
                  | rejected => "Rejected"
                  end
             /\ SwapRequestsPage.Card.badgeColor card
                = match SwapRequests.status r with
                  | pending => "bg-yellow-100 text-yellow-800"
                  | accepted => "bg-green-100 text-green-800"
                  | rejected => "bg-red-100 text-red-800"
                  end
             /\ SwapRequestsPage.Card.note card
                = match SwapRequests.message r with
                  | Some EmptyString | None => None
                  | Some m => Some m
                  end
             /\ SwapRequestsPage.Card.delete card
                = Status_eqb (SwapRequests.status r) pending
             /\ SwapRequestsPage.Card.acceptDecline card = false
       end.
Proof.
  intros Honline NDp NDs Hr Hreq Hp Hpu Hso Hsoid Hsw Hswid.
  destruct (fetchSwapRequests_online env uid db st Honline)
    as [data [profiles [skills [Hdata [Hprofiles [Hskills Hfetch]]]]]].
  destruct (requests_data uid None db) as [data' [Hdata' [_ Hin]]].
  assert (data' = data) by congruence. subst data'.
  assert (Hrd : In r data).
  { apply Hin. split; [assumption|]. split; [discriminate | auto]. }
  exists (SwapRequestsPage.transform (profilesMap profiles)
            (skillsMap skills) r).
  rewrite Hfetch. cbn [fst SwapRequestsPage.sentRequests].
  split.
  { apply filter_In. split; [now apply in_map|].
    simpl. now apply String.eqb_eq. }
  split; [apply transform_lists|].
  unfold SwapRequestsPage.RequestCard, SwapRequestsPage.transform.
  cbn [SwapRequestsPage.requester SwapRequestsPage.recipient
       SwapRequestsPage.offered_skill SwapRequestsPage.wanted_skill
       SwapRequestsPage.status SwapRequestsPage.message
       SwapRequestsPage.showsAcceptDecline SwapRequestsPage.showsDelete
       Party.make Party.display_name Party.avatar_url].
  rewrite (fun H => profilesMap_get uid (SwapRequests.recipient_id r) _ db
                      profiles NDp H Hprofiles) by
    (apply distinct_In, in_or_app; right; now apply in_map).
  rewrite (fun H => skillsMap_get uid (SwapRequests.offered_skill_id r) _ db
                      skills NDs H Hskills) by
    (apply distinct_In, in_or_app; left; now apply in_map).
  rewrite (fun H => skillsMap_get uid (SwapRequests.wanted_skill_id r) _ db
                      skills NDs H Hskills) by
    (apply distinct_In, in_or_app; right; now apply in_map).
  rewrite <- Hpu, <- Hsoid, <- Hswid.
  rewrite (find_unique Profiles.user_id _ p NDp Hp).
  rewrite (find_unique Skills.id _ so NDs Hso).
  rewrite (find_unique Skills.id _ sw NDs Hsw).
  destruct (Policy.profiles_select uid p); [|reflexivity].
  destruct (Profiles.display_name p) as [name|]; [|reflexivity].
  cbn [option_map]. eexists. split; [reflexivity|].
  cbn [SwapRequestsPage.Card.name SwapRequestsPage.Card.offeredLabel
    SwapRequestsPage.Card.offered SwapRequestsPage.Card.wantedLabel
    SwapRequestsPage.Card.wanted SwapRequestsPage.Card.badge
    SwapRequestsPage.Card.badgeColor SwapRequestsPage.Card.note
    SwapRequestsPage.Card.delete SwapRequestsPage.Card.acceptDecline].
  repeat split.
  - now destruct (SwapRequests.status r).
  - now destruct (SwapRequests.status r).
  - destruct (SwapRequests.message r) as [[|c m]|]; reflexivity.
Qed.

Lemma sent_card_witness :
  exists v card,
    In v (SwapRequestsPage.sentRequests
            (fst (SwapRequestsPage.fetchSwapRequests Scenario.env
                    Scenario.bob (Scenario.db accepted [])
                    SwapRequestsPage.initial)))
    /\ SwapRequestsPage.RequestCard SwapRequestsPage.sent v = Some card
    /\ SwapRequestsPage.Card.badge card = "Accepted"
    /\ SwapRequestsPage.Card.delete card = false.
Proof.
  destruct (sent_card Scenario.env Scenario.bob (Scenario.db accepted [])
              SwapRequestsPage.initial (Scenario.request accepted)
              (Scenario.profile "p-alice" Scenario.alice "Alice" true)
              Scenario.spanish Scenario.guitar)
    as [v [Hv [_ Hcard]]].
  - intros k _. reflexivity.
  - simpl. repeat (constructor; [simpl; intuition discriminate|]).
    constructor.
  - simpl. repeat (constructor; [simpl; intuition discriminate|]).
    constructor.
  - simpl. tauto.
  - reflexivity.
  - simpl. tauto.
  - reflexivity.
  - simpl. tauto.
  - reflexivity.
  - simpl. tauto.
  - reflexivity.
  - cbn in Hcard.
    destruct Hcard as [card [Hc [_ [_ [_ [_ [_ [Hb [_ [_ [Hd _]]]]]]]]]]].
    exists v, card. repeat split; assumption.
Defined.

(** ** Avatars: from the upload to the stored profile *)

Lemma filter_unique {A} (key : A -> string) (l : list A) (a : A) :
  NoDup (map key l) -> In a l ->
  filter (fun b => String.eqb (key b) (key a)) l = [a].
Proof.
  induction l as [|b l IH]; simpl; intros ND Ha; [contradiction|].
  inversion ND as [|? ? Hnotin ND']; subst.
  destruct Ha as [-> | Ha].
  - rewrite String.eqb_refl. f_equal. apply filter_none.
    intros c Hc. apply String.eqb_neq. intros E. apply Hnotin.
    rewrite <- E. now apply in_map.
  - destruct (String.eqb (key b) (key a)) eqn:E; [|now apply IH].
    exfalso. apply String.eqb_eq in E. apply Hnotin. rewrite E.
    now apply in_map.
Qed.

(** The profile row of the user, as [fetchProfile] asks for it. *)
Lemma own_profile (uid : uuid) (db : Database) (p : Profiles.row) :
  NoDup (map Profiles.user_id (profiles db)) ->
  In p (profiles db) ->
  Profiles.user_id p = uid ->
  Supabase.profiles_maybe_single None uid db = inr (Some p).
Proof.
  intros ND Hp Hu. unfold Supabase.profiles_maybe_single, Supabase.select.
  rewrite (filter_ext _
             (fun b => String.eqb (Profiles.user_id b) (Profiles.user_id p))).
  - now rewrite (filter_unique Profiles.user_id _ p ND Hp).
  - intros b. rewrite Hu. unfold Policy.profiles_select.
    destruct (String.eqb (Profiles.user_id b) uid) eqn:E;
      [|now rewrite andb_false_r].
    apply String.eqb_eq in E. rewrite E, String.eqb_refl.
    now rewrite orb_true_r.
Qed.

(** X28: an uploaded avatar does not reach the stored profile of a user
    who has one.  Let the user, whose profile row is [p], upload a picture
    and then save the form (the backend answering each time, the id drawn
    for the save being new).  The upload sets the avatar URL of the form to
    the public URL of the new object; the save is refused with the
    uniqueness error of [user_id] and leaves the database as it was; so the
    profile page, loaded again, shows [p] with the avatar it had before. *)
Theorem uploaded_avatar_is_not_saved (env1 env2 env3 : Env)
  (supabaseUrl : string) (uid : uuid) (file : ProfilePage.File)
  (objects : list Storage.object) (db : Database) (st : ProfilePage.State)
  (p : Profiles.row) :
  free_of "/" uid = true ->
  net env1 0 = None ->
  net env2 0 = None ->
  net env3 0 = None ->
  ~ In (fresh env2 0) (map Profiles.id (profiles db)) ->
  NoDup (map Profiles.user_id (profiles db)) ->
  In p (profiles db) ->
  Profiles.user_id p = uid ->
  let uploaded :=
    ProfilePage.handleFileUpload env1 supabaseUrl uid (Some file) objects st
  in
  let saved := ProfilePage.handleSubmit env2 uid db (snd (fst uploaded)) in
  let reloaded :=
    ProfilePage.fetchProfile env3 uid (fst (fst saved)) (snd (fst saved)) in
  ProfilePage.Profile.avatar_url (ProfilePage.profile (snd (fst uploaded)))
  = Some (Storage.getPublicUrl supabaseUrl "avatars"
            (ProfilePage.fileName uid file))
  /\ fst (fst saved) = db
  /\ snd saved
     = [error_toast "Error updating profile"
          (Supabase.unique_error "profiles_user_id_key")]
  /\ ProfilePage.profile (fst reloaded) = ProfilePage.Profile.of_row p
  /\ ProfilePage.Profile.avatar_url (ProfilePage.profile (fst reloaded))
     = Profiles.avatar_url p.
Proof.
  intros Hfree Hnet1 Hnet2 Hnet3 Hfresh ND Hp Hu uploaded saved reloaded.
  destruct (avatar_folder uid file Hfree) as [more Hfolder].
  assert (Hup : ProfilePage.Profile.avatar_url
                  (ProfilePage.profile (snd (fst uploaded)))
                = Some (Storage.getPublicUrl supabaseUrl "avatars"
                          (ProfilePage.fileName uid file))).
  { subst uploaded. unfold ProfilePage.handleFileUpload, Storage.upload.
    rewrite Hnet1. unfold Storage.owner_policy.
    cbn [Storage.bucket_id Storage.name]. rewrite Hfolder, String.eqb_refl.
    cbn [String.eqb andb negb]. rewrite String.eqb_refl. cbn [negb].
    destruct (existsb _ objects); reflexivity. }
  assert (Hsaved : saved
                   = (db, ProfilePage.setSaving false (snd (fst uploaded)),
                      [error_toast "Error updating profile"
                         (Supabase.unique_error "profiles_user_id_key")])).
  { subst saved. unfold ProfilePage.handleSubmit.
    rewrite (profiles_upsert_fresh env2 uid db _ Hnet2 Hfresh).
    assert (Hhas : existsb (fun q => String.eqb (Profiles.user_id q) uid)
                     (profiles db) = true).
    { apply (existsb_key Profiles.user_id). rewrite <- Hu.
      now apply in_map. }
    now rewrite Hhas. }
  split; [exact Hup|]. subst reloaded. rewrite Hsaved. cbn [fst snd].
  split; [reflexivity|]. split; [reflexivity|].
  unfold ProfilePage.fetchProfile.
  rewrite Hnet3, (own_profile uid db p ND Hp Hu). cbn [fst].
  split; reflexivity.
Qed.

Lemma uploaded_avatar_is_not_saved_witness :
  let picture :=
    {| ProfilePage.name := "me.png"; ProfilePage.content := "PNG" |} in
  let page :=
    fst (ProfilePage.fetchProfile Scenario.env Scenario.alice
           (Scenario.db pending []) ProfilePage.initial) in
  let uploaded :=
    ProfilePage.handleFileUpload Scenario.env "https://project.supabase.co"
      Scenario.alice (Some picture) [] page in
  let saved :=
    ProfilePage.handleSubmit Scenario.env Scenario.alice
      (Scenario.db pending []) (snd (fst uploaded)) in
  ProfilePage.Profile.avatar_url (ProfilePage.profile (snd (fst uploaded)))
  = Some ("https://project.supabase.co/storage/v1/object/public/avatars/"
          +++ "alice/avatar.png")
  /\ ProfilePage.Profile.avatar_url
       (ProfilePage.profile
          (fst (ProfilePage.fetchProfile Scenario.env Scenario.alice
                  (fst (fst saved)) (snd (fst saved)))))
     = None.
Proof.
  intros picture page uploaded saved.
  destruct (uploaded_avatar_is_not_saved Scenario.env Scenario.env
              Scenario.env "https://project.supabase.co" Scenario.alice
              picture [] (Scenario.db pending []) page
              (Scenario.profile "p-alice" Scenario.alice "Alice" true))
    as [H1 [_ [_ [_ H2]]]].
  - reflexivity.
  - reflexivity.
  - reflexivity.
  - reflexivity.
  - simpl. intuition discriminate.
  - simpl. repeat (constructor; [simpl; intuition discriminate|]).
    constructor.
  - simpl. tauto.
  - reflexivity.
  - split; [exact H1 | exact H2].
Defined.

(** ** Private profiles *)

Section PrivateProfile.

Variables (viewer hidden : uuid) (db : Database).

Hypothesis other : viewer <> hidden.

Hypothesis private :
  forall p, In p (profiles db) -> Profiles.user_id p = hidden ->
    Profiles.is_public p <> Some true.

(** No profile of the hidden user is among the rows the viewer is sent. *)
Lemma private_party (net : option string) (userIds : list uuid)
  (rows : list Profiles.row) :
  Supabase.profiles_in net viewer userIds db = inr rows ->
  Party.make hidden (JsMap.get hidden (profilesMap rows))
  = {| Party.id := hidden; Party.display_name := None;
       Party.avatar_url := None |}.
Proof.
  intros Hrows. unfold Supabase.profiles_in, Supabase.select in Hrows.
  destruct net; [discriminate|]. inversion Hrows as [Hr]. clear Hrows.
  assert (Hnone : JsMap.get hidden
                    (profilesMap
                       (filter
                          (fun r =>
                             Policy.profiles_select viewer r
                             && mem (Profiles.user_id r) userIds)
                          (profiles db)))
                  = None).
  { unfold profilesMap, JsMap.of_entries. rewrite JsMap_get_fold.
    destruct (find _ (rev _)) as [kv|] eqn:Hfind; [|reflexivity].
    exfalso. apply find_some in Hfind. destruct Hfind as [Hin Hk].
    apply in_rev, in_map_iff in Hin. destruct Hin as [p [<- Hp]].
    cbn [fst] in Hk. apply String.eqb_eq in Hk.
    apply filter_In in Hp. destruct Hp as [Hp Hc].
    apply andb_true_iff in Hc. destruct Hc as [Hc _].
    unfold Policy.profiles_select in Hc. apply orb_true_iff in Hc.
    destruct Hc as [Hc | Hc].
    - apply (private p Hp Hk).
      destruct (Profiles.is_public p) as [[|]|]; congruence.
    - apply String.eqb_eq in Hc. congruence. }
  now rewrite Hnone.
Qed.

End PrivateProfile.

Local Abbreviation nameless party :=
  (Party.display_name party = None /\ Party.avatar_url party = None).

(** X29: a private profile is hidden on every page of another user.  Let
    the profile of a user be private.  Whatever another user's pages load
    (their queries answered), no entry carries the name or the avatar of
    that user: the parties of the swap requests, of the accepted swaps and
    of the feedback that are that user have neither, and no search finds
    the user. *)
Theorem private_profile_is_hidden (viewer hidden : uuid) (db : Database) :
  viewer <> hidden ->
  (forall p, In p (profiles db) -> Profiles.user_id p = hidden ->
     Profiles.is_public p <> Some true) ->
  (forall env st v,
     (forall k, k < 3 -> net env k = None) ->
     let st' := fst (SwapRequestsPage.fetchSwapRequests env viewer db st) in
     In v (SwapRequestsPage.sentRequests st'
           ++ SwapRequestsPage.receivedRequests st') ->
     (Party.id (SwapRequestsPage.requester v) = hidden ->
      nameless (SwapRequestsPage.requester v))
     /\ (Party.id (SwapRequestsPage.recipient v) = hidden ->
         nameless (SwapRequestsPage.recipient v)))
  /\ (forall env st v,
        (forall k, k < 3 -> net env k = None) ->
        In v (FeedbackPage.acceptedSwaps
                (fst (FeedbackPage.fetchAcceptedSwaps env viewer db st))) ->
        (Party.id (FeedbackPage.AcceptedSwapRequest.requester v) = hidden ->
         nameless (FeedbackPage.AcceptedSwapRequest.requester v))
        /\ (Party.id (FeedbackPage.AcceptedSwapRequest.recipient v) = hidden
            -> nameless (FeedbackPage.AcceptedSwapRequest.recipient v)))
  /\ (forall env st w,
        (forall k, k < 2 -> net env k = None) ->
        In w (FeedbackPage.myFeedback
                (FeedbackPage.fetchMyFeedback env viewer db st)) ->
        Party.id (FeedbackPage.FeedbackView.reviewer w) = hidden ->
        nameless (FeedbackPage.FeedbackView.reviewer w))
  /\ (forall env st u,
        ~ blank (SearchPage.searchTerm st) ->
        (forall k, k < 4 -> net env k = None) ->
        In u (SearchPage.users
                (fst (SearchPage.searchUsers env viewer db st))) ->
        SearchPage.UserProfile.user_id u <> hidden).
Proof.
  intros Hother Hprivate.
  refine (conj _ (conj _ (conj _ _))).
  - intros env st v Honline st' Hv. subst st'.
    destruct (fetchSwapRequests_online env viewer db st Honline)
      as [data [profiles [skills [_ [Hprofiles [_ Hfetch]]]]]].
    rewrite Hfetch in Hv.
    cbn [fst SwapRequestsPage.sentRequests SwapRequestsPage.receivedRequests]
      in Hv.
    assert (Hv' : In v (map (SwapRequestsPage.transform
                               (profilesMap profiles) (skillsMap skills))
                          data)).
    { apply in_app_or in Hv. destruct Hv as [Hv | Hv];
        apply filter_In in Hv; tauto. }
    apply in_map_iff in Hv'. destruct Hv' as [r [<- _]].
    cbn [SwapRequestsPage.transform SwapRequestsPage.requester
      SwapRequestsPage.recipient].
    split; intros Hid; cbn [Party.make Party.id] in Hid; rewrite Hid;
      rewrite (private_party viewer hidden db Hother Hprivate _ _ _
                 Hprofiles);
      split; reflexivity.
  - intros env st v Honline Hv.
    unfold FeedbackPage.fetchAcceptedSwaps in Hv.
    rewrite (Honline 0), (Honline 1), (Honline 2) in Hv by lia.
    destruct (Supabase.swap_requests_of None viewer (Some accepted) db)
      as [e|data] eqn:Hdata;
      [unfold Supabase.swap_requests_of, Supabase.select in Hdata;
       discriminate|].
    destruct (Supabase.profiles_in None viewer _ db) as [e|profiles]
      eqn:Hprofiles;
      [unfold Supabase.profiles_in, Supabase.select in Hprofiles;
       discriminate|].
    destruct (Supabase.skills_in None viewer _ db) as [e|skills]
      eqn:Hskills;
      [unfold Supabase.skills_in, Supabase.select in Hskills;
       discriminate|].
    cbn [fst FeedbackPage.acceptedSwaps FeedbackPage.setLoading
      FeedbackPage.setAcceptedSwaps] in Hv.
    apply in_map_iff in Hv. destruct Hv as [r [<- _]].
    cbn [FeedbackPage.withFeedbackStatus
      FeedbackPage.AcceptedSwapRequest.requester
      FeedbackPage.AcceptedSwapRequest.recipient].
    split; intros Hid; cbn [Party.make Party.id] in Hid; rewrite Hid;
      rewrite (private_party viewer hidden db Hother Hprivate _ _ _
                 Hprofiles);
      split; reflexivity.
  - intros env st w Honline Hw Hid.
    unfold FeedbackPage.fetchMyFeedback in Hw.
    rewrite (Honline 0), (Honline 1) in Hw by lia.
    destruct (Supabase.feedback_about None viewer db) as [e|data] eqn:Hdata;
      [unfold Supabase.feedback_about, Supabase.select in Hdata;
       discriminate|].
    destruct (Supabase.profiles_in None viewer _ db) as [e|profiles]
      eqn:Hprofiles;
      [unfold Supabase.profiles_in, Supabase.select in Hprofiles;
       discriminate|].
    cbn [FeedbackPage.myFeedback FeedbackPage.setMyFeedback] in Hw.
    apply in_map_iff in Hw. destruct Hw as [f [<- _]].
    cbn [FeedbackPage.transformFeedback FeedbackPage.FeedbackView.reviewer]
      in *.
    cbn [Party.make Party.id] in Hid. rewrite Hid.
    rewrite (private_party viewer hidden db Hother Hprivate _ _ _
               Hprofiles).
    split; reflexivity.
  - intros env st u Hterm Honline Hu Hid.
    destruct (found_user env viewer db st u Hterm Honline Hu)
      as [_ [[p [Hp [Hpu Hpub]]] _]].
    apply (Hprivate p Hp); congruence.
Qed.

Lemma private_profile_is_hidden_witness :
  Forall
    (fun v => Party.display_name (SwapRequestsPage.requester v) = None)
    (filter
       (fun v =>
          String.eqb (Party.id (SwapRequestsPage.requester v))
            Scenario.carol)
       (SwapRequestsPage.receivedRequests
          (fst (SwapRequestsPage.fetchSwapRequests Scenario.env
                  Scenario.alice (Scenario.busy pending)
                  SwapRequestsPage.initial))))
  /\ List.length
       (SwapRequestsPage.receivedRequests
          (fst (SwapRequestsPage.fetchSwapRequests Scenario.env
                  Scenario.alice (Scenario.busy pending)
                  SwapRequestsPage.initial)))
     = 2.
Proof.
  destruct (private_profile_is_hidden Scenario.alice Scenario.carol
              (Scenario.busy pending)) as [H _].
  - discriminate.
  - intros p Hp Hu. simpl in Hp.
    destruct Hp as [<- | [<- | [<- | [<- | []]]]];
      try discriminate Hu. discriminate.
  - split; [|reflexivity].
    apply Forall_forall. intros v Hv. apply filter_In in Hv.
    destruct Hv as [Hv Hid]. apply String.eqb_eq in Hid.
    destruct (H Scenario.env SwapRequestsPage.initial v) as [Hreq _].
    + intros k _. reflexivity.
    + apply in_or_app. now right.
    + exact (proj1 (Hreq Hid)).
Defined.
